(** * The lab-results portal client (crawler.py), embedded in Rocq

    The development follows [LabCrawler] of crawler.py: the string
    primitives of Python the crawler relies on, the document tree that
    BeautifulSoup hands back, the HTTP session as an explicit interface,
    and the four operations [login], [check_results], [get_pdf_link] and
    [download_pdf] written in a small state-and-exception monad. *)

From Stdlib Require Import String Ascii List Bool Arith Lia.
Import ListNotations.
Open Scope string_scope.
Open Scope list_scope.
Open Scope nat_scope.

(** ** Python strings

    A [str] (and a [bytes]) is a [string]: one [ascii] per character, the
    code points U+0000 to U+00FF. *)

Module PyStr.

Definition code (c : ascii) : nat := nat_of_ascii c.

(** [str.lower] on one character: A-Z, and the Latin-1 capitals
    U+00C0..U+00DE without the multiplication sign U+00D7. *)
Definition lower_char (c : ascii) : ascii :=
  let n := code c in
  if ((65 <=? n) && (n <=? 90)) || ((192 <=? n) && (n <=? 222) && negb (n =? 215))
  then ascii_of_nat (n + 32)
  else c.

Fixpoint lower (s : string) : string :=
  match s with
  | EmptyString => EmptyString
  | String c s' => String (lower_char c) (lower s')
  end.

(** [str.isspace] on one character. *)
Definition isspace (c : ascii) : bool :=
  let n := code c in
  ((9 <=? n) && (n <=? 13)) || ((28 <=? n) && (n <=? 32)) || (n =? 133) || (n =? 160).

(** [s.startswith(p)] *)
Fixpoint startswith (p s : string) : bool :=
  match p, s with
  | EmptyString, _ => true
  | String a p', String b s' => Ascii.eqb a b && startswith p' s'
  | String _ _, EmptyString => false
  end.

(** [needle in hay] *)
Fixpoint contains (needle hay : string) : bool :=
  startswith needle hay ||
  match hay with
  | EmptyString => false
  | String _ hay' => contains needle hay'
  end.

Fixpoint rev_acc (s acc : string) : string :=
  match s with
  | EmptyString => acc
  | String c s' => rev_acc s' (String c acc)
  end.

Definition rev (s : string) : string := rev_acc s EmptyString.

(** [s.endswith(p)] *)
Definition endswith (p s : string) : bool := startswith (rev p) (rev s).

(** [s.replace(' ', '')] *)
Fixpoint remove_spaces (s : string) : string :=
  match s with
  | EmptyString => EmptyString
  | String c s' =>
      if Ascii.eqb c " "%char then remove_spaces s' else String c (remove_spaces s')
  end.

(** [s.lstrip], [s.rstrip] and [s.strip] for a set of characters given
    as a predicate. *)
Fixpoint lstrip_by (p : ascii -> bool) (s : string) : string :=
  match s with
  | EmptyString => EmptyString
  | String c s' => if p c then lstrip_by p s' else s
  end.

Fixpoint rstrip_by (p : ascii -> bool) (s : string) : string :=
  match s with
  | EmptyString => EmptyString
  | String c s' =>
      match rstrip_by p s' with
      | EmptyString => if p c then EmptyString else String c EmptyString
      | r => String c r
      end
  end.

Definition strip_by (p : ascii -> bool) (s : string) : string :=
  rstrip_by p (lstrip_by p s).

(** [s.strip()] *)
Definition strip (s : string) : string := strip_by isspace s.

Fixpoint mem_char (c : ascii) (chars : string) : bool :=
  match chars with
  | EmptyString => false
  | String d chars' => Ascii.eqb c d || mem_char c chars'
  end.

(** [s.strip(chars)] *)
Definition strip_chars (chars s : string) : string :=
  strip_by (fun c => mem_char c chars) s.

(** [s.split(sep)] for a non-empty separator: [skip] counts the
    characters of a separator just matched that are still to be passed
    over, [cur] is the piece being collected. *)
Fixpoint split_go (sep : string) (skip : nat) (cur s : string) : list string :=
  match s with
  | EmptyString => [cur]
  | String c s' =>
      match skip with
      | S k => split_go sep k cur s'
      | O =>
          if startswith sep s
          then cur :: split_go sep (String.length sep - 1) EmptyString s'
          else split_go sep 0 (String.append cur (String c EmptyString)) s'
      end
  end.

Definition split (sep s : string) : list string := split_go sep 0 EmptyString s.

(** [sep.join(parts)] *)
Definition join (sep : string) (parts : list string) : string :=
  String.concat sep parts.

(** Truth value of a [str]: non-empty. *)
Definition truthy (s : string) : bool :=
  match s with EmptyString => false | _ => true end.

End PyStr.

Import PyStr.

(** ** The document tree of BeautifulSoup

    A parsed page is a tree of tags and text. The [class] attribute is
    multi-valued in bs4 ([tag.get('class')] is a list of names), every
    other attribute the crawler reads is a plain string; a tag therefore
    carries its string attributes and, apart, its list of class names
    (empty when the attribute is absent: the crawler only ever reads
    [tag.get('class', [])]). The [BeautifulSoup] object itself is the tag
    named [[document]]. *)

Module Soup.

#[warnings="-register-all"] Inductive node : Type :=
| NavigableString (s : string)
| Tag (name : string) (attrs : list (string * string)) (class_ : list string)
      (contents : list node).

Definition tag_name (n : node) : option string :=
  match n with
  | NavigableString _ => None
  | Tag name _ _ _ => Some name
  end.

Definition is_tag (name : string) (n : node) : bool :=
  match n with
  | NavigableString _ => false
  | Tag name' _ _ _ => String.eqb name' name
  end.

Fixpoint assoc (key : string) (l : list (string * string)) : option string :=
  match l with
  | [] => None
  | (k, v) :: l' => if String.eqb k key then Some v else assoc key l'
  end.

(** [tag.get(key)] *)
Definition get (key : string) (n : node) : option string :=
  match n with
  | NavigableString _ => None
  | Tag _ attrs _ _ => assoc key attrs
  end.

(** [tag.get(key, default)] *)
Definition get_or (key default : string) (n : node) : string :=
  match get key n with
  | Some v => v
  | None => default
  end.

(** [tag.get('class', [])] *)
Definition get_class (n : node) : list string :=
  match n with
  | NavigableString _ => []
  | Tag _ _ class_ _ => class_
  end.

(** [tag.descendants]: every node below the tag, in document order. *)
Fixpoint descendants (n : node) : list node :=
  match n with
  | NavigableString _ => []
  | Tag _ _ _ contents => flat_map (fun c => c :: descendants c) contents
  end.

(** [tag.get_text()] *)
Fixpoint get_text (n : node) : string :=
  match n with
  | NavigableString s => s
  | Tag _ _ _ contents => String.concat "" (map get_text contents)
  end.

(** [tag.find_all(name)] with an extra test on the tag, and [tag.find]. *)
Definition find_all_where (name : string) (test : node -> bool) (n : node) : list node :=
  filter (fun d => is_tag name d && test d) (descendants n).

Definition find_all (name : string) (n : node) : list node :=
  find_all_where name (fun _ => true) n.

Definition find_where (name : string) (test : node -> bool) (n : node) : option node :=
  hd_error (find_all_where name test n).

Definition find (name : string) (n : node) : option node :=
  hd_error (find_all name n).

(** The attribute filters the crawler uses: [{'type': 'hidden'}] and the
    like, [href=True], and [href=] a function of the value (called with
    [None] when the attribute is absent). *)
Definition attr_is (key value : string) (n : node) : bool :=
  match get key n with
  | Some v => String.eqb v value
  | None => false
  end.

Definition has_attr (key : string) (n : node) : bool :=
  match get key n with
  | Some _ => true
  | None => false
  end.

Definition attr_satisfies (key : string) (f : option string -> bool) (n : node) : bool :=
  f (get key n).

Definition found (o : option node) : bool :=
  match o with
  | Some _ => true
  | None => false
  end.

End Soup.

Import Soup.

(** ** The outside world: requests, the HTML parser, base64 *)

Inductive exception : Type :=
| RequestException     (* requests.RequestException and its subclasses,
                          HTTPError of raise_for_status among them *)
| DecodeError.         (* binascii.Error / ValueError of base64.b64decode *)

Record Response : Type := mkResponse {
  status_code : nat;
  headers : list (string * string);
  text : string;
  content : string;
  url : string
}.

(** An insertion-ordered [dict] from [str] to [str] (the form data). *)
Definition dict : Type := list (string * string).

Fixpoint dict_set (key value : string) (d : dict) : dict :=
  match d with
  | [] => [(key, value)]
  | (k, v) :: d' =>
      if String.eqb k key then (k, value) :: d' else (k, v) :: dict_set key value d'
  end.

Definition dict_get (key : string) (d : dict) : option string := assoc key d.

(** The portal as seen through a [requests.Session]: a request is answered
    by a response, or raises a [requests.RequestException] ([None]), the
    only exception the session's methods are documented to raise; either
    way it moves the world (server and cookie jar) to a new state.
    [html_parser] is [BeautifulSoup(text, 'html.parser')], [b64decode] is
    [base64.b64decode], which raises on malformed input. *)
Class Environment : Type := {
  World : Type;
  http_get : string -> World -> option Response * World;
  http_post : string -> dict -> World -> option Response * World;
  html_parser : string -> node;
  b64decode : string -> exception + string
}.

(** [response.headers.get(key, default)]: header names compare without
    regard to case. *)
Fixpoint headers_get (key default : string) (hs : list (string * string)) : string :=
  match hs with
  | [] => default
  | (k, v) :: hs' =>
      if String.eqb (lower k) (lower key) then v else headers_get key default hs'
  end.

Definition base_url : string := "https://lablaudo.com.br".
Definition login_url : string := String.append base_url "/acesso_paciente".

(** The joining of a link to the portal's origin, as the crawler writes
    it at each place it follows an href. *)
Definition absolutize (href : string) : string :=
  if startswith "/" href then String.append base_url href
  else if negb (startswith "http" href) then String.append base_url (String.append "/" href)
  else href.

(** ** The crawler object and its monad

    [LabCrawler] holds the session, whose state is the world's, and the
    remembered results location. A method is a function of the object
    returning a value or a raised exception together with the object as
    the method left it. *)

Section Crawler.

Context {env : Environment}.

Record LabCrawler : Type := mkLabCrawler {
  session : World;
  results_url : option string
}.

(** [LabCrawler()] *)
Definition new_crawler (w : World) : LabCrawler :=
  {| session := w; results_url := None |}.

Definition M (A : Type) : Type := LabCrawler -> (exception + A) * LabCrawler.

Definition ret {A} (a : A) : M A := fun self => (inr a, self).

Definition raise {A} (e : exception) : M A := fun self => (inl e, self).

Definition bind {A B} (m : M A) (k : A -> M B) : M B :=
  fun self =>
    match m self with
    | (inr a, self') => k a self'
    | (inl e, self') => (inl e, self')
    end.

(** [try: body  except requests.RequestException: handler] *)
Definition try_except {A} (body handler : M A) : M A :=
  fun self =>
    match body self with
    | (inl RequestException, self') => handler self'
    | r => r
    end.

End Crawler.

Declare Scope crawler_scope.
Delimit Scope crawler_scope with crawler.
Notation "x <- m ;; k" := (bind m (fun x => k))
  (at level 61, m at next level, right associativity) : crawler_scope.
Notation "m ;;; k" := (bind m (fun _ => k))
  (at level 61, right associativity) : crawler_scope.
Open Scope crawler_scope.

Section Methods.

Context {env : Environment}.

(** The outcome of a request as the method sees it: the response, or the
    [RequestException] raised in its place. *)
Definition answered (r : option Response) : exception + Response :=
  match r with
  | Some response => inr response
  | None => inl RequestException
  end.

(** [self.session.get(url)] and [self.session.post(url, data=data)] *)
Definition session_get (u : string) : M Response :=
  fun self =>
    let (r, w) := http_get u (session self) in
    (answered r, {| session := w; results_url := results_url self |}).

Definition session_post (u : string) (data : dict) : M Response :=
  fun self =>
    let (r, w) := http_post u data (session self) in
    (answered r, {| session := w; results_url := results_url self |}).

(** [response.raise_for_status()]: HTTPError on 4xx and 5xx. *)
Definition raise_for_status (r : Response) : M unit :=
  if (400 <=? status_code r) && (status_code r <? 600)
  then raise RequestException
  else ret tt.

Definition read_results_url : M (option string) :=
  fun self => (inr (results_url self), self).

Definition write_results_url (u : string) : M unit :=
  fun self => (inr tt, {| session := session self; results_url := Some u |}).

(** Truth value of [self.results_url]: set, and not the empty string. *)
Definition url_set (o : option string) : bool :=
  match o with
  | Some u => truthy u
  | None => false
  end.

(** [self.results_url] if it is set, [self.login_url] otherwise: the url
    the three later methods start from. *)
Definition page_url (o : option string) : string :=
  match o with
  | Some u => if truthy u then u else login_url
  | None => login_url
  end.

(** *** _is_row_green *)

Definition cell_is_green (cell : node) : bool :=
  let cell_style := lower (get_or "style" "" cell) in
  let cell_class := lower (join " " (get_class cell)) in
  let cell_text := lower (strip (get_text cell)) in
  contains "green" cell_style || contains "green" cell_class ||
  contains "#00ff00" cell_style || contains "#0f0" cell_style ||
  contains "rgb(0,255,0)" cell_style ||
  contains "background-color:green" (remove_spaces cell_style) ||
  contains "success" cell_class || contains "ready" cell_class ||
  contains "disponivel" cell_text || contains "pronto" cell_text ||
  contains "liberado" cell_text || contains "concluido" cell_text.

(** The loop over the cells, leaving at the first green one. *)
Fixpoint cells_loop (cells : list node) : bool :=
  match cells with
  | [] => false
  | cell :: cells' => if cell_is_green cell then true else cells_loop cells'
  end.

Definition _is_row_green (row : node) : bool :=
  let style := lower (get_or "style" "" row) in
  let class_attr := lower (join " " (get_class row)) in
  let bgcolor := lower (get_or "bgcolor" "" row) in
  let cells := find_all "td" row in
  let cell_green := cells_loop cells in
  contains "green" style ||
  contains "green" class_attr ||
  contains "#00ff00" style ||
  contains "#0f0" style ||
  contains "rgb(0,255,0)" style ||
  contains "background-color:green" (remove_spaces style) ||
  contains "success" class_attr ||
  contains "ready" (lower class_attr) ||
  contains "disponivel" (lower class_attr) ||
  cell_green ||
  contains "#8ff08f" bgcolor ||
  contains "green" bgcolor.

(** *** login *)

Definition hidden_step (login_data : dict) (hidden_input : node) : dict :=
  let name := get "name" hidden_input in
  let value := get_or "value" "" hidden_input in
  match name with
  | Some name => if truthy name then dict_set name value login_data else login_data
  | None => login_data
  end.

(** [not login_data.get(field_name)] *)
Definition unfilled (field_name : string) (login_data : dict) : bool :=
  match dict_get field_name login_data with
  | Some v => negb (truthy v)
  | None => true
  end.

Definition field_step (username password : string) (login_data : dict)
    (input_field : node) : dict :=
  let field_name := get_or "name" "" input_field in
  let field_type := get_or "type" "" input_field in
  if (String.eqb field_type "text" || String.eqb field_type "email" ||
      String.eqb field_type "number") && unfilled field_name login_data
  then dict_set field_name username login_data
  else if String.eqb field_type "password" && unfilled field_name login_data
  then dict_set field_name password login_data
  else login_data.

Definition build_login_data (username password : string) (form : node) : dict :=
  let login_data :=
    [("username", username); ("password", password);
     ("identificacao", username); ("senha", password)] in
  let login_data :=
    fold_left hidden_step (find_all_where "input" (attr_is "type" "hidden") form)
              login_data in
  fold_left (field_step username password) (find_all "input" form) login_data.

Definition form_action_url (form : node) : string :=
  let action_url := get_or "action" login_url form in
  if startswith "/" action_url then String.append base_url action_url
  else if negb (startswith "http" action_url) then login_url
  else action_url.

Definition success_indicators : list string :=
  ["logout"; "sair"; "resultados"; "results"; "bem-vindo"; "welcome";
   "dashboard"; "painel"; "exames"; "laudos"].

(** Lines 64-110: fetch the form and submit it; [None] when the login
    page has no form. *)
Definition login_submit (username password : string) : M (option Response) :=
  response <- session_get login_url ;;
  raise_for_status response ;;;
  let soup := html_parser (text response) in
  match find "form" soup with
  | None => ret None
  | Some form =>
      let login_data := build_login_data username password form in
      let action_url := form_action_url form in
      login_response <- session_post action_url login_data ;;
      raise_for_status login_response ;;;
      ret (Some login_response)
  end.

Definition login (username password : string) : M bool :=
  try_except
    (submitted <- login_submit username password ;;
     match submitted with
     | None => ret false
     | Some login_response =>
         let page_text := lower (text login_response) in
         let has_success_indicator :=
           existsb (fun indicator => contains indicator page_text) success_indicators in
         let not_on_login :=
           negb (contains "entrar" page_text) || negb (contains "login" page_text) in
         if has_success_indicator || not_on_login
         then write_results_url (url login_response) ;;; ret true
         else ret false
     end)
    (ret false).

(** *** check_results *)

(** The [href] test of the results-page discovery:
    [lambda x: x and ('resultado' in x.lower() or ...)]. *)
Definition results_href (x : option string) : bool :=
  match x with
  | None => false
  | Some x =>
      truthy x &&
      (contains "resultado" (lower x) || contains "exame" (lower x) ||
       contains "laudo" (lower x))
  end.

(** Lines 139-160: the page whose rows are examined. *)
Definition fetch_results_page : M node :=
  remembered <- read_results_url ;;
  response <- session_get (page_url remembered) ;;
  raise_for_status response ;;;
  let soup := html_parser (text response) in
  if negb (url_set remembered) || contains "entrar" (lower (text response)) then
    match find_where "a" (attr_satisfies "href" results_href) soup with
    | Some results_link =>
        let results_url := absolutize (get_or "href" "" results_link) in
        response <- session_get results_url ;;
        raise_for_status response ;;;
        ret (html_parser (text response))
    | None => ret soup
    end
  else ret soup.

(** The test that sends a row past ([continue]). *)
Definition skip_row (row : node) : bool :=
  found (find "th" row) || negb (found (find "td" row)) ||
  contains "visualizar laudo" (lower (get_text row)) ||
  contains "assinatura" (lower (get_text row)).

Fixpoint collect_rows (table_rows results_rows : list node) : list node :=
  match table_rows with
  | [] => results_rows
  | row :: table_rows' =>
      if skip_row row then collect_rows table_rows' results_rows
      else collect_rows table_rows' (results_rows ++ [row])
  end.

(** The loop that sets [all_green], leaving at the first row that is not
    green. *)
Fixpoint green_loop (results_rows : list node) : bool :=
  match results_rows with
  | [] => true
  | row :: rest => if negb (_is_row_green row) then false else green_loop rest
  end.

(** Lines 162-187. *)
Definition rows_verdict (soup : node) : bool :=
  let table_rows := find_all "tr" soup in
  match table_rows with
  | [] => false
  | _ =>
      let results_rows := collect_rows table_rows [] in
      match results_rows with
      | [] => false
      | _ => green_loop results_rows
      end
  end.

Definition check_results : M bool :=
  try_except
    (soup <- fetch_results_page ;; ret (rows_verdict soup))
    (ret false).

(** *** get_pdf_link *)

Definition target_texts : list string := ["visualizar laudo"; "baixar"; "download"].

(** First loop: the first link whose text holds a target text. *)
Fixpoint text_links_loop (links : list node) : option string :=
  match links with
  | [] => None
  | link :: links' =>
      let link_text := lower (strip (get_text link)) in
      let href := get_or "href" "" link in
      if existsb (fun target => contains target link_text) target_texts
      then Some (absolutize href)
      else text_links_loop links'
  end.

(** Second loop: the first link whose href holds [/get_laudo]. *)
Fixpoint laudo_links_loop (links : list node) : option string :=
  match links with
  | [] => None
  | link :: links' =>
      let href := get_or "href" "" link in
      if contains "/get_laudo" href
      then Some (absolutize href)
      else laudo_links_loop links'
  end.

(** Lines 204-237. *)
Definition pick_pdf_link (soup : node) : option string :=
  match text_links_loop (find_all_where "a" (has_attr "href") soup) with
  | Some pdf_url => Some pdf_url
  | None => laudo_links_loop (find_all_where "a" (has_attr "href") soup)
  end.

(** Lines 195-202. *)
Definition fetch_link_page : M node :=
  remembered <- read_results_url ;;
  response <- session_get (page_url remembered) ;;
  raise_for_status response ;;;
  ret (html_parser (text response)).

Definition get_pdf_link : M (option string) :=
  try_except
    (soup <- fetch_link_page ;; ret (pick_pdf_link soup))
    (ret None).

(** *** download_pdf *)

Definition pdf_magic : string := "%PDF".

Definition default_filename : string := "lab_results.pdf".

(** The characters handed to [strip] on the header's file name: the
    double quote (34) and the single quote (39). *)
Definition quote_chars : string :=
  String (ascii_of_nat 34) (String (ascii_of_nat 39) EmptyString).

(** The loop over [reversed(url_parts)], leaving at the first part that
    holds a dot and does not start with a question mark. *)
Fixpoint url_parts_loop (parts : list string) (filename : string) : string :=
  match parts with
  | [] => filename
  | part :: parts' =>
      if contains "." part && negb (startswith "?" part)
      then nth 0 (split "?" part) filename
      else url_parts_loop parts' filename
  end.

(** Lines 323-344. *)
Definition derive_filename (content_disposition pdf_url : string) : string :=
  let filename := default_filename in
  let filename :=
    if contains "filename=" content_disposition
    then match nth_error (split "filename=" content_disposition) 1 with
         | Some after => strip_chars quote_chars after
         | None => filename
         end
    else filename in
  let filename :=
    if String.eqb filename default_filename && truthy pdf_url
    then url_parts_loop (List.rev (split "/" pdf_url)) filename
    else filename in
  if negb (endswith ".pdf" (lower filename))
  then String.append filename ".pdf"
  else filename.

(** Lines 319-346: the gate on [response.content] and the file name. *)
Definition finish_download (response : Response) (pdf_url : string)
    : option (string * string) :=
  if negb (startswith pdf_magic (content response)) then None
  else
    let content_disposition := headers_get "content-disposition" "" (headers response) in
    Some (content response, derive_filename content_disposition pdf_url).

(** Lines 259-275: the base64 data of an object tag. *)
Definition embedded_pdf (soup : node) : option (string * string) :=
  match find_where "object" (attr_is "type" "application/pdf") soup with
  | None => None
  | Some pdf_object =>
      match find_where "param" (attr_is "id" "base64-param") pdf_object with
      | None => None
      | Some base64_param =>
          let base64_data := get_or "value" "" base64_param in
          if truthy base64_data then
            match b64decode base64_data with
            | inr pdf_content =>
                if startswith pdf_magic pdf_content
                then Some (pdf_content, default_filename)
                else None
            | inl _ => None      (* except Exception: pass *)
            end
          else None
      end
  end.

(** Lines 277-292: the source of an iframe. *)
Definition iframe_pdf (soup : node) : M (option (string * string)) :=
  match find_where "iframe" (attr_is "type" "application/pdf") soup with
  | None => ret None
  | Some pdf_iframe =>
      match get "src" pdf_iframe with
      | None => ret None
      | Some iframe_src =>
          if truthy iframe_src then
            iframe_response <- session_get (absolutize iframe_src) ;;
            raise_for_status iframe_response ;;;
            if startswith pdf_magic (content iframe_response)
            then ret (Some (content iframe_response, default_filename))
            else ret None
          else ret None
      end
  end.

(** Lines 294-313: the links of the page that look like a PDF. *)
Fixpoint pdf_links_loop (links : list node) : M (option (string * string)) :=
  match links with
  | [] => ret None
  | link :: links' =>
      let href := get_or "href" "" link in
      if endswith ".pdf" href || contains "pdf" (lower href) then
        pdf_response <- session_get (absolutize href) ;;
        raise_for_status pdf_response ;;;
        if startswith pdf_magic (content pdf_response)
        then ret (Some (content pdf_response, default_filename))
        else pdf_links_loop links'
      else pdf_links_loop links'
  end.

(** What becomes of the response to the first request (lines 249-346). *)
Definition handle_download (response : Response) (pdf_url : string)
    : M (option (string * string)) :=
  let content_type := lower (headers_get "content-type" "" (headers response)) in
  if contains "pdf" content_type then
    ret (finish_download response pdf_url)
  else if contains "html" content_type then
    let soup := html_parser (text response) in
    match embedded_pdf soup with
    | Some result => ret (Some result)
    | None =>
        from_iframe <- iframe_pdf soup ;;
        match from_iframe with
        | Some result => ret (Some result)
        | None => pdf_links_loop (find_all_where "a" (has_attr "href") soup)
        end
    end
  else if negb (startswith pdf_magic (content response)) then ret None
  else ret (finish_download response pdf_url).

(** The body of the [try]. *)
Definition download_attempt (pdf_url : string) : M (option (string * string)) :=
  response <- session_get pdf_url ;;
  raise_for_status response ;;;
  handle_download response pdf_url.

Definition download_pdf (pdf_url : string) : M (option (string * string)) :=
  try_except (download_attempt pdf_url) (ret None).

End Methods.

(** ** Vocabulary of the statements *)

(** [ends_outside p w]: [w] is not empty and its last character is outside
    the set [p]. *)
Fixpoint ends_outside (p : ascii -> bool) (w : string) : bool :=
  match w with
  | EmptyString => false
  | String a EmptyString => negb (p a)
  | String _ w' => ends_outside p w'
  end.

(** A tag named [name] somewhere below [n]. *)
Definition has_descendant (name : string) (n : node) : Prop :=
  exists d, In d (descendants n) /\ tag_name d = Some name.

(** The table rows of a page: its [tr] tags, at any depth. *)
Definition table_row (soup row : node) : Prop :=
  In row (descendants soup) /\ tag_name row = Some "tr".

(** A row that is no result row: it holds a header cell, holds no data
    cell, or its text holds one of the two phrases. *)
Definition excluded_row (row : node) : Prop :=
  has_descendant "th" row \/
  ~ has_descendant "td" row \/
  contains "visualizar laudo" (lower (get_text row)) = true \/
  contains "assinatura" (lower (get_text row)) = true.

Definition qualifying_row (soup row : node) : Prop :=
  table_row soup row /\ ~ excluded_row row.

(** [not results_rows] negated: the list is not empty. *)
Definition nonempty {A} (l : list A) : bool :=
  match l with
  | [] => false
  | _ => true
  end.

(** *** The rule tables of [_is_row_green]

    The indicators the code looks for, by the place it looks in. *)

Definition holds_any (tokens : list string) (s : string) : bool :=
  existsb (fun token => contains token (lower s)) tokens.

Definition style_tokens : list string := ["green"; "#00ff00"; "#0f0"; "rgb(0,255,0)"].
Definition row_class_tokens : list string := ["green"; "success"; "ready"; "disponivel"].
Definition cell_class_tokens : list string := ["green"; "success"; "ready"].
Definition bgcolor_tokens : list string := ["#8ff08f"; "green"].
Definition status_words : list string := ["disponivel"; "pronto"; "liberado"; "concluido"].

(** A style attribute that names green: one of the color tokens, or
    [background-color:green] once the spaces are taken out. *)
Definition green_style (style : string) : bool :=
  holds_any style_tokens style ||
  contains "background-color:green" (remove_spaces (lower style)).

(** The class attribute as one string, the names joined by a space. *)
Definition class_string (n : node) : string := join " " (get_class n).

Definition green_cell (cell : node) : bool :=
  green_style (get_or "style" "" cell) ||
  holds_any cell_class_tokens (class_string cell) ||
  holds_any status_words (get_text cell).

Definition green_row (row : node) : Prop :=
  green_style (get_or "style" "" row) = true \/
  holds_any row_class_tokens (class_string row) = true \/
  holds_any bgcolor_tokens (get_or "bgcolor" "" row) = true \/
  exists cell,
    In cell (descendants row) /\ tag_name cell = Some "td" /\ green_cell cell = true.

(** *** The vocabulary as the specification words it

    Color tokens for the style attributes (and [#8ff08f] and [green] for
    the row's bgcolor), class tokens for the class attributes, of the row
    and of its cells alike, and status words for the text of the cells. *)

Definition spec_class_tokens : list string := ["success"; "ready"; "disponivel"].

Definition spec_green_attributes (n : node) : bool :=
  green_style (get_or "style" "" n) ||
  holds_any ("green" :: spec_class_tokens) (class_string n).

Definition spec_green_row (row : node) : Prop :=
  spec_green_attributes row = true \/
  holds_any bgcolor_tokens (get_or "bgcolor" "" row) = true \/
  exists cell,
    In cell (descendants row) /\ tag_name cell = Some "td" /\
    (spec_green_attributes cell = true \/ holds_any status_words (get_text cell) = true).

(** *** The verdict of [login] on the page that answers the form

    [login_verdict] is the rule the code applies, [spec_login_verdict] the
    rule as the specification words it. *)

Definition login_verdict (body : string) : Prop :=
  holds_any success_indicators body = true \/
  contains "entrar" (lower body) = false \/
  contains "login" (lower body) = false.

Definition spec_login_verdict (body : string) : Prop :=
  holds_any success_indicators body = true \/
  (contains "entrar" (lower body) = false /\ contains "login" (lower body) = false).

(** *** The links of [get_pdf_link] *)

(** The anchors both passes scan: those that carry an href. *)
Definition anchors (soup : node) : list node := find_all_where "a" (has_attr "href") soup.

Definition href_of (a : node) : string := get_or "href" "" a.

(** The visible text holds one of the target texts, whatever the case. *)
Definition phrase_matched (a : node) : bool := holds_any target_texts (get_text a).

Definition laudo_matched (a : node) : bool := contains "/get_laudo" (href_of a).

(** *** How a method may end *)

Section Behaviour.

Context {env : Environment}.

(** The only exception [m] lets out is a [RequestException]. *)
Definition request_errors_only {A} (m : M A) : Prop :=
  forall c e c', m c = (inl e, c') -> e = RequestException.

(** [m] always returns a value: it raises nothing. *)
Definition returns {A} (m : M A) : Prop :=
  forall c, exists a c', m c = (inr a, c').

(** [m] leaves the remembered results location as it found it. *)
Definition keeps_results_url {A} (m : M A) : Prop :=
  forall c, results_url (snd (m c)) = results_url c.

(** [m] does not look at the remembered results location: started with
    another one, it ends the same way in the same world. *)
Definition ignores_results_url {A} (m : M A) : Prop :=
  forall c remembered,
    exists r w,
      m c = (r, mkLabCrawler w (results_url c)) /\
      m (mkLabCrawler (session c) remembered) = (r, mkLabCrawler w remembered).

(** A payload the outside world handed over: the body of a response to
    some GET, or the decoding of some base64 text. *)
Definition served_payload (bytes : string) : Prop :=
  (exists u w response w', http_get u w = (Some response, w') /\ content response = bytes) \/
  (exists data, b64decode data = inr bytes).

(** Every result of [m] carries a payload that starts with the PDF
    signature and was handed over by the outside world. *)
Definition yields_pdf_only (m : M (option (string * string))) : Prop :=
  forall c bytes filename c',
    m c = (inr (Some (bytes, filename)), c') ->
    startswith pdf_magic bytes = true /\ served_payload bytes.

End Behaviour.

(** A call that fails explicitly: it raises instead of returning. *)
Definition fails_explicitly {env : Environment} {A} (m : M A) (c : LabCrawler) : Prop :=
  exists e c', m c = (inl e, c').

(** ** A scripted portal

    A world that answers the requests it receives, whatever they are, with
    the responses of a script, in order, and fails every request once the
    script is used up; a parser and a base64 decoder given by tables. Used
    to run the crawler on concrete pages. *)

Module Scripted.

Definition script : Type := list (option Response).

Definition next (w : script) : option Response * script :=
  match w with
  | [] => (None, [])
  | r :: w' => (r, w')
  end.

Definition empty_document : node := Tag "[document]" [] [] [].

Fixpoint parse_with (pages : list (string * node)) (t : string) : node :=
  match pages with
  | [] => empty_document
  | (t', soup) :: pages' => if String.eqb t' t then soup else parse_with pages' t
  end.

Definition decode_with (table : list (string * string)) (data : string)
    : exception + string :=
  match assoc data table with
  | Some bytes => inr bytes
  | None => inl DecodeError
  end.

Definition portal (pages : list (string * node)) (table : list (string * string))
    : Environment :=
  {| World := script;
     http_get := fun _ w => next w;
     http_post := fun _ _ w => next w;
     html_parser := parse_with pages;
     b64decode := decode_with table |}.

Definition ok (body : string) : option Response :=
  Some {| status_code := 200; headers := [("Content-Type", "text/html")];
          text := body; content := body; url := login_url |}.

Definition document (contents : list node) : node := Tag "[document]" [] [] contents.

End Scripted.

(** ** Sample pages *)

Module Samples.

Import Scripted.

Definition results_location : string := "https://lablaudo.com.br/resultados".

(** A results table: a header row, two result rows (the first marked
    with the class [success], the second unmarked) and a signature
    row. *)
Definition mixed_text : string :=
  "<table><tr><th>Exame</th></tr><tr><td class='success'>Hemograma</td></tr><tr><td>Glicose</td></tr><tr><td>Assinatura digital</td></tr></table>".

Definition header_row : node :=
  Tag "tr" [] [] [Tag "th" [] [] [NavigableString "Exame"]].
Definition success_row : node :=
  Tag "tr" [] [] [Tag "td" [] ["success"] [NavigableString "Hemograma"]].
Definition plain_row : node :=
  Tag "tr" [] [] [Tag "td" [] [] [NavigableString "Glicose"]].
Definition signature_row : node :=
  Tag "tr" [] [] [Tag "td" [] [] [NavigableString "Assinatura digital"]].

Definition mixed_soup : node :=
  document [Tag "table" [] [] [header_row; success_row; plain_row; signature_row]].

(** The same table without the unmarked row. *)
Definition ready_text : string :=
  "<table><tr><th>Exame</th></tr><tr><td class='success'>Hemograma</td></tr><tr><td>Assinatura digital</td></tr></table>".

Definition ready_soup : node :=
  document [Tag "table" [] [] [header_row; success_row; signature_row]].

(** A row whose only mark is the class [disponivel] on its cell. *)
Definition disponivel_cell_row : node :=
  Tag "tr" [] [] [Tag "td" [] ["disponivel"] [NavigableString "Hemograma"]].

Definition results_portal : Environment :=
  portal [(mixed_text, mixed_soup); (ready_text, ready_soup)] [].

(** A crawler that logged in before, facing a portal that serves the
    given page next. *)
Definition logged_in (body : string) : @LabCrawler results_portal :=
  @mkLabCrawler results_portal [ok body] (Some results_location).

Definition served : @LabCrawler results_portal :=
  @mkLabCrawler results_portal [] (Some results_location).

(** The login page, and a page that answers the form with nothing but
    a button to enter. *)
Definition login_text : string :=
  "<form action='/acesso_paciente'><input type='text' name='identificacao'><input type='password' name='senha'><button>Entrar</button></form>".

Definition login_soup : node :=
  document
    [Tag "form" [("action", "/acesso_paciente")] []
       [Tag "input" [("type", "text"); ("name", "identificacao")] [] [];
        Tag "input" [("type", "password"); ("name", "senha")] [] [];
        Tag "button" [] [] [NavigableString "Entrar"]]].

Definition entrar_text : string := "<html><body><button>Entrar</button></body></html>".

(** The page of a refused login. *)
Definition refused_text : string :=
  "<p>Login ou senha incorretos</p><form action='/acesso_paciente'><button>Entrar</button></form>".

Definition entrar_response : Response :=
  {| status_code := 200; headers := [("Content-Type", "text/html")];
     text := entrar_text; content := entrar_text; url := login_url |}.

(** A page with a link named Baixar after a link to [/get_laudo]. *)
Definition links_text : string :=
  "<a href='/get_laudo?id=123'>Laudo 123</a><a href='/download_pdf'>Baixar</a>".

Definition laudo_anchor : node :=
  Tag "a" [("href", "/get_laudo?id=123")] [] [NavigableString "Laudo 123"].
Definition baixar_anchor : node :=
  Tag "a" [("href", "/download_pdf")] [] [NavigableString "Baixar"].

Definition links_soup : node := document [laudo_anchor; baixar_anchor].

(** A page that links two documents, the answer to the first link (a
    page, not a document) and the answer to the second (a document). *)
Definition documents_text : string :=
  "<a href='/laudos/antigo.pdf'>Anterior</a><a href='/laudos/atual.pdf'>Atual</a>".

Definition documents_soup : node :=
  document
    [Tag "a" [("href", "/laudos/antigo.pdf")] [] [NavigableString "Anterior"];
     Tag "a" [("href", "/laudos/atual.pdf")] [] [NavigableString "Atual"]].

Definition expired_text : string := "<html><body>Laudo expirado</body></html>".

Definition pdf_bytes : string := "%PDF-1.4 laudo".

Definition pdf_response (declared : string) (hs : list (string * string)) (body : string)
    : option Response :=
  Some {| status_code := 200; headers := ("Content-Type", declared) :: hs;
          text := body; content := body; url := login_url |}.

(** The page of test_pdf.py. *)
Definition test_soup : node :=
  document
    [Tag "html" [] []
       [Tag "body" [] []
          [Tag "a" [("href", "/get_laudo?id=123")] [] [NavigableString "Visualizar Laudo"];
           Tag "a" [("href", "/download_pdf")] [] [NavigableString "Baixar"];
           Tag "a" [("href", "/other_link")] [] [NavigableString "Other Link"]]]].

Definition login_portal : Environment :=
  portal [(login_text, login_soup); (links_text, links_soup);
          (documents_text, documents_soup)] [].

Definition fresh (w : script) : @LabCrawler login_portal := @new_crawler login_portal w.

End Samples.

(** ** Further vocabulary: the urls the crawler follows *)

(** A url with a scheme, as the crawler tests it: it starts with [http]. *)
Definition absolute (u : string) : bool := startswith "http" u.

(** Every document [m] may return satisfies [P] (bytes, then file name). *)
Definition results_satisfy {env : Environment} (P : string -> string -> Prop)
    (m : M (option (string * string))) : Prop :=
  forall c bytes filename c', m c = (inr (Some (bytes, filename)), c') -> P bytes filename.

(** A file name with the extension of a PDF, in any case. *)
Definition pdf_named (filename : string) : bool := endswith ".pdf" (lower filename).

(** *** The form data of [login] *)

(** The key [name] is in the data with a value that is not empty. *)
Definition filled (name : string) (data : dict) : Prop :=
  exists v, dict_get name data = Some v /\ truthy v = true.

(** The input types the fallback of [login] fills in. *)
Definition credential_type (t : string) : bool :=
  String.eqb t "text" || String.eqb t "email" || String.eqb t "number" ||
  String.eqb t "password".

Definition hidden_inputs (form : node) : list node :=
  find_all_where "input" (attr_is "type" "hidden") form.

(** ** A session that keeps a record of its requests

    Any portal, seen through a session that notes each request it sends
    before handing it on: the record tells which requests a method of the
    crawler makes, in which order, to which url and with which data. *)

Inductive request : Type :=
| GET (u : string)
| POST (u : string) (data : dict).

Definition is_get (rq : request) : bool :=
  match rq with
  | GET _ => true
  | POST _ _ => false
  end.

Section Recorded.

Variable portal : Environment.

Record Journal : Type := mkJournal {
  sent : list request;
  beneath : @World portal
}.

Definition recorded : Environment :=
  {| World := Journal;
     http_get := fun u j =>
       let (r, w) := @http_get portal u (beneath j) in
       (r, {| sent := sent j ++ [GET u]; beneath := w |});
     http_post := fun u data j =>
       let (r, w) := @http_post portal u data (beneath j) in
       (r, {| sent := sent j ++ [POST u data]; beneath := w |});
     html_parser := @html_parser portal;
     b64decode := @b64decode portal |}.

(** The requests on record of a crawler. *)
Definition record_of (c : @LabCrawler recorded) : list request := sent (session c).

(** Run from any state, [m] adds to the record at most [n] requests, all
    of which satisfy [Q]. *)
Definition sends {A} (n : nat) (Q : request -> Prop) (m : @M recorded A) : Prop :=
  forall c, exists new,
    record_of (snd (m c)) = record_of c ++ new /\ length new <= n /\ Forall Q new.


End Recorded.

(** [raise_for_status] lets the response pass. *)
Definition status_ok (r : Response) : bool :=
  negb ((400 <=? status_code r) && (status_code r <? 600)).

(** The test of [check_results] for looking further than the page it
    fetched: no results location is remembered, or the page holds
    "entrar". *)
Definition stale (remembered : option string) (r : Response) : bool :=
  negb (url_set remembered) || contains "entrar" (lower (text r)).

(** The link the discovery of [check_results] follows, if any. *)
Definition discovered_link {env : Environment} (r : Response) : option node :=
  find_where "a" (attr_satisfies "href" results_href) (html_parser (text r)).

(** ** More sample pages *)

Module MoreSamples.

Import Scripted.

(** A page that lists a ready result but also offers to enter, with a
    link to the examinations. *)
Definition stale_text : string :=
  "<a href='/exames'>Meus exames</a><a href='/acesso_paciente'>Entrar</a><table><tr><td class='success'>Hemograma</td></tr></table>".

Definition exames_link : node :=
  Tag "a" [("href", "/exames")] [] [NavigableString "Meus exames"].

Definition stale_soup : node :=
  document
    [exames_link;
     Tag "a" [("href", "/acesso_paciente")] [] [NavigableString "Entrar"];
     Tag "table" [] []
       [Tag "tr" [] [] [Tag "td" [] ["success"] [NavigableString "Hemograma"]]]].

(** A page that shows a document in an iframe and links it as well. *)
Definition viewer_text : string :=
  "<iframe type='application/pdf' src='/visualizar?id=7'></iframe><a href='/laudos/7.pdf'>Baixar</a>".

Definition viewer_iframe : node :=
  Tag "iframe" [("type", "application/pdf"); ("src", "/visualizar?id=7")] [] [].

Definition viewer_soup : node :=
  document
    [viewer_iframe;
     Tag "a" [("href", "/laudos/7.pdf")] [] [NavigableString "Baixar"]].

Definition more_portal : Environment :=
  portal [(stale_text, stale_soup); (viewer_text, viewer_soup)] [].

Definition visiting (remembered : option string) (w : script) : @LabCrawler more_portal :=
  @mkLabCrawler more_portal w remembered.

Definition html_response (body : string) : Response :=
  {| status_code := 200; headers := [("Content-Type", "text/html")];
     text := body; content := body; url := login_url |}.

Definition not_found : Response :=
  {| status_code := 404; headers := [("Content-Type", "text/html")];
     text := "Not Found"; content := "Not Found"; url := login_url |}.

End MoreSamples.

(** ** The credential store (database.py)

    The table [users] of the SQLite file: one row for each
    [telegram_id], its INTEGER PRIMARY KEY, kept here in the order of the
    key, which is the order in which SQLite scans the table. A method
    opens a connection, runs one statement and commits; when SQLite raises
    [sqlite3.Error] on the way ([fault]), nothing is committed and the
    method returns its fallback value. CURRENT_TIMESTAMP is the argument
    [now]. *)

From Stdlib Require Import ZArith Sorted.

Module Database.

Record user_row : Type := mk_row {
  username : string;               (* TEXT NOT NULL *)
  password : string;               (* TEXT NOT NULL *)
  active : Z;                      (* INTEGER DEFAULT 1 *)
  created_at : string;             (* TIMESTAMP DEFAULT CURRENT_TIMESTAMP *)
  last_check : option string;      (* TIMESTAMP *)
  last_status : option string      (* TEXT *)
}.

Definition table : Type := list (Z * user_row).

(** [init_database]: CREATE TABLE IF NOT EXISTS on a new file. *)
Definition init_database : table := [].

Definition keys (t : table) : list Z := map fst t.

(** The row WHERE telegram_id = ?, if there is one. *)
Fixpoint lookup (telegram_id : Z) (t : table) : option user_row :=
  match t with
  | [] => None
  | (k, row) :: t' => if Z.eqb k telegram_id then Some row else lookup telegram_id t'
  end.

(** INSERT OR REPLACE: the row takes the place of the row with the same
    key, or its place in the order of the keys. *)
Fixpoint insert_or_replace (telegram_id : Z) (row : user_row) (t : table) : table :=
  match t with
  | [] => [(telegram_id, row)]
  | (k, r) :: t' =>
      if Z.ltb telegram_id k then (telegram_id, row) :: t
      else if Z.eqb telegram_id k then (telegram_id, row) :: t'
      else (k, r) :: insert_or_replace telegram_id row t'
  end.

(** DELETE FROM users WHERE telegram_id = ? *)
Definition delete (telegram_id : Z) (t : table) : table :=
  filter (fun kr => negb (Z.eqb (fst kr) telegram_id)) t.

(** UPDATE users SET ... WHERE telegram_id = ? *)
Definition update (telegram_id : Z) (set : user_row -> user_row) (t : table) : table :=
  map (fun kr => if Z.eqb (fst kr) telegram_id then (fst kr, set (snd kr)) else kr) t.

(** The number of rows a DELETE or UPDATE touches ([cursor.rowcount]). *)
Definition rowcount (telegram_id : Z) (t : table) : nat :=
  length (filter (fun kr => Z.eqb (fst kr) telegram_id) t).

Definition add_user (now : string) (fault : bool)
    (telegram_id : Z) (username password : string) (t : table) : bool * table :=
  if fault then (false, t)
  else (true,
        insert_or_replace telegram_id
          {| username := username; password := password; active := 1;
             created_at := now; last_check := None; last_status := None |} t).

Definition remove_user (fault : bool) (telegram_id : Z) (t : table) : bool * table :=
  if fault then (false, t)
  else (0 <? rowcount telegram_id t, delete telegram_id t).

Definition get_user (fault : bool) (telegram_id : Z) (t : table)
    : option (string * string) :=
  if fault then None
  else match lookup telegram_id t with
       | Some row => if Z.eqb (active row) 1 then Some (username row, password row)
                     else None
       | None => None
       end.

Definition get_all_active_users (fault : bool) (t : table) : list (Z * string * string) :=
  if fault then []
  else map (fun kr => (fst kr, username (snd kr), password (snd kr)))
         (filter (fun kr => Z.eqb (active (snd kr)) 1) t).

Definition update_user_status (now : string) (fault : bool)
    (telegram_id : Z) (status : string) (t : table) : table :=
  if fault then t
  else update telegram_id
         (fun row => {| username := username row; password := password row;
                        active := active row; created_at := created_at row;
                        last_check := Some now; last_status := Some status |}) t.

Definition deactivate_user (fault : bool) (telegram_id : Z) (t : table) : table :=
  if fault then t
  else update telegram_id
         (fun row => {| username := username row; password := password row;
                        active := 0; created_at := created_at row;
                        last_check := last_check row;
                        last_status := last_status row |}) t.

(** The primary key: the keys of the table, in its order, increase. *)
Definition one_row_per_id (t : table) : Prop := StronglySorted Z.lt (keys t).

(** A write to the table: one of the four methods that change it, with
    their arguments. *)
Inductive write : Type :=
| AddUser (now : string) (username password : string)
| RemoveUser
| UpdateUserStatus (now status : string)
| DeactivateUser.

Definition apply_write (op : write) (fault : bool) (telegram_id : Z) (t : table) : table :=
  match op with
  | AddUser now username password =>
      snd (add_user now fault telegram_id username password t)
  | RemoveUser => snd (remove_user fault telegram_id t)
  | UpdateUserStatus now status => update_user_status now fault telegram_id status t
  | DeactivateUser => deactivate_user fault telegram_id t
  end.

End Database.

(** ** The periodic check of the bot (bot.py, check_all_users)

    One run of the coroutine, its awaits taken in order. What the bot
    sends is kept as a list; the wording of the messages is left out, a
    message is known by its kind. *)

Inductive notice : Type :=
| ReadyNoDownload     (* results ready, the PDF could not be downloaded *)
| ReadyNoLink         (* results ready, no link to a PDF *)
| LoginFailed
| FormatHint          (* send your credentials in this format *)
| Testing             (* testing your credentials *)
| Saved               (* credentials saved *)
| SaveFailed          (* failed to save credentials *)
| LoginRefused        (* login failed, check your credentials *)
| ProcessingError     (* error processing credentials *)
| UseHelp.            (* use /help *)

Inductive notification : Type :=
| SendDocument (chat_id : Z) (document filename : string)
| SendMessage (chat_id : Z) (text : notice).

Definition recipient (n : notification) : Z :=
  match n with
  | SendDocument chat_id _ _ => chat_id
  | SendMessage chat_id _ => chat_id
  end.

(** What surrounds the bot beside the portal: Telegram, which takes a
    notification or raises; SQLite, which may raise on any call; the
    clock of CURRENT_TIMESTAMP; and [requests.Session()], which gives a
    new crawler its own session with the portal. *)
Class Surroundings {env : Environment} : Type := {
  Weather : Type;
  new_session : World -> World;
  telegram_accepts : notification -> Weather -> bool * Weather;
  sqlite_fault : Weather -> bool * Weather;
  current_timestamp : Weather -> string
}.

Inductive bot_exception : Type :=
| CrawlerError (e : exception)
| TelegramError.

Section Bot.

Context {env : Environment} {around : Surroundings}.

Record LabBot : Type := mkLabBot {
  portal : World;
  weather : Weather;
  db : Database.table;
  outbox : list notification
}.

Definition B (A : Type) : Type := LabBot -> (bot_exception + A) * LabBot.

Definition bot_ret {A} (a : A) : B A := fun self => (inr a, self).

Definition bot_bind {A C} (m : B A) (k : A -> B C) : B C :=
  fun self =>
    match m self with
    | (inr a, self') => k a self'
    | (inl e, self') => (inl e, self')
    end.

(** [try: body  except Exception as e: logger.error(...)] *)
Definition except_exception (body : B unit) : LabBot -> LabBot :=
  fun self => snd (body self).

(** A method of the crawler, called on the crawler of this check, which
    remembers [remembered]; its value comes back with what the crawler
    remembers afterwards. *)
Definition crawler_call {A} (remembered : option string) (m : M A)
    : B (A * option string) :=
  fun self =>
    match m (mkLabCrawler (portal self) remembered) with
    | (inr a, crawler) =>
        (inr (a, results_url crawler),
         mkLabBot (session crawler) (weather self) (db self) (outbox self))
    | (inl e, crawler) =>
        (inl (CrawlerError e),
         mkLabBot (session crawler) (weather self) (db self) (outbox self))
    end.

(** [await self.application.bot.send_document(...)] and
    [send_message(...)] *)
Definition send (n : notification) : B unit :=
  fun self =>
    let (accepted, weather') := telegram_accepts n (weather self) in
    if accepted
    then (inr tt, mkLabBot (portal self) weather' (db self) (outbox self ++ [n]))
    else (inl TelegramError, mkLabBot (portal self) weather' (db self) (outbox self)).

(** [self.db.remove_user(telegram_id)], its result dropped, and
    [self.db.update_user_status(telegram_id, status)] *)
Definition db_remove_user (telegram_id : Z) : B unit :=
  fun self =>
    let (fault, weather') := sqlite_fault (weather self) in
    (inr tt,
     mkLabBot (portal self) weather'
       (snd (Database.remove_user fault telegram_id (db self))) (outbox self)).

Definition db_update_user_status (telegram_id : Z) (status : string) : B unit :=
  fun self =>
    let (fault, weather') := sqlite_fault (weather self) in
    (inr tt,
     mkLabBot (portal self) weather'
       (Database.update_user_status (current_timestamp (weather self)) fault
          telegram_id status (db self))
       (outbox self)).

(** [LabCrawler()] *)
Definition open_session : B unit :=
  fun self =>
    (inr tt, mkLabBot (new_session (portal self)) (weather self) (db self) (outbox self)).

(** Truth value of the result of [get_pdf_link]. *)
Definition link_found (pdf_url : option string) : option string :=
  match pdf_url with
  | Some u => if truthy u then Some u else None
  | None => None
  end.

(** Lines 269-325: the body of the [try] for one user. *)
Definition check_user_body (telegram_id : Z) (username password : string) : B unit :=
  bot_bind open_session (fun _ =>
  bot_bind (crawler_call None (login username password)) (fun logged_in =>
  if fst logged_in then
    bot_bind (crawler_call (snd logged_in) check_results) (fun ready =>
    if fst ready then
      bot_bind (crawler_call (snd ready) get_pdf_link) (fun pdf_url =>
      bot_bind
        (match link_found (fst pdf_url) with
         | Some u =>
             bot_bind (crawler_call (snd pdf_url) (download_pdf u)) (fun pdf_data =>
             match fst pdf_data with
             | Some (pdf_content, filename) =>
                 bot_bind (send (SendDocument telegram_id pdf_content filename)) (fun _ =>
                 db_remove_user telegram_id)
             | None => send (SendMessage telegram_id ReadyNoDownload)
             end)
         | None => send (SendMessage telegram_id ReadyNoLink)
         end) (fun _ =>
      db_update_user_status telegram_id "results_ready"))
    else db_update_user_status telegram_id "results_pending")
  else
    bot_bind (db_update_user_status telegram_id "login_failed") (fun _ =>
    send (SendMessage telegram_id LoginFailed)))).

Definition check_user (user : Z * string * string) : LabBot -> LabBot :=
  except_exception (check_user_body (fst (fst user)) (snd (fst user)) (snd user)).



(** *** handle_message *)

(** [text.split()]: the words of a text, cut at runs of whitespace. *)
Fixpoint words_go (cur s : string) : list string :=
  match s with
  | EmptyString => if truthy cur then [cur] else []
  | String c s' =>
      if isspace c
      then (if truthy cur then cur :: words_go EmptyString s' else words_go EmptyString s')
      else words_go (String.append cur (String c EmptyString)) s'
  end.

Definition split_whitespace (s : string) : list string := words_go EmptyString s.

(** [self.db.add_user(telegram_id, username, password)] *)
Definition db_add_user (telegram_id : Z) (username password : string) : B bool :=
  fun self =>
    let (fault, weather') := sqlite_fault (weather self) in
    let result :=
      Database.add_user (current_timestamp (weather self)) fault telegram_id
        username password (db self) in
    (inr (fst result), mkLabBot (portal self) weather' (snd result) (outbox self)).

(** Lines 102-133, the body of the [try]; its value is what
    [waiting_for_credentials] is left at. *)
Definition credentials_body (chat_id telegram_id : Z) (text : string) : B bool :=
  match split_whitespace (strip text) with
  | [username; password] =>
      bot_bind (send (SendMessage chat_id Testing)) (fun _ =>
      bot_bind open_session (fun _ =>
      bot_bind (crawler_call None (login username password)) (fun logged_in =>
      bot_bind
        (if fst logged_in then
           bot_bind (db_add_user telegram_id username password) (fun saved =>
           if saved then send (SendMessage chat_id Saved)
           else send (SendMessage chat_id SaveFailed))
         else send (SendMessage chat_id LoginRefused)) (fun _ =>
      bot_ret false))))
  | _ =>
      bot_bind (send (SendMessage chat_id FormatHint)) (fun _ => bot_ret true)
  end.

(** Lines 98-144. The handler is given whether the user is waited on for
    credentials, and yields the exception it lets out, if any, and what
    the flag is afterwards. *)
Definition handle_message (waiting : bool) (chat_id telegram_id : Z) (text : string)
    (self : LabBot) : option bot_exception * bool * LabBot :=
  if waiting then
    match credentials_body chat_id telegram_id text self with
    | (inr waiting', self') => (None, waiting', self')
    | (inl _, self') =>
        match send (SendMessage chat_id ProcessingError) self' with
        | (inr _, self'') => (None, false, self'')
        | (inl e, self'') => (Some e, true, self'')
        end
    end
  else
    match send (SendMessage chat_id UseHelp) self with
    | (inr _, self') => (None, false, self')
    | (inl e, self') => (Some e, false, self')
    end.

End Bot.

(** *** Vocabulary for the check of one user *)

(** The writes a check makes to the table, each with the fault SQLite met
    it with, applied in order to the row of one id. *)
Definition apply_writes (telegram_id : Z) (ws : list (Database.write * bool))
    (t : Database.table) : Database.table :=
  fold_left (fun t' w => Database.apply_write (fst w) (snd w) telegram_id t') ws t.

(** No write, or a single update of the status. *)
Definition status_only (ws : list (Database.write * bool)) : Prop :=
  ws = [] \/ exists now status fault, ws = [(Database.UpdateUserStatus now status, fault)].

(** A document fit to be sent: a PDF by its first bytes and by its name. *)
Definition pdf_document (document filename : string) : Prop :=
  startswith pdf_magic document = true /\ pdf_named filename = true.

(** What one check of the user [telegram_id] may send and write: nothing
    or one message, with at most an update of the status; or one PDF
    document, followed by the removal of the user and an update of the
    status. *)
Definition check_outcome (telegram_id : Z) (new : list notification)
    (ws : list (Database.write * bool)) : Prop :=
  (new = [] /\ status_only ws) \/
  (exists text, new = [SendMessage telegram_id text] /\ status_only ws) \/
  (exists document filename now fault fault',
     new = [SendDocument telegram_id document filename] /\
     pdf_document document filename /\
     ws = [(Database.RemoveUser, fault);
           (Database.UpdateUserStatus now "results_ready", fault')]).

(** A notification the periodic check may send to one of [users]. *)
Definition sound_notification (users : list Z) (n : notification) : Prop :=
  In (recipient n) users /\
  match n with
  | SendDocument _ document filename => pdf_document document filename
  | SendMessage _ _ => True
  end.

(** A text without any whitespace. *)
Fixpoint spaceless (s : string) : bool :=
  match s with
  | EmptyString => true
  | String c s' => negb (isspace c) && spaceless s'
  end.

(** A word: not empty, and without whitespace. *)
Definition word (s : string) : Prop := truthy s = true /\ spaceless s = true.

(** *** A round in fair weather

    A portal that lets the user in, shows a ready result with a link to
    the document and serves the document; Telegram takes every
    notification and SQLite never raises. *)

Module Round.

Import Scripted.

Definition welcome_text : string :=
  "<h1>Bem-vindo</h1><a href='/exames'>Meus exames</a>".

Definition ready_text : string :=
  "<table><tr><td class='success'>Hemograma</td></tr></table><a href='/get_laudo?id=7'>Baixar</a>".

Definition ready_soup : node :=
  document
    [Tag "table" [] []
       [Tag "tr" [] [] [Tag "td" [] ["success"] [NavigableString "Hemograma"]]];
     Tag "a" [("href", "/get_laudo?id=7")] [] [NavigableString "Baixar"]].

Definition round_portal : Environment :=
  portal [(Samples.login_text, Samples.login_soup); (ready_text, ready_soup)] [].

Definition at_results (body : string) : option Response :=
  Some {| status_code := 200; headers := [("Content-Type", "text/html")];
          text := body; content := body; url := Samples.results_location |}.

(** The answers of the portal to one check: the login page, the answer
    to the form, the results page (twice) and the document. *)
Definition answers : script :=
  [ok Samples.login_text; at_results welcome_text; at_results ready_text;
   at_results ready_text; Samples.pdf_response "application/pdf" [] Samples.pdf_bytes].

Definition fair_weather : @Surroundings round_portal :=
  {| Weather := unit;
     new_session := fun w => w;
     telegram_accepts := fun _ w => (true, w);
     sqlite_fault := fun w => (false, w);
     current_timestamp := fun _ => "2024-05-05 10:00:00" |}.

Definition maria : Database.user_row :=
  Database.mk_row "maria" "segredo" 1 "2024-05-01 09:00:00" None None.

Definition joao : Database.user_row :=
  Database.mk_row "joao" "chave" 0 "2024-05-02 09:00:00" None (Some "login_failed").

Definition start : @LabBot round_portal fair_weather :=
  @mkLabBot round_portal fair_weather answers tt [(7%Z, maria); (8%Z, joao)] [].

End Round.

(** ** The links of get_pdf_link, in the words of the specification *)

(** [u] is [href] made absolute: joined to the origin of the portal when
    it starts with a slash, left as it is when it starts with [http], and
    joined to the origin with a slash between them otherwise. *)
Definition joined_to_origin (href u : string) : Prop :=
  (startswith "/" href = true /\
   u = String.append "https://lablaudo.com.br" href) \/
  (startswith "/" href = false /\ startswith "http" href = true /\ u = href) \/
  (startswith "/" href = false /\ startswith "http" href = false /\
   u = String.append "https://lablaudo.com.br/" href).

(** An anchor of the page that carries an href, with the href. *)
Definition anchor_with_href (soup a : node) (href : string) : Prop :=
  In a (descendants soup) /\ tag_name a = Some "a" /\ get "href" a = Some href.

(** The visible text of the anchor holds one of the three phrases,
    whatever the case of its letters. *)
Definition names_document (a : node) : Prop :=
  contains "visualizar laudo" (lower (get_text a)) = true \/
  contains "baixar" (lower (get_text a)) = true \/
  contains "download" (lower (get_text a)) = true.

(** [a] is the first node of the page, in document order, that is an
    anchor with an href and satisfies [P]. *)
Definition first_anchor (soup : node) (P : node -> string -> Prop) (a : node)
    (href : string) : Prop :=
  anchor_with_href soup a href /\ P a href /\
  exists before after,
    descendants soup = before ++ a :: after /\
    forall x h, In x before -> anchor_with_href soup x h -> ~ P x h.

Definition phrase_link (a : node) (href : string) : Prop := names_document a.

Definition laudo_link (a : node) (href : string) : Prop :=
  contains "/get_laudo" href = true.

(** A page whose link named Baixar has no href (it opens the document by
    a script), beside a link to [/get_laudo]. *)
Module LinkSamples.

Import Scripted.

Definition script_text : string :=
  "<a onclick='abrirLaudo(7)'>Baixar</a><a href='/get_laudo?id=7'>Laudo 7</a>".

Definition script_anchor : node :=
  Tag "a" [("onclick", "abrirLaudo(7)")] [] [NavigableString "Baixar"].

Definition laudo_anchor : node :=
  Tag "a" [("href", "/get_laudo?id=7")] [] [NavigableString "Laudo 7"].

Definition script_soup : node := document [script_anchor; laudo_anchor].

Definition link_portal : Environment :=
  portal [(script_text, script_soup); (Samples.links_text, Samples.links_soup)] [].

Definition visiting (w : script) : @LabCrawler link_portal := @new_crawler link_portal w.

End LinkSamples.

(** ** The recovery of a document from a page, in the words of the
    specification *)

Section Recovery.

Context {env : Environment}.

(** The request for [u], made in the world [w], is answered with [r]
    without an error status and leaves the world [w']. *)
Definition answered_with (u : string) (w : World) (r : Response) (w' : World) : Prop :=
  http_get u w = (Some r, w') /\ status_ok r = true.

(** The candidate behind [u] is fetched and fails the signature. *)
Definition refused (u : string) (w w' : World) : Prop :=
  exists r, answered_with u w r w' /\ startswith "%PDF" (content r) = false.

(** The candidate behind [u] is fetched and is a PDF, [bytes]. *)
Definition delivered (u : string) (w : World) (bytes : string) (w' : World) : Prop :=
  exists r, answered_with u w r w' /\ startswith "%PDF" (content r) = true /\
            content r = bytes.

(** The request for [u] fails, or is answered with an error status. *)
Definition broken (u : string) (w w' : World) : Prop :=
  exists r, http_get u w = (r, w') /\
            match r with
            | Some answer => status_ok answer = false
            | None => True
            end.

(** The base64 data of the first PDF object of the page, if it has
    any. *)
Definition embedded_data (soup : node) : option string :=
  match find_where "object" (attr_is "type" "application/pdf") soup with
  | None => None
  | Some pdf_object =>
      match find_where "param" (attr_is "id" "base64-param") pdf_object with
      | None => None
      | Some base64_param =>
          if truthy (get_or "value" "" base64_param)
          then Some (get_or "value" "" base64_param)
          else None
      end
  end.

(** The page has no base64 candidate, or the candidate does not decode,
    or decodes to bytes that fail the signature. *)
Definition embedded_fails (soup : node) : Prop :=
  match embedded_data soup with
  | None => True
  | Some data =>
      match b64decode data with
      | inl _ => True
      | inr bytes => startswith "%PDF" bytes = false
      end
  end.

(** The source of the first PDF iframe of the page, if it has one. *)
Definition iframe_source (soup : node) : option string :=
  match find_where "iframe" (attr_is "type" "application/pdf") soup with
  | None => None
  | Some pdf_iframe =>
      match get "src" pdf_iframe with
      | Some src => if truthy src then Some src else None
      | None => None
      end
  end.

(** The page has no iframe candidate, or the candidate fails the
    signature. *)
Definition iframe_fails (soup : node) (w w' : World) : Prop :=
  (iframe_source soup = None /\ w' = w) \/
  (exists src u, iframe_source soup = Some src /\ joined_to_origin src u /\
                 refused u w w').

(** A link taken for a document: its href ends in [.pdf] or holds
    [pdf]. *)
Definition pdf_like (link : node) : bool :=
  endswith ".pdf" (href_of link) || contains "pdf" (lower (href_of link)).

(** Every link of the list is passed over: it is not taken for a
    document, or the candidate behind it fails the signature. *)
Inductive passed_over : list node -> World -> World -> Prop :=
| passed_none (w : World) : passed_over [] w w
| passed_skip (link : node) (links : list node) (w w' : World) :
    pdf_like link = false -> passed_over links w w' ->
    passed_over (link :: links) w w'
| passed_refused (link : node) (links : list node) (u : string) (w w1 w' : World) :
    pdf_like link = true -> joined_to_origin (href_of link) u -> refused u w w1 ->
    passed_over links w1 w' -> passed_over (link :: links) w w'.

(** What the recovery comes to, on the page [soup] in the world [w]: the
    candidates are tried in order (base64 data, iframe, links); one that
    fails the signature is passed over; the first that is a PDF is the
    result, named [lab_results.pdf]; the result is null when a request
    for a candidate fails or is answered with an error status, and when
    no candidate is left. *)
Inductive recovered (soup : node) (w : World)
    : option (string * string) -> World -> Prop :=
| from_object (data bytes : string) :
    embedded_data soup = Some data -> b64decode data = inr bytes ->
    startswith "%PDF" bytes = true ->
    recovered soup w (Some (bytes, "lab_results.pdf")) w
| from_iframe (src u bytes : string) (w1 : World) :
    embedded_fails soup -> iframe_source soup = Some src ->
    joined_to_origin src u -> delivered u w bytes w1 ->
    recovered soup w (Some (bytes, "lab_results.pdf")) w1
| iframe_broken (src u : string) (w1 : World) :
    embedded_fails soup -> iframe_source soup = Some src ->
    joined_to_origin src u -> broken u w w1 ->
    recovered soup w None w1
| from_link (passed : list node) (hit : node) (rest : list node) (u bytes : string)
    (w1 w2 w3 : World) :
    embedded_fails soup -> iframe_fails soup w w1 ->
    anchors soup = passed ++ hit :: rest -> passed_over passed w1 w2 ->
    pdf_like hit = true -> joined_to_origin (href_of hit) u ->
    delivered u w2 bytes w3 ->
    recovered soup w (Some (bytes, "lab_results.pdf")) w3
| link_broken (passed : list node) (bad : node) (rest : list node) (u : string)
    (w1 w2 w3 : World) :
    embedded_fails soup -> iframe_fails soup w w1 ->
    anchors soup = passed ++ bad :: rest -> passed_over passed w1 w2 ->
    pdf_like bad = true -> joined_to_origin (href_of bad) u ->
    broken u w2 w3 ->
    recovered soup w None w3
| none_left (w1 w2 : World) :
    embedded_fails soup -> iframe_fails soup w w1 ->
    passed_over (anchors soup) w1 w2 ->
    recovered soup w None w2.

End Recovery.

(** * Properties *)

(** ** Strings *)

Section StringFacts.

Lemma startswith_nil_r p : startswith p "" = true -> p = "".
Proof. destruct p; simpl; congruence. Qed.

Lemma lower_char_idem c : lower_char (lower_char c) = lower_char c.
Proof. destruct c as [[] [] [] [] [] [] [] []]; reflexivity. Qed.

Lemma lower_idem s : lower (lower s) = lower s.
Proof.
  induction s as [|c s IH]; simpl; [reflexivity|].
  now rewrite lower_char_idem, IH.
Qed.

Lemma isspace_lower_char c : isspace (lower_char c) = isspace c.
Proof. destruct c as [[] [] [] [] [] [] [] []]; reflexivity. Qed.

Lemma lstrip_lower s : lower (lstrip_by isspace s) = lstrip_by isspace (lower s).
Proof.
  induction s as [|c s IH]; simpl; [reflexivity|].
  rewrite isspace_lower_char. destruct (isspace c); simpl; auto.
Qed.

Lemma rstrip_lower s : lower (rstrip_by isspace s) = rstrip_by isspace (lower s).
Proof.
  induction s as [|c s IH]; simpl; [reflexivity|].
  rewrite <- IH, isspace_lower_char.
  destruct (rstrip_by isspace s); simpl; [destruct (isspace c)|]; reflexivity.
Qed.

Lemma strip_lower s : lower (strip s) = strip (lower s).
Proof. unfold strip, strip_by. now rewrite rstrip_lower, lstrip_lower. Qed.

(** A needle that starts with a character outside the stripped set is
    found in the left-stripped string exactly when it is found in the
    string. *)
Lemma contains_lstrip p a w s :
  p a = false -> contains (String a w) (lstrip_by p s) = contains (String a w) s.
Proof.
  intros Ha. induction s as [|c s IH]; [reflexivity|].
  cbn [lstrip_by]. destruct (p c) eqn:Hc; [|reflexivity].
  rewrite IH. cbn [contains startswith].
  destruct (Ascii.eqb_spec a c) as [->|]; [congruence|reflexivity].
Qed.

Lemma rstrip_empty_startswith p w s :
  ends_outside p w = true -> rstrip_by p s = "" -> startswith w s = false.
Proof.
  revert w. induction s as [|c s IH]; intros w Hw Hs.
  - destruct w; [discriminate|reflexivity].
  - cbn [rstrip_by] in Hs.
    destruct (rstrip_by p s) eqn:Hr; [|discriminate].
    destruct (p c) eqn:Hc; [|discriminate].
    destruct w as [|a w]; [discriminate|]. cbn [startswith].
    destruct (Ascii.eqb_spec a c) as [->|]; [|reflexivity]. cbn.
    destruct w as [|b w].
    + cbn in Hw. rewrite Hc in Hw. discriminate.
    + apply IH; auto.
Qed.

Lemma startswith_rstrip p w s :
  ends_outside p w = true -> startswith w (rstrip_by p s) = startswith w s.
Proof.
  revert w. induction s as [|c s IH]; intros w Hw; [reflexivity|].
  destruct w as [|a w]; [discriminate|].
  cbn [rstrip_by].
  destruct (rstrip_by p s) eqn:Hr.
  - destruct (p c) eqn:Hc.
    + cbn [startswith]. destruct (Ascii.eqb_spec a c) as [->|]; [|reflexivity].
      cbn. destruct w as [|b w].
      * cbn in Hw. rewrite Hc in Hw. discriminate.
      * symmetry. apply (rstrip_empty_startswith p); auto.
    + cbn [startswith]. destruct (Ascii.eqb a c); [|reflexivity]. cbn.
      destruct w as [|b w]; [reflexivity|].
      symmetry. apply (rstrip_empty_startswith p); auto.
  - cbn [startswith]. destruct (Ascii.eqb a c); [|reflexivity]. cbn.
    destruct w as [|b w]; [reflexivity|].
    apply IH. exact Hw.
Qed.

Lemma contains_rstrip p w s :
  ends_outside p w = true -> contains w (rstrip_by p s) = contains w s.
Proof.
  intros Hw. induction s as [|c s IH]; [reflexivity|].
  change (contains w (String c s)) with (startswith w (String c s) || contains w s).
  rewrite <- IH, <- (startswith_rstrip p w (String c s) Hw).
  cbn [rstrip_by]. destruct (rstrip_by p s) eqn:Hr.
  - destruct (p c).
    + cbn. destruct w; [discriminate|reflexivity].
    + cbn [contains]. reflexivity.
  - cbn [contains]. reflexivity.
Qed.

Lemma contains_strip a w s :
  isspace a = false -> ends_outside isspace (String a w) = true ->
  contains (String a w) (strip s) = contains (String a w) s.
Proof.
  intros Ha Hw. unfold strip, strip_by.
  now rewrite contains_rstrip, contains_lstrip.
Qed.

(** What the crawler computes on [get_text().strip().lower()] is what
    holds of the text itself, lowered. *)
Lemma contains_lower_strip a w s :
  isspace a = false -> ends_outside isspace (String a w) = true ->
  contains (String a w) (lower (strip s)) = contains (String a w) (lower s).
Proof. intros. rewrite strip_lower. now apply contains_strip. Qed.

End StringFacts.

(** ** The document tree *)

Section SoupFacts.

Lemma is_tag_name name n : is_tag name n = true <-> tag_name n = Some name.
Proof.
  destruct n as [s|name' attrs cls cs]; simpl.
  - split; discriminate.
  - rewrite String.eqb_eq. split; congruence.
Qed.

Lemma find_all_where_In name test n d :
  In d (find_all_where name test n) <->
  In d (descendants n) /\ tag_name d = Some name /\ test d = true.
Proof.
  unfold find_all_where. rewrite filter_In, andb_true_iff, is_tag_name. tauto.
Qed.

Lemma find_all_In name n d :
  In d (find_all name n) <-> In d (descendants n) /\ tag_name d = Some name.
Proof. unfold find_all. rewrite find_all_where_In. tauto. Qed.

Lemma found_hd_error (l : list node) : found (hd_error l) = true <-> exists d, In d l.
Proof.
  destruct l as [|x l]; simpl.
  - split; [discriminate|intros [d []]].
  - split; [exists x; auto|reflexivity].
Qed.

Lemma found_find name n : found (find name n) = true <-> has_descendant name n.
Proof.
  unfold find, has_descendant. rewrite found_hd_error.
  split; intros [d Hd]; exists d; now apply find_all_In.
Qed.

Lemma not_found_find name n : found (find name n) = false <-> ~ has_descendant name n.
Proof. rewrite <- found_find. destruct (found (find name n)); split; congruence. Qed.

End SoupFacts.

(** ** The rows of the results page *)

Section Rows.

Lemma skip_row_excluded row : skip_row row = true <-> excluded_row row.
Proof.
  unfold skip_row, excluded_row.
  rewrite !orb_true_iff, negb_true_iff, found_find, not_found_find. tauto.
Qed.

Lemma skip_row_qualifies row : skip_row row = false <-> ~ excluded_row row.
Proof. rewrite <- skip_row_excluded. destruct (skip_row row); split; congruence. Qed.

Lemma collect_rows_filter table_rows results_rows :
  collect_rows table_rows results_rows =
  results_rows ++ filter (fun row => negb (skip_row row)) table_rows.
Proof.
  revert results_rows.
  induction table_rows as [|row rest IH]; intros acc; simpl.
  - now rewrite app_nil_r.
  - destruct (skip_row row); simpl; rewrite IH; [reflexivity|].
    now rewrite <- app_assoc.
Qed.

Lemma collect_rows_In soup row :
  In row (collect_rows (find_all "tr" soup) []) <-> qualifying_row soup row.
Proof.
  rewrite collect_rows_filter. simpl.
  rewrite filter_In, find_all_In, negb_true_iff, skip_row_qualifies.
  reflexivity.
Qed.

Lemma green_loop_forallb rows : green_loop rows = forallb _is_row_green rows.
Proof.
  induction rows as [|row rest IH]; simpl; [reflexivity|].
  destruct (_is_row_green row); simpl; auto.
Qed.

Lemma rows_verdict_results_rows soup :
  rows_verdict soup =
  nonempty (collect_rows (find_all "tr" soup) []) &&
  forallb _is_row_green (collect_rows (find_all "tr" soup) []).
Proof.
  unfold rows_verdict.
  destruct (find_all "tr" soup) as [|r rs] eqn:Hrows; [reflexivity|].
  destruct (collect_rows (r :: rs) []) as [|q qs] eqn:Hq; [reflexivity|].
  now rewrite green_loop_forallb.
Qed.

Lemma rows_verdict_true soup :
  rows_verdict soup = true <->
  (exists row, qualifying_row soup row) /\
  (forall row, qualifying_row soup row -> _is_row_green row = true).
Proof.
  rewrite rows_verdict_results_rows, andb_true_iff, forallb_forall.
  split.
  - intros [Hne Hall]. split.
    + destruct (collect_rows (find_all "tr" soup) []) as [|q qs] eqn:Hq; [discriminate|].
      exists q. apply collect_rows_In. rewrite Hq. now left.
    + intros row Hrow. apply Hall. now apply collect_rows_In.
  - intros [[q Hq] Hall]. split.
    + apply collect_rows_In in Hq.
      destruct (collect_rows (find_all "tr" soup) []); [destruct Hq|reflexivity].
    + intros row Hrow. apply Hall. now apply collect_rows_In.
Qed.

Context {env : Environment}.

Lemma check_results_of_page c soup c' :
  fetch_results_page c = (inr soup, c') ->
  check_results c = (inr (rows_verdict soup), c').
Proof.
  intros H. unfold check_results, try_except, bind. rewrite H. reflexivity.
Qed.

End Rows.

(** ** _is_row_green *)

Section Greenness.

Lemma cells_loop_existsb cells : cells_loop cells = existsb cell_is_green cells.
Proof.
  induction cells as [|cell rest IH]; simpl; [reflexivity|].
  destruct (cell_is_green cell); simpl; auto.
Qed.

Lemma cell_is_green_rule cell : cell_is_green cell = true <-> green_cell cell = true.
Proof.
  unfold cell_is_green, green_cell, green_style, holds_any, class_string.
  cbn [existsb style_tokens cell_class_tokens status_words].
  rewrite !(contains_lower_strip _ _ (get_text cell)) by reflexivity.
  rewrite !orb_true_iff. intuition congruence.
Qed.

End Greenness.

(** ** check_results *)

(** C1. Once the results page is fetched, [check_results] answers true
    exactly when the page has at least one qualifying row and every
    qualifying row is green; with no qualifying row it answers false, and
    with a qualifying row that is not green it answers false. *)
Theorem check_results_all_green {env : Environment} (c c' : LabCrawler) (soup : node) :
  fetch_results_page c = (inr soup, c') ->
  exists b : bool,
    check_results c = (inr b, c') /\
    (b = true <->
       (exists row, qualifying_row soup row) /\
       (forall row, qualifying_row soup row -> _is_row_green row = true)) /\
    ((forall row, ~ qualifying_row soup row) -> b = false) /\
    ((exists row, qualifying_row soup row /\ _is_row_green row = false) -> b = false).
Proof.
  intros Hpage. exists (rows_verdict soup).
  split; [now apply check_results_of_page|].
  split; [apply rows_verdict_true|].
  split.
  - intros Hnone. apply not_true_is_false. intros Htrue.
    apply rows_verdict_true in Htrue. destruct Htrue as [[row Hrow] _].
    exact (Hnone row Hrow).
  - intros [row [Hrow Hred]]. apply not_true_is_false. intros Htrue.
    apply rows_verdict_true in Htrue. destruct Htrue as [_ Hall].
    rewrite (Hall row Hrow) in Hred. discriminate.
Qed.

Lemma check_results_all_green_witness :
  exists b : bool,
    check_results (Samples.logged_in Samples.mixed_text) = (inr b, Samples.served) /\
    (b = true <->
       (exists row, qualifying_row Samples.mixed_soup row) /\
       (forall row, qualifying_row Samples.mixed_soup row -> _is_row_green row = true)) /\
    ((forall row, ~ qualifying_row Samples.mixed_soup row) -> b = false) /\
    ((exists row, qualifying_row Samples.mixed_soup row /\ _is_row_green row = false) ->
     b = false).
Proof.
  apply (check_results_all_green (env := Samples.results_portal)).
  reflexivity.
Defined.

(** C4. Of the table rows of the fetched page, the rows [check_results]
    keeps for the greenness test are exactly those that hold no header
    cell, hold a data cell and whose text holds neither "visualizar laudo"
    nor "assinatura"; the answer is computed from the kept rows alone. *)
Theorem row_exclusion_exact {env : Environment} (c c' : LabCrawler) (soup : node) :
  fetch_results_page c = (inr soup, c') ->
  let results_rows := collect_rows (find_all "tr" soup) [] in
  (forall row, table_row soup row -> (In row results_rows <-> ~ excluded_row row)) /\
  (forall row, In row results_rows -> table_row soup row) /\
  check_results c =
    (inr (nonempty results_rows && forallb _is_row_green results_rows), c').
Proof.
  intros Hpage results_rows. subst results_rows. split; [|split].
  - intros row Hrow. rewrite collect_rows_In. unfold qualifying_row. tauto.
  - intros row Hrow. apply collect_rows_In in Hrow. apply Hrow.
  - rewrite <- rows_verdict_results_rows. now apply check_results_of_page.
Qed.

Lemma row_exclusion_exact_witness :
  let results_rows := collect_rows (find_all "tr" Samples.mixed_soup) [] in
  results_rows = [Samples.success_row; Samples.plain_row] /\
  (forall row, table_row Samples.mixed_soup row ->
     (In row results_rows <-> ~ excluded_row row)) /\
  (forall row, In row results_rows -> table_row Samples.mixed_soup row) /\
  check_results (Samples.logged_in Samples.mixed_text) =
    (inr (nonempty results_rows && forallb _is_row_green results_rows), Samples.served).
Proof.
  split; [reflexivity|].
  apply (row_exclusion_exact (env := Samples.results_portal)
           (Samples.logged_in Samples.mixed_text)).
  reflexivity.
Defined.

(** C5. It is not so that a row is green exactly when an indicator of the
    vocabulary shows in the attributes of the row or of a cell: the class
    [disponivel] on a cell does not make the row green. *)
Lemma cell_class_disponivel_not_green :
  ~ (_is_row_green Samples.disponivel_cell_row = true <->
     spec_green_row Samples.disponivel_cell_row).
Proof.
  intros [_ H].
  assert (Hgreen : _is_row_green Samples.disponivel_cell_row = true).
  { apply H. right. right.
    exists (Tag "td" [] ["disponivel"] [NavigableString "Hemograma"]).
    repeat split; [now left|]. left. reflexivity. }
  vm_compute in Hgreen. discriminate.
Qed.

(** C5, amended. A row is green exactly when its style names green, its
    class holds green, success, ready or disponivel, its bgcolor holds
    #8ff08f or green, or one of its cells has a style that names green, a
    class that holds green, success or ready, or a text that holds
    disponivel, pronto, liberado or concluido. *)
Theorem is_row_green_by_rule_tables (row : node) :
  _is_row_green row = true <-> green_row row.
Proof.
  unfold _is_row_green, green_row, green_style, holds_any, class_string.
  cbn [existsb style_tokens row_class_tokens bgcolor_tokens].
  rewrite !lower_idem, cells_loop_existsb, !orb_true_iff, existsb_exists.
  assert (Hcells :
    (exists x, In x (find_all "td" row) /\ cell_is_green x = true) <->
    (exists cell, In cell (descendants row) /\ tag_name cell = Some "td" /\
                  green_cell cell = true)).
  { split; intros [cell H]; exists cell.
    - rewrite find_all_In, cell_is_green_rule in H. tauto.
    - rewrite find_all_In, cell_is_green_rule. tauto. }
  rewrite Hcells. intuition congruence.
Qed.

(** ** login *)

Section Login.

Context {env : Environment}.

Lemma login_of_submitted username password c c' response :
  login_submit username password c = (inr (Some response), c') ->
  login username password c =
    (if holds_any success_indicators (text response) ||
        (negb (contains "entrar" (lower (text response))) ||
         negb (contains "login" (lower (text response))))
     then (inr true, {| session := session c'; results_url := Some (url response) |})
     else (inr false, c')).
Proof.
  intros H. unfold login, try_except, bind. rewrite H.
  unfold holds_any.
  destruct (existsb _ success_indicators || _); reflexivity.
Qed.

End Login.

(** C3. The verdict of [login] is not the OR of a marker found and both
    of "entrar" and "login" absent: a page that answers the form with
    "entrar" but without "login", and without any marker, is taken for a
    success. *)
Lemma login_entrar_without_login :
  login_submit (env := Samples.login_portal) "maria" "segredo"
    (Samples.fresh [Scripted.ok Samples.login_text; Scripted.ok Samples.entrar_text])
  = (inr (Some Samples.entrar_response), Samples.fresh []) /\
  fst (login (env := Samples.login_portal) "maria" "segredo"
         (Samples.fresh [Scripted.ok Samples.login_text; Scripted.ok Samples.entrar_text]))
  = inr true /\
  ~ spec_login_verdict (text Samples.entrar_response).
Proof.
  split; [reflexivity|]. split; [reflexivity|].
  intros [H|[H _]]; vm_compute in H; discriminate.
Qed.

(** C3, amended. Once the form is submitted and answered, [login] returns
    true exactly when a marker of the fixed set occurs in the answer,
    whatever the case, or at least one of "entrar" and "login" is absent
    from it; otherwise it returns false. *)
Theorem login_verdict_exact {env : Environment} (username password : string)
    (c c' : LabCrawler) (response : Response) :
  login_submit username password c = (inr (Some response), c') ->
  exists (b : bool) (c'' : LabCrawler),
    login username password c = (inr b, c'') /\
    (b = true <-> login_verdict (text response)).
Proof.
  intros H. rewrite (login_of_submitted _ _ _ _ _ H). unfold login_verdict.
  destruct (holds_any success_indicators (text response)); simpl.
  - eexists _, _. split; [reflexivity|]. tauto.
  - destruct (contains "entrar" (lower (text response))),
             (contains "login" (lower (text response))); simpl;
      eexists _, _; (split; [reflexivity|]); intuition congruence.
Qed.

Lemma login_verdict_exact_witness :
  exists (b : bool) (c'' : LabCrawler),
    login (env := Samples.login_portal) "maria" "segredo"
      (Samples.fresh [Scripted.ok Samples.login_text; Scripted.ok Samples.entrar_text])
    = (inr b, c'') /\
    (b = true <-> login_verdict (text Samples.entrar_response)).
Proof.
  apply (login_verdict_exact (env := Samples.login_portal) "maria" "segredo"
           (Samples.fresh [Scripted.ok Samples.login_text; Scripted.ok Samples.entrar_text])
           (Samples.fresh []) Samples.entrar_response).
  reflexivity.
Defined.

(** ** get_pdf_link *)

Section Links.

Lemma text_links_loop_find links :
  text_links_loop links =
  option_map (fun a => absolutize (href_of a)) (List.find phrase_matched links).
Proof.
  induction links as [|link rest IH]; [reflexivity|].
  cbn [text_links_loop List.find]. unfold phrase_matched at 1, holds_any.
  cbn [existsb target_texts].
  rewrite !(contains_lower_strip _ _ (get_text link)) by reflexivity.
  destruct (contains "visualizar laudo" (lower (get_text link)) || _);
    [reflexivity|exact IH].
Qed.

Lemma laudo_links_loop_find links :
  laudo_links_loop links =
  option_map (fun a => absolutize (href_of a)) (List.find laudo_matched links).
Proof.
  induction links as [|link rest IH]; [reflexivity|].
  cbn [laudo_links_loop List.find]. unfold laudo_matched, href_of in *.
  destruct (contains "/get_laudo" (get_or "href" "" link)); [reflexivity|exact IH].
Qed.

Lemma find_exists {A} (p : A -> bool) l x :
  In x l -> p x = true -> exists y, List.find p l = Some y.
Proof.
  intros Hin Hp. destruct (List.find p l) as [y|] eqn:Hf; [now exists y|].
  rewrite (find_none p l Hf x Hin) in Hp. discriminate.
Qed.

Lemma find_absent {A} (p : A -> bool) l :
  (forall x, In x l -> p x = false) -> List.find p l = None.
Proof.
  intros H. destruct (List.find p l) as [y|] eqn:Hf; [|reflexivity].
  apply find_some in Hf. destruct Hf as [Hin Hp].
  rewrite (H y Hin) in Hp. discriminate.
Qed.

Lemma pick_pdf_link_find soup :
  pick_pdf_link soup =
  match List.find phrase_matched (anchors soup) with
  | Some a => Some (absolutize (href_of a))
  | None => option_map (fun a => absolutize (href_of a))
              (List.find laudo_matched (anchors soup))
  end.
Proof.
  unfold pick_pdf_link. fold (anchors soup).
  rewrite text_links_loop_find, laudo_links_loop_find.
  destruct (List.find phrase_matched (anchors soup)); reflexivity.
Qed.

Context {env : Environment}.

Lemma get_pdf_link_of_page c soup c' :
  fetch_link_page c = (inr soup, c') ->
  get_pdf_link c = (inr (pick_pdf_link soup), c').
Proof.
  intros H. unfold get_pdf_link, try_except, bind. rewrite H. reflexivity.
Qed.

End Links.

(** *** The anchors the two passes scan, in the words of the
    specification *)

Section LinkWords.

Lemma absolutize_joined href : joined_to_origin href (absolutize href).
Proof.
  unfold joined_to_origin, absolutize, base_url.
  destruct (startswith "/" href) eqn:Hs; [left; auto|].
  destruct (startswith "http" href) eqn:Hh; cbn [negb]; right; [left|right]; auto.
Qed.

Lemma find_filter_split {A} (p q : A -> bool) l a :
  List.find p (filter q l) = Some a ->
  exists before after,
    l = before ++ a :: after /\
    forall x, In x before -> q x = true -> p x = false.
Proof.
  induction l as [|x l IH]; [discriminate|].
  cbn [filter]. destruct (q x) eqn:Hq.
  - cbn [List.find]. destruct (p x) eqn:Hp.
    + intros H. inversion H; subst. exists [], l.
      split; [reflexivity|intros ? []].
    + intros H. destruct (IH H) as (b & af & -> & Hb). exists (x :: b), af.
      split; [reflexivity|]. intros y [<-|Hy] Hqy; auto.
  - intros H. destruct (IH H) as (b & af & -> & Hb). exists (x :: b), af.
    split; [reflexivity|]. intros y [<-|Hy] Hqy; [congruence|auto].
Qed.

Lemma anchors_with_href soup a :
  In a (anchors soup) <-> exists href, anchor_with_href soup a href.
Proof.
  unfold anchors, anchor_with_href. rewrite find_all_where_In. unfold has_attr.
  split.
  - intros (Hd & Ht & Hh). destruct (get "href" a) as [href|]; [|discriminate].
    now exists href.
  - intros (href & Hd & Ht & Hh). rewrite Hh. auto.
Qed.

Lemma anchor_href_of soup a href : anchor_with_href soup a href -> href_of a = href.
Proof. intros (_ & _ & Hh). unfold href_of, get_or. now rewrite Hh. Qed.

Lemma anchor_scanned soup a href :
  anchor_with_href soup a href -> is_tag "a" a && has_attr "href" a = true.
Proof.
  intros (_ & Ht & Hh). apply is_tag_name in Ht. unfold has_attr.
  now rewrite Ht, Hh.
Qed.

Lemma phrase_matched_names a : phrase_matched a = true <-> names_document a.
Proof.
  unfold phrase_matched, holds_any, names_document, target_texts. cbn [existsb].
  rewrite !orb_true_iff. intuition discriminate.
Qed.

(** The first anchor a pass finds is the first of the page, in document
    order, that carries an href and passes the test. *)
Lemma found_is_first soup (p : node -> bool) (P : node -> string -> Prop) a :
  (forall x h, anchor_with_href soup x h -> (p x = true <-> P x h)) ->
  List.find p (anchors soup) = Some a ->
  exists href, first_anchor soup P a href.
Proof.
  intros HP Hf. destruct (find_some _ _ Hf) as [Hin Hp].
  apply anchors_with_href in Hin. destruct Hin as [href Ha]. exists href.
  split; [exact Ha|]. split; [now apply (HP a href Ha)|].
  unfold anchors, find_all_where in Hf.
  destruct (find_filter_split _ _ _ _ Hf) as (before & after & Hsplit & Hbefore).
  exists before, after. split; [exact Hsplit|].
  intros x h Hx Hxa HPx. apply (HP x h Hxa) in HPx.
  rewrite (Hbefore x Hx (anchor_scanned _ _ _ Hxa)) in HPx. discriminate.
Qed.

Lemma phrase_test soup x h :
  anchor_with_href soup x h -> (phrase_matched x = true <-> phrase_link x h).
Proof. intros _. apply phrase_matched_names. Qed.

Lemma laudo_test soup x h :
  anchor_with_href soup x h -> (laudo_matched x = true <-> laudo_link x h).
Proof.
  intros Ha. unfold laudo_matched, laudo_link.
  rewrite (anchor_href_of _ _ _ Ha). tauto.
Qed.

End LinkWords.

(** C6. It is not so that an anchor whose visible text holds one of the
    phrases is always preferred: an anchor without an href is scanned by
    neither pass. On a page whose anchor named Baixar has no href (it
    opens the document by a script) and whose other anchor points to
    [/get_laudo], the result is the link to [/get_laudo]. *)
Lemma phrase_anchor_without_href_is_skipped :
  In LinkSamples.script_anchor (descendants LinkSamples.script_soup) /\
  tag_name LinkSamples.script_anchor = Some "a" /\
  contains "baixar" (lower (get_text LinkSamples.script_anchor)) = true /\
  get "href" LinkSamples.script_anchor = None /\
  get "href" LinkSamples.laudo_anchor = Some "/get_laudo?id=7" /\
  get_pdf_link (env := LinkSamples.link_portal)
    (LinkSamples.visiting [Scripted.ok LinkSamples.script_text])
  = (inr (Some "https://lablaudo.com.br/get_laudo?id=7"), LinkSamples.visiting []).
Proof. split; [left; reflexivity|]. repeat split; reflexivity. Qed.

(** C6, amended. Once the page is fetched, and among the anchors that
    carry an href: if the visible text of one holds "visualizar laudo",
    "baixar" or "download", whatever the case of its letters, the result
    is the href of the first such anchor of the page, joined to the
    origin [https://lablaudo.com.br] when it does not start with [http],
    whatever anchors point to [/get_laudo]; only if there is none, the
    result is the href, joined to the origin the same way, of the first
    anchor whose href holds [/get_laudo]; and if there is none of either
    kind the result is null. *)
Theorem get_pdf_link_prefers_phrase {env : Environment} (c c' : LabCrawler) (soup : node) :
  fetch_link_page c = (inr soup, c') ->
  ((exists a h, anchor_with_href soup a h /\ names_document a) ->
   exists a h u, first_anchor soup phrase_link a h /\ joined_to_origin h u /\
                 get_pdf_link c = (inr (Some u), c')) /\
  ((forall a h, anchor_with_href soup a h -> ~ names_document a) ->
   ((exists a h, anchor_with_href soup a h /\ contains "/get_laudo" h = true) ->
    exists a h u, first_anchor soup laudo_link a h /\ joined_to_origin h u /\
                  get_pdf_link c = (inr (Some u), c')) /\
   ((forall a h, anchor_with_href soup a h -> contains "/get_laudo" h = false) ->
    get_pdf_link c = (inr None, c'))).
Proof.
  intros Hpage. rewrite (get_pdf_link_of_page _ _ _ Hpage), pick_pdf_link_find.
  split.
  - intros (a & h & Ha & Hn).
    assert (Hin : In a (anchors soup)) by (apply anchors_with_href; eauto).
    apply phrase_matched_names in Hn.
    destruct (find_exists phrase_matched _ _ Hin Hn) as [y Hy]. rewrite Hy.
    destruct (found_is_first soup _ phrase_link y (phrase_test soup) Hy)
      as [hy Hfirst].
    exists y, hy, (absolutize hy).
    split; [exact Hfirst|]. split; [apply absolutize_joined|].
    now rewrite (anchor_href_of soup y hy (proj1 Hfirst)).
  - intros Hnone.
    rewrite (find_absent phrase_matched (anchors soup)).
    2:{ intros a Hin. apply anchors_with_href in Hin. destruct Hin as [h Ha].
        destruct (phrase_matched a) eqn:Hp; [|reflexivity].
        apply phrase_matched_names in Hp. destruct (Hnone a h Ha Hp). }
    split.
    + intros (a & h & Ha & Hl).
      assert (Hin : In a (anchors soup)) by (apply anchors_with_href; eauto).
      apply (laudo_test soup a h Ha) in Hl.
      destruct (find_exists laudo_matched _ _ Hin Hl) as [y Hy]. rewrite Hy.
      destruct (found_is_first soup _ laudo_link y (laudo_test soup) Hy)
        as [hy Hfirst].
      exists y, hy, (absolutize hy).
      split; [exact Hfirst|]. split; [apply absolutize_joined|].
      cbn [option_map]. now rewrite (anchor_href_of soup y hy (proj1 Hfirst)).
    + intros Hnol. rewrite (find_absent laudo_matched (anchors soup)); [reflexivity|].
      intros a Hin. apply anchors_with_href in Hin. destruct Hin as [h Ha].
      unfold laudo_matched. rewrite (anchor_href_of _ _ _ Ha). now apply (Hnol a h).
Qed.

(** On the page with a link to [/get_laudo] before a link named Baixar,
    the result is the link named Baixar, at the origin of the portal. *)
Lemma get_pdf_link_prefers_phrase_witness :
  (exists a h, anchor_with_href Samples.links_soup a h /\ names_document a) /\
  (exists a h, anchor_with_href Samples.links_soup a h /\
               contains "/get_laudo" h = true) /\
  get_pdf_link (env := Samples.login_portal)
    (Samples.fresh [Scripted.ok Samples.links_text])
  = (inr (Some "https://lablaudo.com.br/download_pdf"), Samples.fresh []) /\
  exists a h, first_anchor Samples.links_soup phrase_link a h /\
              joined_to_origin h "https://lablaudo.com.br/download_pdf".
Proof.
  assert (Hphrase : exists a h, anchor_with_href Samples.links_soup a h /\
                                names_document a).
  { exists Samples.baixar_anchor, "/download_pdf".
    split; [split; [right; right; left; reflexivity|split; reflexivity]|].
    right; left; reflexivity. }
  split; [exact Hphrase|]. split.
  { exists Samples.laudo_anchor, "/get_laudo?id=123".
    split; [split; [left; reflexivity|split; reflexivity]|reflexivity]. }
  destruct (get_pdf_link_prefers_phrase (env := Samples.login_portal)
              (Samples.fresh [Scripted.ok Samples.links_text]) (Samples.fresh [])
              Samples.links_soup eq_refl) as [Hfirst _].
  destruct (Hfirst Hphrase) as (a & h & u & Ha & Hj & Hget).
  assert (Hu : u = "https://lablaudo.com.br/download_pdf").
  { assert (Hc : get_pdf_link (env := Samples.login_portal)
                   (Samples.fresh [Scripted.ok Samples.links_text])
                 = (inr (Some "https://lablaudo.com.br/download_pdf"), Samples.fresh []))
      by reflexivity.
    rewrite Hc in Hget. inversion Hget. reflexivity. }
  subst u. split; [exact Hget|]. exists a, h. auto.
Defined.

(** ** How the methods end: exceptions and the results location *)

Section Endings.

Context {env : Environment}.

Lemma ret_errors {A} (a : A) : request_errors_only (ret a).
Proof. intros c e c' H. discriminate. Qed.

Lemma raise_errors {A} : request_errors_only (@raise env A RequestException).
Proof. intros c e c' H. unfold raise in H. congruence. Qed.

Lemma bind_errors {A B} (m : M A) (k : A -> M B) :
  request_errors_only m -> (forall a, request_errors_only (k a)) ->
  request_errors_only (bind m k).
Proof.
  intros Hm Hk c e c' H. unfold bind in H.
  destruct (m c) as [[e0|a] c0] eqn:Hmc.
  - inversion H; subst. exact (Hm _ _ _ Hmc).
  - exact (Hk a _ _ _ H).
Qed.

Lemma session_get_errors u : request_errors_only (session_get u).
Proof.
  intros c e c' H. unfold session_get in H.
  destruct (http_get u (session c)) as [[r|] w]; simpl in H; congruence.
Qed.

Lemma session_post_errors u data : request_errors_only (session_post u data).
Proof.
  intros c e c' H. unfold session_post in H.
  destruct (http_post u data (session c)) as [[r|] w]; simpl in H; congruence.
Qed.

Lemma raise_for_status_errors r : request_errors_only (raise_for_status r).
Proof.
  unfold raise_for_status.
  destruct (_ && _); [apply raise_errors|apply ret_errors].
Qed.

Lemma read_results_url_errors : request_errors_only read_results_url.
Proof. intros c e c' H. discriminate. Qed.

Lemma write_results_url_errors u : request_errors_only (write_results_url u).
Proof. intros c e c' H. discriminate. Qed.

Lemma try_except_returns {A} (body : M A) (a : A) :
  request_errors_only body -> returns (try_except body (ret a)).
Proof.
  intros Hb c. unfold try_except.
  destruct (body c) as [[e|x] c0] eqn:Hbc.
  - rewrite (Hb _ _ _ Hbc). now exists a, c0.
  - now exists x, c0.
Qed.

Lemma ret_keeps {A} (a : A) : keeps_results_url (ret a).
Proof. intros c. reflexivity. Qed.

Lemma raise_keeps {A} e : keeps_results_url (@raise env A e).
Proof. intros c. reflexivity. Qed.

Lemma bind_keeps {A B} (m : M A) (k : A -> M B) :
  keeps_results_url m -> (forall a, keeps_results_url (k a)) ->
  keeps_results_url (bind m k).
Proof.
  intros Hm Hk c. unfold bind. specialize (Hm c).
  destruct (m c) as [[e|a] c0]; simpl in *; [exact Hm|].
  now rewrite (Hk a c0).
Qed.

Lemma session_get_keeps u : keeps_results_url (session_get u).
Proof.
  intros c. unfold session_get. now destruct (http_get u (session c)).
Qed.

Lemma session_post_keeps u data : keeps_results_url (session_post u data).
Proof.
  intros c. unfold session_post. now destruct (http_post u data (session c)).
Qed.

Lemma raise_for_status_keeps r : keeps_results_url (raise_for_status r).
Proof.
  unfold raise_for_status. destruct (_ && _); [apply raise_keeps|apply ret_keeps].
Qed.

Lemma read_results_url_keeps : keeps_results_url read_results_url.
Proof. intros c. reflexivity. Qed.

Lemma try_except_keeps {A} (body handler : M A) :
  keeps_results_url body -> keeps_results_url handler ->
  keeps_results_url (try_except body handler).
Proof.
  intros Hb Hh c. unfold try_except. specialize (Hb c).
  destruct (body c) as [[[]|x] c0]; simpl in *; auto.
  now rewrite (Hh c0).
Qed.

Lemma ret_ignores {A} (a : A) : ignores_results_url (ret a).
Proof. intros c remembered. exists (inr a), (session c). now destruct c. Qed.

Lemma raise_ignores {A} e : ignores_results_url (@raise env A e).
Proof. intros c remembered. exists (inl e), (session c). now destruct c. Qed.

Lemma bind_ignores {A B} (m : M A) (k : A -> M B) :
  ignores_results_url m -> (forall a, ignores_results_url (k a)) ->
  ignores_results_url (bind m k).
Proof.
  intros Hm Hk c remembered. unfold bind.
  destruct (Hm c remembered) as [r [w [H1 H2]]]. rewrite H1, H2.
  destruct r as [e|a]; [now exists (inl e), w|].
  destruct (Hk a {| session := w; results_url := results_url c |} remembered)
    as [r' [w' [H3 H4]]].
  exists r', w'. simpl in *. now rewrite H3, H4.
Qed.

Lemma session_get_ignores u : ignores_results_url (session_get u).
Proof.
  intros c remembered. unfold session_get. simpl.
  destruct (http_get u (session c)) as [r w]. now exists (answered r), w.
Qed.

Lemma raise_for_status_ignores r : ignores_results_url (raise_for_status r).
Proof.
  unfold raise_for_status. destruct (_ && _); [apply raise_ignores|apply ret_ignores].
Qed.

Lemma try_except_ignores {A} (body handler : M A) :
  ignores_results_url body -> ignores_results_url handler ->
  ignores_results_url (try_except body handler).
Proof.
  intros Hb Hh c remembered. unfold try_except.
  destruct (Hb c remembered) as [r [w [H1 H2]]]. rewrite H1, H2.
  destruct r as [[]|a]; try (now eexists _, w).
  destruct (Hh {| session := w; results_url := results_url c |} remembered)
    as [r' [w' [H3 H4]]].
  exists r', w'. simpl in *. now rewrite H3, H4.
Qed.

End Endings.

Create HintDb crawler.

#[local] Hint Resolve ret_errors raise_errors session_get_errors session_post_errors
  raise_for_status_errors read_results_url_errors write_results_url_errors
  ret_keeps raise_keeps session_get_keeps session_post_keeps raise_for_status_keeps
  read_results_url_keeps ret_ignores raise_ignores session_get_ignores
  raise_for_status_ignores : crawler.

(** One step through the body of a method, for either property. *)
Ltac through_body :=
  repeat match goal with
    | |- request_errors_only (bind _ _) => apply bind_errors; [|intros]
    | |- keeps_results_url (bind _ _) => apply bind_keeps; [|intros]
    | |- ignores_results_url (bind _ _) => apply bind_ignores; [|intros]
    | |- ignores_results_url (if ?b then _ else _) => destruct b
    | |- ignores_results_url (match ?x with _ => _ end) => destruct x
    | |- request_errors_only (if ?b then _ else _) => destruct b
    | |- keeps_results_url (if ?b then _ else _) => destruct b
    | |- request_errors_only (match ?x with _ => _ end) => destruct x
    | |- keeps_results_url (match ?x with _ => _ end) => destruct x
    | |- _ => solve [auto with crawler]
    end.

Section Bodies.

Context {env : Environment}.

Lemma login_submit_errors u p : request_errors_only (login_submit u p).
Proof. unfold login_submit. through_body. Qed.

Lemma login_submit_keeps u p : keeps_results_url (login_submit u p).
Proof. unfold login_submit. through_body. Qed.

Lemma fetch_results_page_errors : request_errors_only fetch_results_page.
Proof. unfold fetch_results_page. through_body. Qed.

Lemma fetch_results_page_keeps : keeps_results_url fetch_results_page.
Proof. unfold fetch_results_page. through_body. Qed.

Lemma fetch_link_page_errors : request_errors_only fetch_link_page.
Proof. unfold fetch_link_page. through_body. Qed.

Lemma fetch_link_page_keeps : keeps_results_url fetch_link_page.
Proof. unfold fetch_link_page. through_body. Qed.

Lemma iframe_pdf_errors soup : request_errors_only (iframe_pdf soup).
Proof. unfold iframe_pdf. through_body. Qed.

Lemma iframe_pdf_keeps soup : keeps_results_url (iframe_pdf soup).
Proof. unfold iframe_pdf. through_body. Qed.

Lemma pdf_links_loop_errors links : request_errors_only (pdf_links_loop links).
Proof.
  induction links as [|link rest IH]; cbn [pdf_links_loop]; through_body.
Qed.

Lemma pdf_links_loop_keeps links : keeps_results_url (pdf_links_loop links).
Proof.
  induction links as [|link rest IH]; cbn [pdf_links_loop]; through_body.
Qed.

Lemma iframe_pdf_ignores soup : ignores_results_url (iframe_pdf soup).
Proof. unfold iframe_pdf. through_body. Qed.

Lemma pdf_links_loop_ignores links : ignores_results_url (pdf_links_loop links).
Proof.
  induction links as [|link rest IH]; cbn [pdf_links_loop]; through_body.
Qed.

End Bodies.

#[local] Hint Resolve login_submit_errors login_submit_keeps fetch_results_page_errors
  fetch_results_page_keeps fetch_link_page_errors fetch_link_page_keeps
  iframe_pdf_errors iframe_pdf_keeps pdf_links_loop_errors pdf_links_loop_keeps
  iframe_pdf_ignores pdf_links_loop_ignores : crawler.

Section Methods_end.

Context {env : Environment}.

Lemma login_returns u p : returns (login u p).
Proof. unfold login. apply try_except_returns. through_body. Qed.

Lemma check_results_returns : returns check_results.
Proof. unfold check_results. apply try_except_returns. through_body. Qed.

Lemma get_pdf_link_returns : returns get_pdf_link.
Proof. unfold get_pdf_link. apply try_except_returns. through_body. Qed.

Lemma download_attempt_errors pdf_url : request_errors_only (download_attempt pdf_url).
Proof. unfold download_attempt, handle_download. through_body. Qed.

Lemma download_pdf_returns pdf_url : returns (download_pdf pdf_url).
Proof.
  unfold download_pdf. apply try_except_returns. apply download_attempt_errors.
Qed.

Lemma check_results_keeps : keeps_results_url check_results.
Proof. unfold check_results. apply try_except_keeps; through_body. Qed.

Lemma get_pdf_link_keeps : keeps_results_url get_pdf_link.
Proof. unfold get_pdf_link. apply try_except_keeps; through_body. Qed.

Lemma download_pdf_keeps pdf_url : keeps_results_url (download_pdf pdf_url).
Proof.
  unfold download_pdf, download_attempt, handle_download.
  apply try_except_keeps; through_body.
Qed.

Lemma download_pdf_blind pdf_url c remembered :
  fst (download_pdf pdf_url {| session := session c; results_url := remembered |}) =
  fst (download_pdf pdf_url c).
Proof.
  assert (H : ignores_results_url (download_pdf pdf_url)).
  { unfold download_pdf, download_attempt, handle_download.
    apply try_except_ignores; through_body. }
  destruct (H c remembered) as [r [w [H1 H2]]]. now rewrite H1, H2.
Qed.

(** What is raised inside the [try] comes out as the value of the
    [except] branch. *)
Lemma try_except_caught {A} (body : M A) (a : A) c e c' :
  request_errors_only body -> body c = (inl e, c') ->
  try_except body (ret a) c = (inr a, c').
Proof.
  intros Hb H. unfold try_except. rewrite H, (Hb _ _ _ H). reflexivity.
Qed.

Lemma bind_raised {A B} (m : M A) (k : A -> M B) c e c' :
  m c = (inl e, c') -> bind m k c = (inl e, c').
Proof. intros H. unfold bind. now rewrite H. Qed.

Lemma login_caught u p c e c' :
  login_submit u p c = (inl e, c') -> login u p c = (inr false, c').
Proof.
  intros H. unfold login. apply try_except_caught with (e := e).
  - through_body.
  - now apply bind_raised.
Qed.

Lemma login_without_form u p c c' :
  login_submit u p c = (inr None, c') -> login u p c = (inr false, c').
Proof. intros H. unfold login, try_except, bind. now rewrite H. Qed.

Lemma check_results_caught c e c' :
  fetch_results_page c = (inl e, c') -> check_results c = (inr false, c').
Proof.
  intros H. unfold check_results. apply try_except_caught with (e := e).
  - through_body.
  - now apply bind_raised.
Qed.

Lemma get_pdf_link_caught c e c' :
  fetch_link_page c = (inl e, c') -> get_pdf_link c = (inr None, c').
Proof.
  intros H. unfold get_pdf_link. apply try_except_caught with (e := e).
  - through_body.
  - now apply bind_raised.
Qed.

Lemma download_pdf_caught pdf_url c e c' :
  download_attempt pdf_url c = (inl e, c') -> download_pdf pdf_url c = (inr None, c').
Proof.
  intros H. unfold download_pdf. apply try_except_caught with (e := e).
  - apply download_attempt_errors.
  - exact H.
Qed.

End Methods_end.

(** ** The public operations *)

(** C8. The four public operations always return: [login] and
    [check_results] a boolean, [get_pdf_link] and [download_pdf] a value
    or null. A request that fails or is answered with an error status,
    at any step, and a login page without a form, end in false or null,
    never in an exception. *)
Theorem public_operations_total {env : Environment} (c : LabCrawler)
    (username password pdf_url : string) :
  ((exists (b : bool) c', login username password c = (inr b, c')) /\
   (exists (b : bool) c', check_results c = (inr b, c')) /\
   (exists (r : option string) c', get_pdf_link c = (inr r, c')) /\
   (exists (r : option (string * string)) c', download_pdf pdf_url c = (inr r, c'))) /\
  ((forall e c', login_submit username password c = (inl e, c') ->
      login username password c = (inr false, c')) /\
   (forall c', login_submit username password c = (inr None, c') ->
      login username password c = (inr false, c')) /\
   (forall e c', fetch_results_page c = (inl e, c') ->
      check_results c = (inr false, c')) /\
   (forall e c', fetch_link_page c = (inl e, c') ->
      get_pdf_link c = (inr None, c')) /\
   (forall e c', download_attempt pdf_url c = (inl e, c') ->
      download_pdf pdf_url c = (inr None, c'))).
Proof.
  split.
  - split; [apply login_returns|]. split; [apply check_results_returns|].
    split; [apply get_pdf_link_returns|apply download_pdf_returns].
  - split; [apply login_caught|]. split; [apply login_without_form|].
    split; [apply check_results_caught|].
    split; [apply get_pdf_link_caught|apply download_pdf_caught].
Qed.

(** With the network down every operation ends in false or null. *)
Lemma public_operations_total_witness :
  login (env := Samples.login_portal) "maria" "segredo" (Samples.fresh []) =
    (inr false, Samples.fresh []) /\
  check_results (env := Samples.login_portal) (Samples.fresh []) =
    (inr false, Samples.fresh []) /\
  get_pdf_link (env := Samples.login_portal) (Samples.fresh []) =
    (inr None, Samples.fresh []) /\
  download_pdf (env := Samples.login_portal) "https://lablaudo.com.br/get_laudo?id=123"
    (Samples.fresh []) = (inr None, Samples.fresh []).
Proof.
  pose proof (public_operations_total (env := Samples.login_portal) (Samples.fresh [])
                "maria" "segredo" "https://lablaudo.com.br/get_laudo?id=123")
    as [_ [Hlogin [_ [Hcheck [Hlink Hdownload]]]]].
  split; [apply (Hlogin RequestException); reflexivity|].
  split; [apply (Hcheck RequestException); reflexivity|].
  split; [apply (Hlink RequestException); reflexivity|].
  apply (Hdownload RequestException); reflexivity.
Defined.

(** C10. The remembered results location is written by [login] when it
    returns true, to the url of the page that answered the form, and by
    nothing else: a [login] that returns false leaves it as it was, and so
    do [check_results], [get_pdf_link] and [download_pdf], however they
    end. *)
Theorem results_url_written_by_login_only {env : Environment} (c : LabCrawler)
    (username password pdf_url : string) :
  (forall r c', login username password c = (r, c') ->
     (r = inr true /\
      exists response c1,
        login_submit username password c = (inr (Some response), c1) /\
        results_url c' = Some (url response)) \/
     (r = inr false /\ results_url c' = results_url c)) /\
  results_url (snd (check_results c)) = results_url c /\
  results_url (snd (get_pdf_link c)) = results_url c /\
  results_url (snd (download_pdf pdf_url c)) = results_url c.
Proof.
  split; [|split; [apply check_results_keeps|
           split; [apply get_pdf_link_keeps|apply download_pdf_keeps]]].
  intros r c' H.
  pose proof (login_submit_keeps username password c) as Hkeep.
  destruct (login_submit username password c) as [[e|[response|]] c1] eqn:Hs;
    simpl in Hkeep.
  - rewrite (login_caught _ _ _ _ _ Hs) in H.
    inversion H; subst. right. auto.
  - rewrite (login_of_submitted _ _ _ _ _ Hs) in H.
    destruct (holds_any success_indicators (text response) || _);
      inversion H; subst.
    + left. split; [reflexivity|]. now exists response, c1.
    + right. auto.
  - rewrite (login_without_form _ _ _ _ Hs) in H.
    inversion H; subst. right. auto.
Qed.

(** A login that the portal refuses: false, and the results location
    stays unset. *)
Lemma results_url_written_by_login_only_witness :
  login (env := Samples.login_portal) "maria" "segredo"
    (Samples.fresh [Scripted.ok Samples.login_text; Scripted.ok Samples.refused_text])
  = (inr false, Samples.fresh []) /\
  ((@inr exception bool false = inr true /\
    exists response c1,
      login_submit (env := Samples.login_portal) "maria" "segredo"
        (Samples.fresh [Scripted.ok Samples.login_text; Scripted.ok Samples.refused_text])
      = (inr (Some response), c1) /\
      results_url (Samples.fresh []) = Some (url response)) \/
   (@inr exception bool false = inr false /\
    results_url (Samples.fresh []) =
    results_url
      (Samples.fresh [Scripted.ok Samples.login_text; Scripted.ok Samples.refused_text]))).
Proof.
  split; [reflexivity|].
  apply (proj1 (results_url_written_by_login_only (env := Samples.login_portal)
                  (Samples.fresh [Scripted.ok Samples.login_text;
                                  Scripted.ok Samples.refused_text])
                  "maria" "segredo" "")).
  reflexivity.
Defined.

(** ** Calls on a crawler that never logged in *)

(** C9. It is not so that the calls on a crawler that never logged in
    fail explicitly: served the login page, [check_results] returns false
    and [get_pdf_link] and [download_pdf] return null. *)
Lemma unauthenticated_calls_do_not_fail :
  results_url (Samples.fresh [Scripted.ok Samples.login_text]) = None /\
  check_results (Samples.fresh [Scripted.ok Samples.login_text]) =
    (inr false, Samples.fresh []) /\
  ~ fails_explicitly check_results (Samples.fresh [Scripted.ok Samples.login_text]) /\
  ~ fails_explicitly get_pdf_link (Samples.fresh [Scripted.ok Samples.login_text]) /\
  ~ fails_explicitly (download_pdf "https://lablaudo.com.br/get_laudo?id=123")
      (Samples.fresh [Scripted.ok Samples.login_text]).
Proof.
  split; [reflexivity|]. split; [reflexivity|].
  repeat split; intros [e [c' H]]; vm_compute in H; discriminate.
Qed.

(** C9, amended. On a crawler whose results location is unset, as it is
    until a login succeeds, no call fails explicitly: [check_results] and
    [get_pdf_link] request the login url in place of the results location
    and return a boolean and a url or null, false and null when that
    request fails; [download_pdf] returns a value or null, the same as on
    a crawler that remembers a results location. *)
Theorem unauthenticated_calls_return {env : Environment} (c : LabCrawler)
    (pdf_url : string) :
  results_url c = None ->
  (exists (b : bool) c', check_results c = (inr b, c')) /\
  (exists (r : option string) c', get_pdf_link c = (inr r, c')) /\
  (exists (r : option (string * string)) c', download_pdf pdf_url c = (inr r, c')) /\
  fetch_link_page c =
    (response <- session_get login_url ;;
     raise_for_status response ;;;
     ret (html_parser (text response))) c /\
  (forall w, http_get login_url (session c) = (None, w) ->
     check_results c = (inr false, {| session := w; results_url := None |}) /\
     get_pdf_link c = (inr None, {| session := w; results_url := None |})) /\
  (forall remembered,
     fst (download_pdf pdf_url {| session := session c; results_url := remembered |}) =
     fst (download_pdf pdf_url c)).
Proof.
  intros Hunset.
  split; [apply check_results_returns|]. split; [apply get_pdf_link_returns|].
  split; [apply download_pdf_returns|].
  split; [|split].
  - unfold fetch_link_page, read_results_url, bind. rewrite Hunset. reflexivity.
  - intros w Hw. split.
    + apply check_results_caught with (e := RequestException).
      unfold fetch_results_page, read_results_url, bind, session_get.
      rewrite Hunset. cbn [page_url]. rewrite Hw. reflexivity.
    + apply get_pdf_link_caught with (e := RequestException).
      unfold fetch_link_page, read_results_url, bind, session_get.
      rewrite Hunset. cbn [page_url]. rewrite Hw. reflexivity.
  - intros remembered. apply download_pdf_blind.
Qed.

Lemma unauthenticated_calls_return_witness :
  (exists (b : bool) c',
     check_results (Samples.fresh [Scripted.ok Samples.login_text]) = (inr b, c')) /\
  (exists (r : option string) c',
     get_pdf_link (Samples.fresh [Scripted.ok Samples.login_text]) = (inr r, c')).
Proof.
  pose proof (unauthenticated_calls_return (env := Samples.login_portal)
                (Samples.fresh [Scripted.ok Samples.login_text]) "" eq_refl)
    as [Hcheck [Hlink _]].
  exact (conj Hcheck Hlink).
Defined.

(** ** download_pdf *)

Section Download.

Context {env : Environment}.

Lemma session_get_served u c r c' :
  session_get u c = (inr r, c') -> served_payload (content r).
Proof.
  unfold session_get. intros H.
  destruct (http_get u (session c)) as [[r0|] w] eqn:Hget; simpl in H; [|discriminate].
  inversion H; subst. left. now exists u, (session c), r, w.
Qed.

Lemma ret_none_yields : yields_pdf_only (ret None).
Proof. intros c b f c' H. discriminate. Qed.

Lemma ret_some_yields bytes filename :
  startswith pdf_magic bytes = true -> served_payload bytes ->
  yields_pdf_only (ret (Some (bytes, filename))).
Proof. intros Hm Hs c b f c' H. inversion H; subst. auto. Qed.

Lemma bind_get_yields u (k : Response -> M (option (string * string))) :
  (forall r, served_payload (content r) -> yields_pdf_only (k r)) ->
  yields_pdf_only (bind (session_get u) k).
Proof.
  intros Hk c b f c' H. unfold bind in H.
  destruct (session_get u c) as [[e|r] c0] eqn:Hget; [discriminate|].
  exact (Hk r (session_get_served _ _ _ _ Hget) _ _ _ _ H).
Qed.

Lemma bind_status_yields r (m : M (option (string * string))) :
  yields_pdf_only m -> yields_pdf_only (bind (raise_for_status r) (fun _ => m)).
Proof.
  intros Hm c b f c' H. unfold bind, raise_for_status in H.
  destruct (_ && _); [discriminate|]. exact (Hm _ _ _ _ H).
Qed.

Lemma try_except_yields (body : M (option (string * string))) :
  yields_pdf_only body -> yields_pdf_only (try_except body (ret None)).
Proof.
  intros Hb c b f c' H. unfold try_except in H.
  destruct (body c) as [[[]|x] c0] eqn:Hbody; try discriminate.
  inversion H; subst. exact (Hb _ _ _ _ Hbody).
Qed.

Lemma finish_download_yields r pdf_url :
  served_payload (content r) -> yields_pdf_only (ret (finish_download r pdf_url)).
Proof.
  intros Hs. unfold finish_download.
  destruct (startswith pdf_magic (content r)) eqn:Hm; simpl.
  - now apply ret_some_yields.
  - apply ret_none_yields.
Qed.

Lemma embedded_pdf_yields soup bytes filename :
  embedded_pdf soup = Some (bytes, filename) ->
  startswith pdf_magic bytes = true /\ served_payload bytes.
Proof.
  unfold embedded_pdf. intros H.
  destruct (find_where "object" _ soup) as [pdf_object|]; [|discriminate].
  destruct (find_where "param" _ pdf_object) as [base64_param|]; [|discriminate].
  destruct (truthy _); [|discriminate].
  destruct (b64decode _) as [e|pdf_content] eqn:Hd; [discriminate|].
  destruct (startswith pdf_magic pdf_content) eqn:Hm; [|discriminate].
  inversion H; subst. split; [exact Hm|]. right. eauto.
Qed.

Lemma iframe_pdf_yields soup : yields_pdf_only (iframe_pdf soup).
Proof.
  unfold iframe_pdf.
  destruct (find_where "iframe" _ soup) as [pdf_iframe|]; [|apply ret_none_yields].
  destruct (get "src" pdf_iframe) as [iframe_src|]; [|apply ret_none_yields].
  destruct (truthy iframe_src); [|apply ret_none_yields].
  apply bind_get_yields. intros r Hs. apply bind_status_yields.
  destruct (startswith pdf_magic (content r)) eqn:Hm.
  - now apply ret_some_yields.
  - apply ret_none_yields.
Qed.

Lemma pdf_links_loop_yields links : yields_pdf_only (pdf_links_loop links).
Proof.
  induction links as [|link rest IH]; cbn [pdf_links_loop]; [apply ret_none_yields|].
  destruct (_ || _); [|exact IH].
  apply bind_get_yields. intros r Hs. apply bind_status_yields.
  destruct (startswith pdf_magic (content r)) eqn:Hm.
  - now apply ret_some_yields.
  - exact IH.
Qed.

Lemma handle_download_yields r pdf_url :
  served_payload (content r) -> yields_pdf_only (handle_download r pdf_url).
Proof.
  intros Hs. unfold handle_download.
  destruct (contains "pdf" _); [now apply finish_download_yields|].
  destruct (contains "html" _).
  - destruct (embedded_pdf (html_parser (text r))) as [[bytes filename]|] eqn:He.
    + destruct (embedded_pdf_yields _ _ _ He). now apply ret_some_yields.
    + intros c b f c' H. unfold bind in H.
      destruct (iframe_pdf _ c) as [[e|[[bytes filename]|]] c0] eqn:Hi;
        [discriminate| |].
      * inversion H; subst. exact (iframe_pdf_yields _ _ _ _ _ Hi).
      * exact (pdf_links_loop_yields _ _ _ _ _ H).
  - destruct (negb _); [apply ret_none_yields|now apply finish_download_yields].
Qed.

Lemma download_pdf_yields pdf_url : yields_pdf_only (download_pdf pdf_url).
Proof.
  unfold download_pdf, download_attempt. apply try_except_yields.
  apply bind_get_yields. intros r Hs. apply bind_status_yields.
  now apply handle_download_yields.
Qed.

(** The raw body is the candidate unless the response is declared as
    HTML and not as PDF. *)
Lemma handle_download_direct r pdf_url :
  contains "pdf" (lower (headers_get "content-type" "" (headers r))) = true \/
  contains "html" (lower (headers_get "content-type" "" (headers r))) = false ->
  startswith pdf_magic (content r) = false ->
  handle_download r pdf_url = ret None.
Proof.
  intros Htype Hm. unfold handle_download, finish_download. rewrite Hm. simpl.
  destruct (contains "pdf" _); [reflexivity|].
  destruct Htype as [Hp|Hh]; [discriminate|]. now rewrite Hh.
Qed.

End Download.

(** *** The recovery, candidate by candidate *)

Section RecoverySteps.

Context {env : Environment}.

Lemma embedded_pdf_data soup :
  match embedded_pdf soup with
  | Some (bytes, filename) =>
      exists data, embedded_data soup = Some data /\ b64decode data = inr bytes /\
                   startswith "%PDF" bytes = true /\ filename = "lab_results.pdf"
  | None => embedded_fails soup
  end.
Proof.
  unfold embedded_pdf, embedded_fails, embedded_data.
  destruct (find_where "object" _ soup) as [pdf_object|]; [|exact I].
  destruct (find_where "param" _ pdf_object) as [base64_param|]; [|exact I].
  destruct (truthy (get_or "value" "" base64_param)); [|exact I].
  destruct (b64decode (get_or "value" "" base64_param)) as [e|bytes] eqn:Hd;
    [exact I|].
  fold pdf_magic. destruct (startswith pdf_magic bytes) eqn:Hm; [|reflexivity].
  exists (get_or "value" "" base64_param). auto.
Qed.

(** The request for a candidate and the check of its status. *)
Lemma candidate_request {A} u (k : Response -> M A) w remembered :
  (exists w', broken u w w' /\
     (response <- session_get u ;; raise_for_status response ;;; k response)
       (mkLabCrawler w remembered)
     = (inl RequestException, mkLabCrawler w' remembered)) \/
  (exists r w', answered_with u w r w' /\
     (response <- session_get u ;; raise_for_status response ;;; k response)
       (mkLabCrawler w remembered)
     = k r (mkLabCrawler w' remembered)).
Proof.
  unfold bind, session_get, raise_for_status, answered_with, broken, status_ok.
  cbn [session results_url].
  destruct (http_get u w) as [[r|] w'] eqn:Hget; cbn [answered].
  - destruct ((400 <=? status_code r) && (status_code r <? 600)) eqn:Hs.
    + left. exists w'. split; [|reflexivity]. exists (Some r).
      rewrite Hs. auto.
    + right. exists r, w'. rewrite Hs. auto.
  - left. exists w'. split; [|reflexivity]. exists None. auto.
Qed.

Lemma iframe_pdf_outcome soup w remembered :
  (exists w1, iframe_fails soup w w1 /\
     iframe_pdf soup (mkLabCrawler w remembered)
     = (inr None, mkLabCrawler w1 remembered)) \/
  (exists src u bytes w1,
     iframe_source soup = Some src /\ joined_to_origin src u /\
     delivered u w bytes w1 /\
     iframe_pdf soup (mkLabCrawler w remembered)
     = (inr (Some (bytes, "lab_results.pdf")), mkLabCrawler w1 remembered)) \/
  (exists src u w1,
     iframe_source soup = Some src /\ joined_to_origin src u /\ broken u w w1 /\
     iframe_pdf soup (mkLabCrawler w remembered)
     = (inl RequestException, mkLabCrawler w1 remembered)).
Proof.
  unfold iframe_pdf, iframe_fails, iframe_source.
  destruct (find_where "iframe" _ soup) as [pdf_iframe|];
    [|left; exists w; split; [left; auto|reflexivity]].
  destruct (get "src" pdf_iframe) as [src|];
    [|left; exists w; split; [left; auto|reflexivity]].
  destruct (truthy src); [|left; exists w; split; [left; auto|reflexivity]].
  destruct (candidate_request (absolutize src)
              (fun r => if startswith pdf_magic (content r)
                        then ret (Some (content r, default_filename))
                        else ret None) w remembered)
    as [(w1 & Hb & Hrun)|(r & w1 & Ha & Hrun)]; rewrite Hrun.
  - right; right. exists src, (absolutize src), w1.
    repeat split; auto using absolutize_joined.
  - destruct (startswith pdf_magic (content r)) eqn:Hm.
    + right; left. exists src, (absolutize src), (content r), w1.
      repeat split; auto using absolutize_joined. exists r. auto.
    + left. exists w1. split; [|reflexivity]. right.
      exists src, (absolutize src). repeat split; auto using absolutize_joined.
      exists r. auto.
Qed.

Lemma pdf_links_loop_outcome links remembered : forall w,
  (exists w2, passed_over links w w2 /\
     pdf_links_loop links (mkLabCrawler w remembered)
     = (inr None, mkLabCrawler w2 remembered)) \/
  (exists passed hit rest u bytes w2 w3,
     links = passed ++ hit :: rest /\ passed_over passed w w2 /\
     pdf_like hit = true /\ joined_to_origin (href_of hit) u /\
     delivered u w2 bytes w3 /\
     pdf_links_loop links (mkLabCrawler w remembered)
     = (inr (Some (bytes, "lab_results.pdf")), mkLabCrawler w3 remembered)) \/
  (exists passed bad rest u w2 w3,
     links = passed ++ bad :: rest /\ passed_over passed w w2 /\
     pdf_like bad = true /\ joined_to_origin (href_of bad) u /\
     broken u w2 w3 /\
     pdf_links_loop links (mkLabCrawler w remembered)
     = (inl RequestException, mkLabCrawler w3 remembered)).
Proof.
  induction links as [|link links IH]; intros w.
  - left. exists w. split; [constructor|reflexivity].
  - cbn [pdf_links_loop]. fold (href_of link).
    change (endswith ".pdf" (href_of link) || contains "pdf" (lower (href_of link)))
      with (pdf_like link).
    destruct (pdf_like link) eqn:Hlike.
    + destruct (candidate_request (absolutize (href_of link))
                  (fun r => if startswith pdf_magic (content r)
                            then ret (Some (content r, default_filename))
                            else pdf_links_loop links) w remembered)
        as [(w1 & Hb & Hrun)|(r & w1 & Ha & Hrun)]; rewrite Hrun.
      * right; right. exists [], link, links, (absolutize (href_of link)), w, w1.
        repeat split; auto using absolutize_joined. constructor.
      * destruct (startswith pdf_magic (content r)) eqn:Hm.
        -- right; left.
           exists [], link, links, (absolutize (href_of link)), (content r), w, w1.
           repeat split; auto using absolutize_joined; [constructor|].
           exists r. auto.
        -- assert (Href : refused (absolutize (href_of link)) w w1)
             by (exists r; auto).
           destruct (IH w1)
             as [(w2 & Hp & Hl)
                |[(passed & hit & rest & u & bytes & w2 & w3 & -> & Hp & Hh & Hj & Hd & Hl)
                 |(passed & bad & rest & u & w2 & w3 & -> & Hp & Hh & Hj & Hd & Hl)]].
           ++ left. exists w2. split; [|exact Hl].
              eapply passed_refused; eauto using absolutize_joined.
           ++ right; left. exists (link :: passed), hit, rest, u, bytes, w2, w3.
              repeat split; auto.
              eapply passed_refused; eauto using absolutize_joined.
           ++ right; right. exists (link :: passed), bad, rest, u, w2, w3.
              repeat split; auto.
              eapply passed_refused; eauto using absolutize_joined.
    + destruct (IH w)
        as [(w2 & Hp & Hl)
           |[(passed & hit & rest & u & bytes & w2 & w3 & -> & Hp & Hh & Hj & Hd & Hl)
            |(passed & bad & rest & u & w2 & w3 & -> & Hp & Hh & Hj & Hd & Hl)]].
      * left. exists w2. split; [|exact Hl]. now apply passed_skip.
      * right; left. exists (link :: passed), hit, rest, u, bytes, w2, w3.
        repeat split; auto. now apply passed_skip.
      * right; right. exists (link :: passed), bad, rest, u, w2, w3.
        repeat split; auto. now apply passed_skip.
Qed.

(** The page of a response declared as HTML and not as PDF: the outcome
    of the call is the one the recovery comes to. *)
Lemma handle_download_recovers r pdf_url w remembered :
  contains "pdf" (lower (headers_get "content-type" "" (headers r))) = false ->
  contains "html" (lower (headers_get "content-type" "" (headers r))) = true ->
  exists result w',
    recovered (html_parser (text r)) w result w' /\
    try_except (handle_download r pdf_url) (ret None) (mkLabCrawler w remembered)
    = (inr result, mkLabCrawler w' remembered).
Proof.
  intros Hpdf Hhtml. unfold handle_download, try_except. rewrite Hpdf, Hhtml.
  pose proof (embedded_pdf_data (html_parser (text r))) as He.
  destruct (embedded_pdf (html_parser (text r))) as [[bytes filename]|].
  - destruct He as (data & Hdata & Hdec & Hm & ->).
    exists (Some (bytes, "lab_results.pdf")), w. split; [|reflexivity].
    now apply (from_object _ _ data).
  - unfold bind.
    destruct (iframe_pdf_outcome (html_parser (text r)) w remembered)
      as [(w1 & Hif & Hrun)
         |[(src & u & bytes & w1 & Hsrc & Hj & Hd & Hrun)
          |(src & u & w1 & Hsrc & Hj & Hb & Hrun)]]; rewrite Hrun.
    + fold (anchors (html_parser (text r))).
      destruct (pdf_links_loop_outcome (anchors (html_parser (text r))) remembered w1)
        as [(w2 & Hp & Hl)
           |[(passed & hit & rest & u & bytes & w2 & w3 & Hsplit & Hp & Hh & Hj & Hd & Hl)
            |(passed & bad & rest & u & w2 & w3 & Hsplit & Hp & Hh & Hj & Hd & Hl)]];
        rewrite Hl.
      * exists None, w2. split; [|reflexivity]. now apply (none_left _ _ w1).
      * exists (Some (bytes, "lab_results.pdf")), w3. split; [|reflexivity].
        now apply (from_link _ _ passed hit rest u bytes w1 w2).
      * exists None, w3. split; [|reflexivity].
        now apply (link_broken _ _ passed bad rest u w1 w2).
    + exists (Some (bytes, "lab_results.pdf")), w1. split; [|reflexivity].
      now apply (from_iframe _ _ src u).
    + exists None, w1. split; [|reflexivity].
      now apply (iframe_broken _ _ src u).
Qed.

(** The other way round: what the recovery comes to is what the call
    returns. *)
Lemma joined_is_absolutize href u : joined_to_origin href u -> u = absolutize href.
Proof.
  unfold joined_to_origin, absolutize, base_url.
  intros [[Hs ->]|[(Hs & Hh & ->)|(Hs & Hh & ->)]]; rewrite Hs, ?Hh; reflexivity.
Qed.

Lemma request_answered {A} u (k : Response -> M A) w remembered r w' :
  answered_with u w r w' ->
  (response <- session_get u ;; raise_for_status response ;;; k response)
    (mkLabCrawler w remembered)
  = k r (mkLabCrawler w' remembered).
Proof.
  intros [Hget Hok]. unfold bind, session_get, raise_for_status, status_ok in *.
  cbn [session results_url]. rewrite Hget. cbn [answered].
  destruct (_ && _); [discriminate|]. reflexivity.
Qed.

Lemma request_broken {A} u (k : Response -> M A) w remembered w' :
  broken u w w' ->
  (response <- session_get u ;; raise_for_status response ;;; k response)
    (mkLabCrawler w remembered)
  = (inl RequestException, mkLabCrawler w' remembered).
Proof.
  intros (r & Hget & Hr). unfold bind, session_get, raise_for_status, status_ok in *.
  cbn [session results_url]. rewrite Hget. destruct r as [r|]; cbn [answered].
  - destruct (_ && _); [reflexivity|discriminate].
  - reflexivity.
Qed.

Lemma passed_over_loop passed rest remembered w w2 :
  passed_over passed w w2 ->
  pdf_links_loop (passed ++ rest) (mkLabCrawler w remembered)
  = pdf_links_loop rest (mkLabCrawler w2 remembered).
Proof.
  induction 1 as [w|link links w w' Hlike _ IH|link links u w w1 w' Hlike Hj Href _ IH];
    [reflexivity| |]; cbn [app pdf_links_loop]; fold (href_of link);
    change (endswith ".pdf" (href_of link) || contains "pdf" (lower (href_of link)))
      with (pdf_like link); rewrite Hlike; [exact IH|].
  destruct Href as (r & Ha & Hm). rewrite (joined_is_absolutize _ _ Hj) in Ha.
  rewrite (request_answered _ _ _ _ _ _ Ha). fold pdf_magic in Hm.
  rewrite Hm. exact IH.
Qed.

Lemma link_delivered link rest remembered u w bytes w' :
  pdf_like link = true -> joined_to_origin (href_of link) u ->
  delivered u w bytes w' ->
  pdf_links_loop (link :: rest) (mkLabCrawler w remembered)
  = (inr (Some (bytes, "lab_results.pdf")), mkLabCrawler w' remembered).
Proof.
  intros Hlike Hj (r & Ha & Hm & <-). cbn [pdf_links_loop]. fold (href_of link).
  change (endswith ".pdf" (href_of link) || contains "pdf" (lower (href_of link)))
    with (pdf_like link). rewrite Hlike.
  rewrite (joined_is_absolutize _ _ Hj) in Ha.
  rewrite (request_answered _ _ _ _ _ _ Ha). fold pdf_magic in Hm.
  rewrite Hm. reflexivity.
Qed.

Lemma link_is_broken link rest remembered u w w' :
  pdf_like link = true -> joined_to_origin (href_of link) u -> broken u w w' ->
  pdf_links_loop (link :: rest) (mkLabCrawler w remembered)
  = (inl RequestException, mkLabCrawler w' remembered).
Proof.
  intros Hlike Hj Hb. cbn [pdf_links_loop]. fold (href_of link).
  change (endswith ".pdf" (href_of link) || contains "pdf" (lower (href_of link)))
    with (pdf_like link). rewrite Hlike.
  rewrite (joined_is_absolutize _ _ Hj) in Hb.
  now rewrite (request_broken _ _ _ _ _ Hb).
Qed.

Lemma embedded_fails_none soup : embedded_fails soup -> embedded_pdf soup = None.
Proof.
  unfold embedded_fails, embedded_data, embedded_pdf.
  destruct (find_where "object" _ soup) as [pdf_object|]; [|reflexivity].
  destruct (find_where "param" _ pdf_object) as [base64_param|]; [|reflexivity].
  destruct (truthy (get_or "value" "" base64_param)); [|reflexivity].
  destruct (b64decode (get_or "value" "" base64_param)) as [e|bytes];
    [reflexivity|].
  fold pdf_magic. now intros ->.
Qed.

Lemma embedded_data_pdf soup data bytes :
  embedded_data soup = Some data -> b64decode data = inr bytes ->
  startswith "%PDF" bytes = true ->
  embedded_pdf soup = Some (bytes, "lab_results.pdf").
Proof.
  unfold embedded_data, embedded_pdf.
  destruct (find_where "object" _ soup) as [pdf_object|]; [|discriminate].
  destruct (find_where "param" _ pdf_object) as [base64_param|]; [|discriminate].
  destruct (truthy (get_or "value" "" base64_param)); [|discriminate].
  intros H Hd Hm. inversion H; subst. rewrite Hd. fold pdf_magic in Hm.
  now rewrite Hm.
Qed.

Lemma iframe_pdf_of_source soup :
  iframe_pdf soup =
  match iframe_source soup with
  | Some src =>
      iframe_response <- session_get (absolutize src) ;;
      raise_for_status iframe_response ;;;
      if startswith pdf_magic (content iframe_response)
      then ret (Some (content iframe_response, default_filename))
      else ret None
  | None => ret None
  end.
Proof.
  unfold iframe_pdf, iframe_source.
  destruct (find_where "iframe" _ soup) as [pdf_iframe|]; [|reflexivity].
  destruct (get "src" pdf_iframe) as [src|]; [|reflexivity].
  destruct (truthy src); reflexivity.
Qed.

Lemma iframe_fails_none soup w w1 remembered :
  iframe_fails soup w w1 ->
  iframe_pdf soup (mkLabCrawler w remembered) = (inr None, mkLabCrawler w1 remembered).
Proof.
  rewrite iframe_pdf_of_source.
  intros [[Hsrc ->]|(src & u & Hsrc & Hj & r & Ha & Hm)]; rewrite Hsrc;
    [reflexivity|].
  rewrite (joined_is_absolutize _ _ Hj) in Ha.
  rewrite (request_answered _ _ _ _ _ _ Ha). fold pdf_magic in Hm.
  now rewrite Hm.
Qed.

Lemma recovered_is_returned r pdf_url w remembered result w' :
  contains "pdf" (lower (headers_get "content-type" "" (headers r))) = false ->
  contains "html" (lower (headers_get "content-type" "" (headers r))) = true ->
  recovered (html_parser (text r)) w result w' ->
  try_except (handle_download r pdf_url) (ret None) (mkLabCrawler w remembered)
  = (inr result, mkLabCrawler w' remembered).
Proof.
  intros Hpdf Hhtml Hrec. unfold handle_download, try_except. rewrite Hpdf, Hhtml.
  fold (anchors (html_parser (text r))).
  destruct Hrec
    as [data bytes Hdata Hdec Hm
       |src u bytes w1 Hfails Hsrc Hj (r1 & Ha & Hm & <-)
       |src u w1 Hfails Hsrc Hj Hb
       |passed hit rest u bytes w1 w2 w3 Hfails Hif Hsplit Hp Hlike Hj Hd
       |passed bad rest u w1 w2 w3 Hfails Hif Hsplit Hp Hlike Hj Hb
       |w1 w2 Hfails Hif Hp].
  - now rewrite (embedded_data_pdf _ _ _ Hdata Hdec Hm).
  - rewrite (embedded_fails_none _ Hfails). unfold bind at 1.
    rewrite iframe_pdf_of_source, Hsrc.
    rewrite (joined_is_absolutize _ _ Hj) in Ha.
    rewrite (request_answered _ _ _ _ _ _ Ha). fold pdf_magic in Hm.
    now rewrite Hm.
  - rewrite (embedded_fails_none _ Hfails). unfold bind at 1.
    rewrite iframe_pdf_of_source, Hsrc.
    rewrite (joined_is_absolutize _ _ Hj) in Hb.
    now rewrite (request_broken _ _ _ _ _ Hb).
  - rewrite (embedded_fails_none _ Hfails). unfold bind at 1.
    rewrite (iframe_fails_none _ _ _ _ Hif), Hsplit.
    rewrite (passed_over_loop _ _ _ _ _ Hp).
    now rewrite (link_delivered _ _ _ _ _ _ _ Hlike Hj Hd).
  - rewrite (embedded_fails_none _ Hfails). unfold bind at 1.
    rewrite (iframe_fails_none _ _ _ _ Hif), Hsplit.
    rewrite (passed_over_loop _ _ _ _ _ Hp).
    now rewrite (link_is_broken _ _ _ _ _ _ Hlike Hj Hb).
  - rewrite (embedded_fails_none _ Hfails). unfold bind at 1.
    rewrite (iframe_fails_none _ _ _ _ Hif).
    rewrite <- (app_nil_r (anchors (html_parser (text r)))).
    now rewrite (passed_over_loop _ _ _ _ _ Hp).
Qed.

End RecoverySteps.

(** C2. It is not so that any candidate payload without the signature
    makes [download_pdf] return null: on a page that links two documents,
    the answer to the first link is a candidate of the links path that
    does not begin with %PDF (alone, it makes that path end in null), and
    the call goes on to the second link and returns its document. *)
Lemma failed_candidate_is_passed_over :
  startswith pdf_magic Samples.expired_text = false /\
  pdf_links_loop (env := Samples.login_portal)
    [Tag "a" [("href", "/laudos/antigo.pdf")] [] [NavigableString "Anterior"]]
    (Samples.fresh [Scripted.ok Samples.expired_text])
  = (inr None, Samples.fresh []) /\
  download_pdf (env := Samples.login_portal) "https://lablaudo.com.br/get_laudo?id=123"
    (Samples.fresh [Scripted.ok Samples.documents_text;
                    Scripted.ok Samples.expired_text;
                    Samples.pdf_response "application/pdf" [] Samples.pdf_bytes])
  = (inr (Some (Samples.pdf_bytes, "lab_results.pdf")), Samples.fresh []).
Proof. repeat split; reflexivity. Qed.

(** C2, amended. Whatever [download_pdf] returns beside null carries
    bytes that begin with the signature %PDF: a payload that does not is
    never returned. When the body of the response is the candidate (a
    response declared as PDF, or not declared as HTML) and fails the
    signature, the call returns null, whatever the declared type. On the
    page of a response declared as HTML the candidates are tried in
    order: the base64 data of the PDF object, the source of the PDF
    iframe, then each link whose href ends in [.pdf] or holds [pdf]. A
    candidate that fails the signature is passed over and the next one is
    tried; the first candidate that begins with %PDF is returned, named
    [lab_results.pdf]; the call returns null when no candidate is left,
    and when the request for the iframe or for a link fails or is
    answered with an error status, the candidates after it left
    untried. *)
Theorem download_pdf_only_pdf {env : Environment} (pdf_url : string) (c : LabCrawler) :
  (forall bytes filename c',
     download_pdf pdf_url c = (inr (Some (bytes, filename)), c') ->
     startswith pdf_magic bytes = true) /\
  (forall r w,
     http_get pdf_url (session c) = (Some r, w) ->
     contains "pdf" (lower (headers_get "content-type" "" (headers r))) = true \/
     contains "html" (lower (headers_get "content-type" "" (headers r))) = false ->
     startswith pdf_magic (content r) = false ->
     download_pdf pdf_url c = (inr None, mkLabCrawler w (results_url c))) /\
  (forall r w,
     http_get pdf_url (session c) = (Some r, w) ->
     status_ok r = true ->
     contains "pdf" (lower (headers_get "content-type" "" (headers r))) = false ->
     contains "html" (lower (headers_get "content-type" "" (headers r))) = true ->
     (exists result w', recovered (html_parser (text r)) w result w') /\
     (forall result w',
        recovered (html_parser (text r)) w result w' ->
        download_pdf pdf_url c = (inr result, mkLabCrawler w' (results_url c)))).
Proof.
  split; [|split].
  - intros bytes filename c' H. exact (proj1 (download_pdf_yields _ _ _ _ _ H)).
  - intros r w Hget Htype Hm.
    unfold download_pdf, download_attempt, try_except, bind, session_get.
    rewrite Hget. cbn [answered]. unfold raise_for_status.
    destruct (_ && _); [reflexivity|]. cbn [ret].
    now rewrite (handle_download_direct r pdf_url Htype Hm).
  - intros r w Hget Hok Hpdf Hhtml. split.
    + destruct (handle_download_recovers r pdf_url w (results_url c) Hpdf Hhtml)
        as (result & w' & Hrec & _).
      now exists result, w'.
    + intros result w' Hrec.
      rewrite <- (recovered_is_returned r pdf_url w (results_url c) result w'
                    Hpdf Hhtml Hrec).
      unfold download_pdf, download_attempt, try_except, bind, session_get.
      rewrite Hget. cbn [answered]. unfold raise_for_status, status_ok in *.
      destruct (_ && _); [discriminate|]. reflexivity.
Qed.

(** A response declared as PDF whose body is a PDF is returned, and its
    bytes begin with the signature; declared as PDF with the body of a
    page, it is turned down; and on the page that links two documents,
    the first of them expired, the recovery comes to the second. *)
Lemma download_pdf_only_pdf_witness :
  startswith pdf_magic Samples.pdf_bytes = true /\
  download_pdf (env := Samples.login_portal) "https://lablaudo.com.br/laudos/atual.pdf"
    (Samples.fresh [Samples.pdf_response "application/pdf" [] Samples.expired_text])
  = (inr None, Samples.fresh []) /\
  recovered (env := Samples.login_portal) Samples.documents_soup
    [Scripted.ok Samples.expired_text;
     Samples.pdf_response "application/pdf" [] Samples.pdf_bytes]
    (Some (Samples.pdf_bytes, "lab_results.pdf")) [].
Proof.
  pose proof (download_pdf_only_pdf (env := Samples.login_portal)
                "https://lablaudo.com.br/laudos/atual.pdf"
                (Samples.fresh [Samples.pdf_response "application/pdf" [] Samples.pdf_bytes]))
    as [Hgate _].
  pose proof (download_pdf_only_pdf (env := Samples.login_portal)
                "https://lablaudo.com.br/laudos/atual.pdf"
                (Samples.fresh [Samples.pdf_response "application/pdf" []
                                  Samples.expired_text]))
    as [_ [Hdirect _]].
  pose proof (download_pdf_only_pdf (env := Samples.login_portal)
                "https://lablaudo.com.br/get_laudo?id=123"
                (Samples.fresh [Scripted.ok Samples.documents_text;
                                Scripted.ok Samples.expired_text;
                                Samples.pdf_response "application/pdf" []
                                  Samples.pdf_bytes]))
    as [_ [_ Hrecovery]].
  split; [|split].
  - apply (Hgate Samples.pdf_bytes "atual.pdf" (Samples.fresh [])). reflexivity.
  - apply (Hdirect _ _ eq_refl); [left|]; reflexivity.
  - destruct (Hrecovery _ _ eq_refl eq_refl eq_refl eq_refl)
      as [(result & w' & Hrec) Hrun].
    pose proof (Hrun result w' Hrec) as Hrun'. clear Hrun.
    assert (Hc : download_pdf (env := Samples.login_portal)
                   "https://lablaudo.com.br/get_laudo?id=123"
                   (Samples.fresh [Scripted.ok Samples.documents_text;
                                   Scripted.ok Samples.expired_text;
                                   Samples.pdf_response "application/pdf" []
                                     Samples.pdf_bytes])
                 = (inr (Some (Samples.pdf_bytes, "lab_results.pdf")), Samples.fresh []))
      by reflexivity.
    rewrite Hc in Hrun'. inversion Hrun'; subst. exact Hrec.
Defined.

(** C7. A document served as PDF without a Content-Disposition header,
    from a url whose last segment, [download?x=1], holds no dot: the file
    name is not [lab_results.pdf] but the host of the url with [.pdf]
    appended, the first part with a dot that the walk back over the parts
    of the url meets. A file name [lab_results.pdf] given by the header is
    likewise replaced by a dotted part of the url. *)
Theorem download_pdf_filename_from_host :
  download_pdf (env := Samples.login_portal) "https://lablaudo.com.br/download?x=1"
    (Samples.fresh [Samples.pdf_response "application/pdf" [] Samples.pdf_bytes])
  = (inr (Some (Samples.pdf_bytes, "lablaudo.com.br.pdf")), Samples.fresh []) /\
  download_pdf (env := Samples.login_portal) "https://lablaudo.com.br/laudos/atual.pdf"
    (Samples.fresh [Samples.pdf_response "application/pdf"
                      [("Content-Disposition", "attachment; filename=lab_results.pdf")]
                      Samples.pdf_bytes])
  = (inr (Some (Samples.pdf_bytes, "atual.pdf")), Samples.fresh []).
Proof. split; reflexivity. Qed.

(** The two examples of the file-name rule on [derive_filename] itself:
    the header's name wins, quotes stripped; without header and without
    any dotted part in the url the fixed name is used. *)
Lemma derive_filename_examples :
  derive_filename
    (String.append "attachment; filename="
       (String (ascii_of_nat 34) (String.append "report.pdf" (String (ascii_of_nat 34) ""))))
    "https://lablaudo.com.br/download?x=1" = "report.pdf" /\
  derive_filename "" "/download?x=1" = "lab_results.pdf" /\
  derive_filename "" "https://lablaudo.com.br/laudos/exame.PDF?x=1" = "exame.PDF".
Proof. repeat split; reflexivity. Qed.

(** The scenario of a ready results page: every result row carries the
    class [success], the answer is true. *)
Lemma check_results_ready_page :
  check_results (Samples.logged_in Samples.ready_text) = (inr true, Samples.served).
Proof. reflexivity. Qed.

(** ** The checks of the repository's test scripts *)

(** test_crawler.py: the urls of a new crawler. *)
Lemma test_crawler_initialization :
  base_url = "https://lablaudo.com.br" /\
  login_url = "https://lablaudo.com.br/acesso_paciente".
Proof. split; reflexivity. Qed.

(** test_pdf.py: two of the three links of the test page are candidates,
    and the first of them, matched by its text, is the one picked. *)
Lemma test_pdf_link_detection :
  length (filter (fun a => phrase_matched a || laudo_matched a)
            (anchors Samples.test_soup)) = 2 /\
  pick_pdf_link Samples.test_soup = Some "https://lablaudo.com.br/get_laudo?id=123".
Proof. split; reflexivity. Qed.

(** test_pdf.py: the signature test. *)
Lemma test_pdf_content_validation :
  startswith pdf_magic "%PDF-1.4 %some pdf content here" = true /\
  startswith pdf_magic "<html><body>Not a PDF</body></html>" = false.
Proof. split; reflexivity. Qed.

(** * Further properties of the crawler *)

(** ** Strings, continued *)

Section MoreStringFacts.

Lemma startswith_app p s t : startswith p s = true -> startswith p (String.append s t) = true.
Proof.
  revert s. induction p as [|a p IH]; intros s H; [reflexivity|].
  destruct s as [|b s]; [discriminate|]. simpl in *.
  apply andb_true_iff in H. destruct H as [Hab Hp].
  now rewrite Hab, IH.
Qed.

Lemma startswith_self_app p t : startswith p (String.append p t) = true.
Proof.
  induction p as [|a p IH]; [reflexivity|]. simpl. now rewrite Ascii.eqb_refl.
Qed.

Lemma append_assoc s t u :
  String.append (String.append s t) u = String.append s (String.append t u).
Proof. induction s as [|c s IH]; simpl; [reflexivity|]. now rewrite IH. Qed.

Lemma append_nil_r s : String.append s "" = s.
Proof. induction s as [|c s IH]; simpl; [reflexivity|]. now rewrite IH. Qed.

Lemma rev_acc_app s acc : rev_acc s acc = String.append (rev_acc s "") acc.
Proof.
  revert acc. induction s as [|c s IH]; intros acc; [reflexivity|].
  simpl. rewrite (IH (String c acc)), (IH (String c "")), append_assoc. reflexivity.
Qed.

Lemma rev_app s t : rev (String.append s t) = String.append (rev t) (rev s).
Proof.
  unfold rev. induction s as [|c s IH]; simpl.
  - now rewrite append_nil_r.
  - rewrite (rev_acc_app (String.append s t)), IH, (rev_acc_app s (String c "")).
    now rewrite append_assoc.
Qed.

Lemma endswith_app p s : endswith p (String.append s p) = true.
Proof. unfold endswith. rewrite rev_app. apply startswith_self_app. Qed.

Lemma lower_app s t : lower (String.append s t) = String.append (lower s) (lower t).
Proof. induction s as [|c s IH]; simpl; [reflexivity|]. now rewrite IH. Qed.

End MoreStringFacts.

(** ** The urls the crawler follows *)

Lemma absolutize_has_scheme href : absolute (absolutize href) = true.
Proof.
  unfold absolutize, absolute.
  destruct (startswith "/" href) eqn:Hslash; [reflexivity|].
  destruct (startswith "http" href) eqn:Hhttp; [exact Hhttp|reflexivity].
Qed.



(** X2. The form is posted to a url with a scheme. A form without an
    action, or with an action that starts neither with a slash nor with
    [http] (a relative path such as [entrar.php]), is posted to the login
    url itself; an action with a leading slash is joined to the portal's
    origin. *)
Theorem form_action_url_cases (form : node) :
  absolute (form_action_url form) = true /\
  (get "action" form = None -> form_action_url form = login_url) /\
  (forall action, get "action" form = Some action ->
     startswith "/" action = false -> absolute action = false ->
     form_action_url form = login_url) /\
  (forall action, get "action" form = Some action ->
     startswith "/" action = true ->
     form_action_url form = String.append base_url action).
Proof.
  unfold form_action_url, get_or, absolute. split; [|split; [|split]].
  - destruct (get "action" form) as [action|].
    + destruct (startswith "/" action); [reflexivity|].
      destruct (startswith "http" action) eqn:Hhttp; [exact Hhttp|reflexivity].
    + reflexivity.
  - intros ->. reflexivity.
  - intros action -> Hslash Hhttp. now rewrite Hslash, Hhttp.
  - intros action -> Hslash. now rewrite Hslash.
Qed.

Lemma form_action_url_cases_witness :
  form_action_url (Tag "form" [("action", "entrar.php")] [] []) = login_url /\
  form_action_url (Tag "form" [("action", "/entrar")] [] []) =
    "https://lablaudo.com.br/entrar".
Proof.
  pose proof (form_action_url_cases (Tag "form" [("action", "entrar.php")] [] []))
    as [_ [_ [Hrelative _]]].
  pose proof (form_action_url_cases (Tag "form" [("action", "/entrar")] [] []))
    as [_ [_ [_ Hslash]]].
  split.
  - apply (Hrelative "entrar.php"); reflexivity.
  - apply (Hslash "/entrar"); reflexivity.
Defined.

(** ** The file names of download_pdf *)

Section Filenames.

Lemma derive_filename_pdf_named content_disposition pdf_url :
  pdf_named (derive_filename content_disposition pdf_url) = true.
Proof.
  unfold derive_filename, pdf_named.
  match goal with
  | |- context [if negb (endswith ".pdf" (lower ?f)) then _ else _] =>
      destruct (endswith ".pdf" (lower f)) eqn:Hext; cbn [negb]
  end.
  - exact Hext.
  - rewrite lower_app. apply endswith_app.
Qed.

Context {env : Environment}.

Lemma ret_none_satisfies P : results_satisfy P (ret None).
Proof. intros c b f c' H. discriminate. Qed.

Lemma ret_some_satisfies (P : string -> string -> Prop) bytes filename :
  P bytes filename -> results_satisfy P (ret (Some (bytes, filename))).
Proof. intros HP c b f c' H. inversion H; subst. exact HP. Qed.

Lemma bind_satisfies {A} P (m : M A) (k : A -> M (option (string * string))) :
  (forall a, results_satisfy P (k a)) -> results_satisfy P (bind m k).
Proof.
  intros Hk c b f c' H. unfold bind in H.
  destruct (m c) as [[e|a] c0]; [discriminate|]. exact (Hk a _ _ _ _ H).
Qed.

Lemma try_except_satisfies P (body : M (option (string * string))) :
  results_satisfy P body -> results_satisfy P (try_except body (ret None)).
Proof.
  intros Hb c b f c' H. unfold try_except in H.
  destruct (body c) as [[[]|x] c0] eqn:Hbody; try discriminate.
  inversion H; subst. exact (Hb _ _ _ _ Hbody).
Qed.

Lemma embedded_pdf_named soup bytes filename :
  embedded_pdf soup = Some (bytes, filename) -> filename = default_filename.
Proof.
  unfold embedded_pdf. intros H.
  destruct (find_where "object" _ soup) as [pdf_object|]; [|discriminate].
  destruct (find_where "param" _ pdf_object) as [base64_param|]; [|discriminate].
  destruct (truthy _); [|discriminate].
  destruct (b64decode _) as [e|pdf_content]; [discriminate|].
  destruct (startswith pdf_magic pdf_content); [|discriminate].
  now inversion H.
Qed.

Lemma iframe_pdf_named soup :
  results_satisfy (fun _ filename => filename = default_filename) (iframe_pdf soup).
Proof.
  unfold iframe_pdf.
  destruct (find_where "iframe" _ soup) as [pdf_iframe|]; [|apply ret_none_satisfies].
  destruct (get "src" pdf_iframe) as [iframe_src|]; [|apply ret_none_satisfies].
  destruct (truthy iframe_src); [|apply ret_none_satisfies].
  apply bind_satisfies. intros r. apply bind_satisfies. intros _.
  destruct (startswith pdf_magic (content r));
    [now apply ret_some_satisfies|apply ret_none_satisfies].
Qed.

Lemma pdf_links_loop_named links :
  results_satisfy (fun _ filename => filename = default_filename) (pdf_links_loop links).
Proof.
  induction links as [|link rest IH]; cbn [pdf_links_loop]; [apply ret_none_satisfies|].
  destruct (_ || _); [|exact IH].
  apply bind_satisfies. intros r. apply bind_satisfies. intros _.
  destruct (startswith pdf_magic (content r)); [now apply ret_some_satisfies|exact IH].
Qed.

(** What a response declared as HTML, and not as PDF, leads to. *)
Lemma handle_download_recovered r pdf_url :
  contains "pdf" (lower (headers_get "content-type" "" (headers r))) = false ->
  contains "html" (lower (headers_get "content-type" "" (headers r))) = true ->
  results_satisfy (fun _ filename => filename = default_filename)
    (handle_download r pdf_url).
Proof.
  intros Hpdf Hhtml. unfold handle_download. rewrite Hpdf, Hhtml.
  destruct (embedded_pdf (html_parser (text r))) as [[bytes filename]|] eqn:He.
  - apply ret_some_satisfies. exact (embedded_pdf_named _ _ _ He).
  - intros c b f c' H. unfold bind in H.
    destruct (iframe_pdf _ c) as [[e|[[bytes filename]|]] c0] eqn:Hi; [discriminate| |].
    + inversion H; subst. exact (iframe_pdf_named _ _ _ _ _ Hi).
    + exact (pdf_links_loop_named _ _ _ _ _ H).
Qed.

Lemma handle_download_pdf_named r pdf_url :
  results_satisfy (fun _ filename => pdf_named filename = true)
    (handle_download r pdf_url).
Proof.
  destruct (contains "pdf" (lower (headers_get "content-type" "" (headers r)))) eqn:Hpdf;
    [|destruct (contains "html" (lower (headers_get "content-type" "" (headers r))))
        eqn:Hhtml].
  - unfold handle_download, finish_download. rewrite Hpdf.
    destruct (negb _); [apply ret_none_satisfies|].
    apply ret_some_satisfies. apply derive_filename_pdf_named.
  - intros c b f c' H.
    now rewrite (handle_download_recovered r pdf_url Hpdf Hhtml _ _ _ _ H).
  - unfold handle_download, finish_download. rewrite Hpdf, Hhtml.
    destruct (negb _); [apply ret_none_satisfies|]. cbn [negb].
    apply ret_some_satisfies. apply derive_filename_pdf_named.
Qed.

End Filenames.

(** X3. The file name [download_pdf] returns with a document always
    carries the extension [.pdf], in some case: whatever the header or the
    url gave, the extension is appended when it is missing. *)
Theorem download_pdf_filename_extension {env : Environment} (pdf_url : string)
    (c c' : LabCrawler) (bytes filename : string) :
  download_pdf pdf_url c = (inr (Some (bytes, filename)), c') ->
  pdf_named filename = true.
Proof.
  apply (try_except_satisfies (fun _ f => pdf_named f = true)).
  unfold download_attempt. apply bind_satisfies. intros r.
  apply bind_satisfies. intros _. apply handle_download_pdf_named.
Qed.

Lemma download_pdf_filename_extension_witness :
  pdf_named "laudo.PDF" = true.
Proof.
  apply (download_pdf_filename_extension (env := Samples.login_portal)
           "https://lablaudo.com.br/get_laudo?id=123"
           (Samples.fresh [Samples.pdf_response "application/pdf"
                             [("Content-Disposition", "inline; filename='laudo.PDF'")]
                             Samples.pdf_bytes])
           (Samples.fresh []) Samples.pdf_bytes "laudo.PDF").
  reflexivity.
Defined.

(** X4. A document recovered from a response declared as HTML (from the
    base64 data of an object tag, from an iframe or from a link of the
    page) is always named [lab_results.pdf]: neither a Content-Disposition
    header nor the url is looked at on these paths. *)
Theorem recovered_document_name {env : Environment} (pdf_url : string)
    (c c' : LabCrawler) (r : Response) (w : World) (bytes filename : string) :
  http_get pdf_url (session c) = (Some r, w) ->
  contains "pdf" (lower (headers_get "content-type" "" (headers r))) = false ->
  contains "html" (lower (headers_get "content-type" "" (headers r))) = true ->
  download_pdf pdf_url c = (inr (Some (bytes, filename)), c') ->
  filename = "lab_results.pdf".
Proof.
  intros Hget Hpdf Hhtml H.
  unfold download_pdf, try_except in H.
  destruct (download_attempt pdf_url c) as [[[]|x] c0] eqn:Hbody; try discriminate.
  inversion H; subst. clear H.
  unfold download_attempt, bind, session_get in Hbody. rewrite Hget in Hbody.
  cbn [answered] in Hbody.
  destruct (raise_for_status r _) as [[e|[]] c1]; [discriminate|].
  exact (handle_download_recovered r pdf_url Hpdf Hhtml _ _ _ _ Hbody).
Qed.

Lemma recovered_document_name_witness :
  download_pdf (env := Samples.login_portal) "https://lablaudo.com.br/laudos/atual.pdf"
    (Samples.fresh [Samples.pdf_response "text/html"
                      [("Content-Disposition", "attachment; filename=exame.pdf")]
                      Samples.documents_text;
                    Samples.pdf_response "application/pdf"
                      [("Content-Disposition", "attachment; filename=exame.pdf")]
                      Samples.pdf_bytes])
  = (inr (Some (Samples.pdf_bytes, "lab_results.pdf")), Samples.fresh []) /\
  "lab_results.pdf" = "lab_results.pdf".
Proof.
  split; [reflexivity|].
  apply (recovered_document_name (env := Samples.login_portal)
           "https://lablaudo.com.br/laudos/atual.pdf"
           (Samples.fresh [Samples.pdf_response "text/html"
                             [("Content-Disposition", "attachment; filename=exame.pdf")]
                             Samples.documents_text;
                           Samples.pdf_response "application/pdf"
                             [("Content-Disposition", "attachment; filename=exame.pdf")]
                             Samples.pdf_bytes])
           (Samples.fresh [])
           {| status_code := 200;
              headers := [("Content-Type", "text/html");
                          ("Content-Disposition", "attachment; filename=exame.pdf")];
              text := Samples.documents_text; content := Samples.documents_text;
              url := login_url |}
           [Samples.pdf_response "application/pdf"
              [("Content-Disposition", "attachment; filename=exame.pdf")]
              Samples.pdf_bytes]
           Samples.pdf_bytes "lab_results.pdf"); reflexivity.
Defined.

(** X5. A link [get_pdf_link] returns is never the empty string and
    always a url with a scheme, so that a caller's test of the result for
    truth is a test for null. *)
Theorem get_pdf_link_absolute {env : Environment} (c c' : LabCrawler) (pdf_url : string) :
  get_pdf_link c = (inr (Some pdf_url), c') ->
  absolute pdf_url = true /\ truthy pdf_url = true.
Proof.
  intros H.
  assert (Habs : absolute pdf_url = true).
  { unfold get_pdf_link, try_except, bind in H.
    destruct (fetch_link_page c) as [[[]|soup] c0]; try discriminate.
    inversion H as [[Hpick Hc]]. rewrite pick_pdf_link_find in Hpick.
    destruct (List.find phrase_matched (anchors soup)) as [a|].
    - inversion Hpick. apply absolutize_has_scheme.
    - destruct (List.find laudo_matched (anchors soup)) as [a|]; [|discriminate].
      inversion Hpick. apply absolutize_has_scheme. }
  split; [exact Habs|].
  destruct pdf_url; [discriminate|reflexivity].
Qed.

Lemma get_pdf_link_absolute_witness :
  absolute "https://lablaudo.com.br/download_pdf" = true /\
  truthy "https://lablaudo.com.br/download_pdf" = true.
Proof.
  apply (get_pdf_link_absolute (env := Samples.login_portal)
           (Samples.fresh [Scripted.ok Samples.links_text]) (Samples.fresh [])).
  reflexivity.
Defined.

(** ** The form data of login *)

Section FormData.

Lemma dict_get_set_same key value d : dict_get key (dict_set key value d) = Some value.
Proof.
  unfold dict_get. induction d as [|[k v] d IH]; simpl.
  - now rewrite String.eqb_refl.
  - destruct (String.eqb k key) eqn:Hk; simpl; rewrite Hk; [reflexivity|exact IH].
Qed.

Lemma dict_get_set_other key key' value d :
  key' <> key -> dict_get key' (dict_set key value d) = dict_get key' d.
Proof.
  intros Hne. unfold dict_get. induction d as [|[k v] d IH]; simpl.
  - destruct (String.eqb_spec key key'); [congruence|reflexivity].
  - destruct (String.eqb_spec k key) as [->|Hk]; simpl.
    + destruct (String.eqb_spec key key'); [congruence|reflexivity].
    + destruct (String.eqb k key'); [reflexivity|exact IH].
Qed.

Lemma unfilled_filled name data : filled name data -> unfilled name data = false.
Proof.
  intros [v [Hget Hv]]. unfold unfilled. now rewrite Hget, Hv.
Qed.

(** The fallback writes only under names that are not filled: an entry
    with a value stays as it is. *)
Lemma field_step_keeps username password data input name v :
  dict_get name data = Some v -> truthy v = true ->
  dict_get name (field_step username password data input) = Some v.
Proof.
  intros Hget Hv. unfold field_step.
  destruct (String.eqb_spec (get_or "name" "" input) name) as [->|Hne].
  - rewrite (unfilled_filled name data) by (now exists v). now rewrite !andb_false_r.
  - destruct (_ && _); [now rewrite dict_get_set_other by congruence|].
    destruct (_ && _); [now rewrite dict_get_set_other by congruence|exact Hget].
Qed.

Lemma fields_keep username password inputs data name v :
  dict_get name data = Some v -> truthy v = true ->
  dict_get name (fold_left (field_step username password) inputs data) = Some v.
Proof.
  revert data. induction inputs as [|i rest IH]; intros data Hget Hv; [exact Hget|].
  simpl. apply IH; [|exact Hv]. now apply field_step_keeps.
Qed.

Lemma field_step_fills username password data input :
  truthy username = true -> truthy password = true ->
  credential_type (get_or "type" "" input) = true ->
  filled (get_or "name" "" input) (field_step username password data input).
Proof.
  intros Hu Hp Htype. unfold field_step, credential_type in *.
  destruct (unfilled (get_or "name" "" input) data) eqn:Hun.
  - rewrite !andb_true_r.
    destruct (String.eqb _ "text" || String.eqb _ "email" || String.eqb _ "number").
    + exists username. now rewrite dict_get_set_same.
    + simpl in Htype. rewrite Htype. exists password. now rewrite dict_get_set_same.
  - rewrite !andb_false_r. unfold unfilled in Hun.
    destruct (dict_get (get_or "name" "" input) data) as [v|] eqn:Hget; [|discriminate].
    exists v. split; [exact Hget|]. now destruct (truthy v).
Qed.

Lemma fields_fill username password inputs data input :
  truthy username = true -> truthy password = true ->
  In input inputs -> credential_type (get_or "type" "" input) = true ->
  filled (get_or "name" "" input)
    (fold_left (field_step username password) inputs data).
Proof.
  intros Hu Hp. revert data.
  induction inputs as [|i rest IH]; intros data Hin Htype; [destruct Hin|].
  simpl. destruct Hin as [->|Hin]; [|now apply IH].
  destruct (field_step_fills username password data input Hu Hp Htype) as [v [Hget Hv]].
  exists v. split; [|exact Hv]. now apply fields_keep.
Qed.

(** A hidden input writes under its own name only. *)
Lemma hidden_step_other data h name :
  get "name" h <> Some name -> dict_get name (hidden_step data h) = dict_get name data.
Proof.
  intros Hne. unfold hidden_step.
  destruct (get "name" h) as [n|]; [|reflexivity].
  destruct (truthy n); [|reflexivity].
  apply dict_get_set_other. congruence.
Qed.

Lemma hiddens_other hs data name :
  (forall h, In h hs -> get "name" h <> Some name) ->
  dict_get name (fold_left hidden_step hs data) = dict_get name data.
Proof.
  revert data. induction hs as [|h rest IH]; intros data Hall; [reflexivity|].
  simpl. rewrite IH by (intros h' Hin; apply Hall; now right).
  apply hidden_step_other. apply Hall. now left.
Qed.

End FormData.

(** X6. With a user name and a password that are not empty, no input of
    the form of type text, email, number or password goes out blank: the
    data posted holds, under the name of each such input, a value that is
    not empty. *)
Theorem credential_inputs_filled (username password : string) (form input : node) :
  truthy username = true -> truthy password = true ->
  In input (find_all "input" form) ->
  credential_type (get_or "type" "" input) = true ->
  filled (get_or "name" "" input) (build_login_data username password form).
Proof.
  intros Hu Hp Hin Htype. unfold build_login_data. now apply fields_fill.
Qed.

Lemma credential_inputs_filled_witness :
  filled "cpf"
    (build_login_data "maria" "segredo"
       (Tag "form" [] []
          [Tag "input" [("type", "text"); ("name", "cpf")] [] [];
           Tag "input" [("type", "password"); ("name", "chave")] [] []])).
Proof.
  apply (credential_inputs_filled "maria" "segredo"
           (Tag "form" [] []
              [Tag "input" [("type", "text"); ("name", "cpf")] [] [];
               Tag "input" [("type", "password"); ("name", "chave")] [] []])
           (Tag "input" [("type", "text"); ("name", "cpf")] [] []));
    try reflexivity.
  left. reflexivity.
Defined.

(** X7. A hidden input with a name and a value, such as a CSRF token, is
    posted back as it is: the data holds its value under its name, unless
    a later hidden input of the form bears the same name. The fallback
    for the visible inputs never overwrites it. *)
Theorem hidden_input_forwarded (username password : string) (form h : node)
    (before after : list node) (name value : string) :
  hidden_inputs form = before ++ h :: after ->
  get "name" h = Some name -> truthy name = true ->
  get_or "value" "" h = value -> truthy value = true ->
  (forall h', In h' after -> get "name" h' <> Some name) ->
  dict_get name (build_login_data username password form) = Some value.
Proof.
  intros Hsplit Hname Hn Hvalue Hv Hlast. unfold build_login_data.
  apply fields_keep; [|exact Hv].
  fold (hidden_inputs form). rewrite Hsplit, fold_left_app. simpl.
  rewrite hiddens_other by exact Hlast.
  unfold hidden_step. rewrite Hname, Hn, Hvalue. apply dict_get_set_same.
Qed.

Lemma hidden_input_forwarded_witness :
  dict_get "csrf_token"
    (build_login_data "maria" "segredo"
       (Tag "form" [] []
          [Tag "input" [("type", "hidden"); ("name", "csrf_token"); ("value", "9f3a")] [] [];
           Tag "input" [("type", "text"); ("name", "csrf_token")] [] []]))
  = Some "9f3a".
Proof.
  apply (hidden_input_forwarded "maria" "segredo"
           (Tag "form" [] []
              [Tag "input" [("type", "hidden"); ("name", "csrf_token"); ("value", "9f3a")]
                 [] [];
               Tag "input" [("type", "text"); ("name", "csrf_token")] [] []])
           (Tag "input" [("type", "hidden"); ("name", "csrf_token"); ("value", "9f3a")] [] [])
           [] []); try reflexivity.
  intros h' [].
Defined.

(** X8. The four fixed keys carry the credentials: [username] and
    [identificacao] the user name, [password] and [senha] the password,
    for a user name and a password that are not empty, unless a hidden
    input of the form bears the key as its name. *)
Theorem credentials_posted (username password : string) (form : node) :
  truthy username = true -> truthy password = true ->
  forall key,
    (forall h, In h (hidden_inputs form) -> get "name" h <> Some key) ->
    (key = "username" \/ key = "identificacao" ->
     dict_get key (build_login_data username password form) = Some username) /\
    (key = "password" \/ key = "senha" ->
     dict_get key (build_login_data username password form) = Some password).
Proof.
  intros Hu Hp key Hnone. unfold build_login_data. fold (hidden_inputs form).
  split; intros Hkey.
  - apply fields_keep; [|exact Hu]. rewrite hiddens_other by exact Hnone.
    destruct Hkey as [->| ->]; reflexivity.
  - apply fields_keep; [|exact Hp]. rewrite hiddens_other by exact Hnone.
    destruct Hkey as [->| ->]; reflexivity.
Qed.

Lemma credentials_posted_witness :
  dict_get "senha" (build_login_data "maria" "segredo" Samples.login_soup) = Some "segredo".
Proof.
  apply (credentials_posted "maria" "segredo" Samples.login_soup eq_refl eq_refl "senha").
  - intros h [].
  - right. reflexivity.
Defined.

(** ** The requests the methods send *)

Section Requests.

Variable portal : Environment.

#[local] Abbreviation rec := (recorded portal).
#[local] Abbreviation sends := (sends portal).
#[local] Abbreviation record_of := (record_of portal).










Lemma sends_try_except {A} n Q (body : @M rec A) (a : A) :
  sends n Q body -> sends n Q (try_except body (ret a)).
Proof.
  intros Hb c. unfold try_except. destruct (Hb c) as [new Hnew].
  exists new. destruct (body c) as [[[]|x] c0]; exact Hnew.
Qed.





End Requests.

(** X9. The requests of [login], in order: a GET of the login url and
    then at most one POST, which goes to the action url of the first form
    of the login page and carries the data built for that form. The
    credentials leave in that POST and in no other request. *)
Theorem login_requests (portal : Environment) (username password : string)
    (c : @LabCrawler (recorded portal)) :
  record_of portal (snd (login username password c)) =
    record_of portal c ++ [GET login_url] \/
  exists r w form,
    @http_get portal login_url (beneath portal (session c)) = (Some r, w) /\
    find "form" (@html_parser portal (text r)) = Some form /\
    record_of portal (snd (login username password c)) =
      record_of portal c ++
      [GET login_url;
       POST (form_action_url form) (build_login_data username password form)].
Proof.
  unfold login, login_submit, try_except, bind, session_get, session_post, record_of.
  cbn [http_get http_post html_parser recorded session].
  destruct (@http_get portal login_url (beneath portal (session c))) as [[r|] w] eqn:Hget;
    cbn [answered]; [|now left].
  unfold raise_for_status. destruct (_ && _); cbn [raise ret]; [now left|].
  destruct (find "form" (@html_parser portal (text r))) as [form|] eqn:Hform;
    cbn [ret]; [|now left].
  right. exists r, w, form. split; [reflexivity|]. split; [exact Hform|].
  cbn [session sent beneath].
  destruct (@http_post portal _ _ w) as [[r2|] w2]; cbn [answered]; simpl.
  - destruct (_ && _); simpl; [now rewrite <- app_assoc|].
    destruct (_ || _); simpl; now rewrite <- app_assoc.
  - now rewrite <- app_assoc.
Qed.



(** ** Which page check_results judges *)

(** X12. When the page [check_results] fetched is stale (no results
    location is remembered, or the page holds "entrar") and has a link
    whose href holds "resultado", "exame" or "laudo", the answer is the
    verdict on the page behind that link, and false when the request for
    it fails or is answered with an error status: the rows of the page
    fetched first are not looked at. Otherwise the answer is the verdict
    on the page fetched first. *)
Theorem check_results_page_choice {env : Environment} (c : LabCrawler)
    (r : Response) (w : World) :
  http_get (page_url (results_url c)) (session c) = (Some r, w) ->
  status_ok r = true ->
  (forall results_link,
     stale (results_url c) r = true -> discovered_link r = Some results_link ->
     check_results c =
       match http_get (absolutize (get_or "href" "" results_link)) w with
       | (Some r2, w2) =>
           (inr (status_ok r2 && rows_verdict (html_parser (text r2))),
            mkLabCrawler w2 (results_url c))
       | (None, w2) => (inr false, mkLabCrawler w2 (results_url c))
       end) /\
  (stale (results_url c) r = false \/ discovered_link r = None ->
   check_results c =
     (inr (rows_verdict (html_parser (text r))), mkLabCrawler w (results_url c))).
Proof.
  intros Hget Hok. unfold status_ok in Hok. apply negb_true_iff in Hok.
  split.
  - intros results_link Hstale Hlink. unfold stale in Hstale. unfold discovered_link in Hlink.
    unfold check_results, try_except, bind at 1, fetch_results_page.
    unfold bind at 1, read_results_url at 1.
    unfold bind at 1, session_get at 1. rewrite Hget. cbn [answered].
    unfold bind at 1, raise_for_status at 1. rewrite Hok. cbn [ret].
    rewrite Hstale, Hlink.
    unfold bind, session_get. cbn [session results_url].
    destruct (http_get (absolutize (get_or "href" "" results_link)) w) as [[r2|] w2];
      cbn [answered]; [|reflexivity].
    unfold raise_for_status, status_ok.
    destruct ((400 <=? status_code r2) && (status_code r2 <? 600)); reflexivity.
  - intros Hfirst.
    unfold check_results, try_except, bind at 1, fetch_results_page.
    unfold bind at 1, read_results_url at 1.
    unfold bind at 1, session_get at 1. rewrite Hget. cbn [answered].
    unfold bind at 1, raise_for_status at 1. rewrite Hok. cbn [ret].
    unfold stale, discovered_link in Hfirst.
    destruct Hfirst as [Hfresh|Hnone].
    + rewrite Hfresh. reflexivity.
    + rewrite Hnone. destruct (_ || _); reflexivity.
Qed.

(** A page with a ready row that also holds "entrar" and a link to the
    examinations: the link is followed, and when the request for it
    fails the answer is false. *)
Lemma check_results_page_choice_witness :
  check_results
    (MoreSamples.visiting (Some Samples.results_location)
       [Scripted.ok MoreSamples.stale_text])
  = (inr false, MoreSamples.visiting (Some Samples.results_location) []) /\
  rows_verdict MoreSamples.stale_soup = true.
Proof.
  split; [|reflexivity].
  apply (proj1 (check_results_page_choice (env := MoreSamples.more_portal)
                  (MoreSamples.visiting (Some Samples.results_location)
                     [Scripted.ok MoreSamples.stale_text])
                  (MoreSamples.html_response MoreSamples.stale_text) []
                  eq_refl eq_refl) MoreSamples.exames_link); reflexivity.
Defined.

(** ** The order of the recovery of a document *)

(** X13. On a response declared as HTML, and not as PDF: a document found
    in the base64 data of an object tag is returned without any further
    request; failing that, when the page has a PDF iframe with a source
    and the request for the source fails or is answered with an error
    status, the call returns null, whatever links the page has: the links
    are tried only after an iframe that was answered. *)
Theorem recovery_order {env : Environment} (pdf_url : string) (c : LabCrawler)
    (r : Response) (w : World) :
  http_get pdf_url (session c) = (Some r, w) ->
  status_ok r = true ->
  contains "pdf" (lower (headers_get "content-type" "" (headers r))) = false ->
  contains "html" (lower (headers_get "content-type" "" (headers r))) = true ->
  (forall result,
     embedded_pdf (html_parser (text r)) = Some result ->
     download_pdf pdf_url c = (inr (Some result), mkLabCrawler w (results_url c))) /\
  (forall pdf_iframe iframe_src r2 w2,
     embedded_pdf (html_parser (text r)) = None ->
     find_where "iframe" (attr_is "type" "application/pdf") (html_parser (text r)) =
       Some pdf_iframe ->
     get "src" pdf_iframe = Some iframe_src -> truthy iframe_src = true ->
     http_get (absolutize iframe_src) w = (r2, w2) ->
     match r2 with Some answer => status_ok answer = false | None => True end ->
     download_pdf pdf_url c = (inr None, mkLabCrawler w2 (results_url c))).
Proof.
  intros Hget Hok Hpdf Hhtml. unfold status_ok in Hok. apply negb_true_iff in Hok.
  assert (Hstart : download_pdf pdf_url c =
                   try_except (handle_download r pdf_url) (ret None)
                     (mkLabCrawler w (results_url c))).
  { unfold download_pdf, download_attempt, try_except, bind, session_get,
      raise_for_status.
    rewrite Hget. cbn [answered]. rewrite Hok. reflexivity. }
  rewrite Hstart. unfold handle_download, try_except. rewrite Hpdf, Hhtml. split.
  - intros result He. rewrite He. reflexivity.
  - intros pdf_iframe iframe_src r2 w2 He Hframe Hsrc Htruthy Hget2 Hfail.
    rewrite He. unfold bind at 1, iframe_pdf. rewrite Hframe, Hsrc, Htruthy.
    unfold bind, session_get. cbn [session results_url]. rewrite Hget2.
    destruct r2 as [answer|]; cbn [answered]; [|reflexivity].
    unfold status_ok in Hfail. apply negb_false_iff in Hfail.
    unfold raise_for_status. rewrite Hfail. reflexivity.
Qed.

(** The iframe of the page is answered with 404: null, though the page
    links the document and the link would be answered with it. *)
Lemma recovery_order_witness :
  download_pdf "https://lablaudo.com.br/get_laudo?id=7"
    (MoreSamples.visiting None
       [Scripted.ok MoreSamples.viewer_text; Some MoreSamples.not_found;
        Samples.pdf_response "application/pdf" [] Samples.pdf_bytes])
  = (inr None,
     MoreSamples.visiting None
       [Samples.pdf_response "application/pdf" [] Samples.pdf_bytes]).
Proof.
  apply (proj2 (recovery_order (env := MoreSamples.more_portal)
                  "https://lablaudo.com.br/get_laudo?id=7"
                  (MoreSamples.visiting None
                     [Scripted.ok MoreSamples.viewer_text; Some MoreSamples.not_found;
                      Samples.pdf_response "application/pdf" [] Samples.pdf_bytes])
                  (MoreSamples.html_response MoreSamples.viewer_text)
                  [Some MoreSamples.not_found;
                   Samples.pdf_response "application/pdf" [] Samples.pdf_bytes]
                  eq_refl eq_refl eq_refl eq_refl)
           MoreSamples.viewer_iframe "/visualizar?id=7" (Some MoreSamples.not_found)
           [Samples.pdf_response "application/pdf" [] Samples.pdf_bytes]);
    reflexivity.
Defined.

(** * The credential store *)

Module DatabaseFacts.

Import Database.

Lemma lookup_insert_same id row t : lookup id (insert_or_replace id row t) = Some row.
Proof.
  induction t as [|[k r] t IH]; simpl.
  - now rewrite Z.eqb_refl.
  - destruct (Z.ltb_spec id k); simpl; [now rewrite Z.eqb_refl|].
    destruct (Z.eqb_spec id k); simpl; [now rewrite Z.eqb_refl|].
    destruct (Z.eqb_spec k id); [congruence|exact IH].
Qed.

Lemma lookup_insert_other id id' row t :
  id' <> id -> lookup id' (insert_or_replace id row t) = lookup id' t.
Proof.
  intros Hne. induction t as [|[k r] t IH]; simpl.
  - destruct (Z.eqb_spec id id'); [congruence|reflexivity].
  - destruct (Z.ltb_spec id k); simpl.
    + destruct (Z.eqb_spec id id'); [congruence|reflexivity].
    + destruct (Z.eqb_spec id k) as [->|]; simpl.
      * destruct (Z.eqb_spec k id'); [congruence|reflexivity].
      * destruct (Z.eqb k id'); [reflexivity|exact IH].
Qed.

Lemma lookup_delete_same id t : lookup id (delete id t) = None.
Proof.
  unfold delete. induction t as [|[k r] t IH]; simpl; [reflexivity|].
  destruct (Z.eqb_spec k id); simpl; [exact IH|].
  destruct (Z.eqb_spec k id); [congruence|exact IH].
Qed.

Lemma lookup_delete_other id id' t : id' <> id -> lookup id' (delete id t) = lookup id' t.
Proof.
  intros Hne. unfold delete. induction t as [|[k r] t IH]; simpl; [reflexivity|].
  destruct (Z.eqb_spec k id) as [->|]; simpl.
  - destruct (Z.eqb_spec id id'); [congruence|exact IH].
  - destruct (Z.eqb k id'); [reflexivity|exact IH].
Qed.

Lemma lookup_update id id' set t :
  lookup id' (update id set t) =
  if Z.eqb id' id then option_map set (lookup id' t) else lookup id' t.
Proof.
  unfold update. induction t as [|[k r] t IH]; simpl.
  - now destruct (Z.eqb id' id).
  - destruct (Z.eqb_spec k id) as [->|Hk]; simpl.
    + destruct (Z.eqb_spec id id') as [->|Hid].
      * now rewrite Z.eqb_refl.
      * rewrite IH. reflexivity.
    + destruct (Z.eqb_spec k id') as [->|Hk'].
      * destruct (Z.eqb_spec id' id); [congruence|reflexivity].
      * exact IH.
Qed.

Lemma rowcount_lookup id t : (0 <? rowcount id t) = true <-> lookup id t <> None.
Proof.
  unfold rowcount. induction t as [|[k r] t IH]; simpl.
  - split; [discriminate|congruence].
  - destruct (Z.eqb k id); simpl; [|exact IH].
    split; [discriminate|reflexivity].
Qed.

Lemma keys_update id set t : keys (update id set t) = keys t.
Proof.
  unfold keys, update. rewrite map_map. apply map_ext.
  intros [k r]. simpl. now destruct (Z.eqb k id).
Qed.

Lemma keys_insert id row t k :
  In k (keys (insert_or_replace id row t)) <-> k = id \/ In k (keys t).
Proof.
  induction t as [|[k0 r] t IH]; simpl.
  - intuition.
  - destruct (Z.ltb_spec id k0); simpl; [intuition|].
    destruct (Z.eqb_spec id k0) as [->|]; simpl; [intuition|].
    rewrite IH. intuition.
Qed.

Lemma insert_one_row_per_id id row t :
  one_row_per_id t -> one_row_per_id (insert_or_replace id row t).
Proof.
  unfold one_row_per_id. induction t as [|[k r] t IH]; intros Hs; simpl.
  - repeat constructor.
  - apply StronglySorted_inv in Hs. destruct Hs as [Hs Hall]. simpl in Hall.
    destruct (Z.ltb_spec id k); simpl.
    + constructor.
      * now constructor.
      * constructor; [exact H|].
        eapply Forall_impl; [|exact Hall]. intros a Ha. simpl in Ha. lia.
    + destruct (Z.eqb_spec id k) as [->|]; simpl; [now constructor|].
      constructor; [now apply IH|].
      apply Forall_forall. intros a Ha.
      apply (keys_insert id row t a) in Ha. destruct Ha as [->|Ha]; [lia|].
      rewrite Forall_forall in Hall. now apply Hall.
Qed.

Lemma filter_one_row_per_id f t : one_row_per_id t -> one_row_per_id (filter f t).
Proof.
  unfold one_row_per_id. induction t as [|[k r] t IH]; intros Hs; simpl.
  - constructor.
  - apply StronglySorted_inv in Hs. destruct Hs as [Hs Hall]. simpl in Hall.
    destruct (f (k, r)); simpl; [|now apply IH].
    constructor; [now apply IH|].
    apply Forall_forall. intros a Ha. rewrite Forall_forall in Hall. apply Hall.
    unfold keys in *. apply in_map_iff in Ha. destruct Ha as [kr [<- Hin]].
    apply filter_In in Hin. apply in_map. apply Hin.
Qed.

Lemma delete_one_row_per_id id t : one_row_per_id t -> one_row_per_id (delete id t).
Proof. apply filter_one_row_per_id. Qed.

Lemma one_row_per_id_NoDup t : one_row_per_id t -> NoDup (keys t).
Proof.
  unfold one_row_per_id. induction (keys t) as [|k ks IH]; intros Hs; constructor.
  - apply StronglySorted_inv in Hs. destruct Hs as [_ Hall].
    rewrite Forall_forall in Hall. intros Hin. specialize (Hall k Hin). lia.
  - apply IH. now apply StronglySorted_inv in Hs.
Qed.

Lemma lookup_In id row t : lookup id t = Some row -> In (id, row) t.
Proof.
  induction t as [|[k r] t IH]; simpl; [discriminate|].
  destruct (Z.eqb_spec k id) as [->|]; intros H.
  - inversion H. now left.
  - right. now apply IH.
Qed.

Lemma In_lookup id row t : one_row_per_id t -> In (id, row) t -> lookup id t = Some row.
Proof.
  unfold one_row_per_id. induction t as [|[k r] t IH]; intros Hs Hin; [destruct Hin|].
  apply StronglySorted_inv in Hs. destruct Hs as [Hs Hall]. simpl in *.
  destruct Hin as [Heq|Hin].
  - inversion Heq; subst. now rewrite Z.eqb_refl.
  - destruct (Z.eqb_spec k id) as [->|]; [|now apply IH].
    rewrite Forall_forall in Hall.
    assert (Hlt : (id < id)%Z) by (apply Hall; apply (in_map fst _ _ Hin)). lia.
Qed.

End DatabaseFacts.

(** X14. Adding a user and then asking for it gives back the
    credentials added, whatever the table held for that id before: the
    row is replaced as a whole, so a user that was deactivated is active
    again and its last check and last status are cleared. *)
Theorem add_user_then_get_user (now : string) (telegram_id : Z)
    (username password : string) (t : Database.table) :
  let result := Database.add_user now false telegram_id username password t in
  fst result = true /\
  Database.get_user false telegram_id (snd result) = Some (username, password) /\
  Database.lookup telegram_id (snd result) =
    Some (Database.mk_row username password 1 now None None).
Proof.
  simpl. split; [reflexivity|].
  unfold Database.get_user. rewrite DatabaseFacts.lookup_insert_same. auto.
Qed.

(** X15. A write changes at most the row of the telegram id it is given:
    after [add_user], [remove_user], [update_user_status] or
    [deactivate_user] for one id, with or without a fault, the row of
    every other id, and so what [get_user] returns for it, is what it
    was. *)
Theorem writes_touch_one_row (op : Database.write) (fault : bool)
    (telegram_id other : Z) (t : Database.table) :
  other <> telegram_id ->
  Database.lookup other (Database.apply_write op fault telegram_id t) =
    Database.lookup other t /\
  forall fault', Database.get_user fault' other (Database.apply_write op fault telegram_id t) =
                 Database.get_user fault' other t.
Proof.
  intros Hne.
  assert (H : Database.lookup other (Database.apply_write op fault telegram_id t) =
              Database.lookup other t).
  { destruct op, fault; simpl; try reflexivity.
    - now apply DatabaseFacts.lookup_insert_other.
    - now apply DatabaseFacts.lookup_delete_other.
    - rewrite DatabaseFacts.lookup_update.
      destruct (Z.eqb_spec other telegram_id); [congruence|reflexivity].
    - rewrite DatabaseFacts.lookup_update.
      destruct (Z.eqb_spec other telegram_id); [congruence|reflexivity]. }
  split; [exact H|]. intros fault'. unfold Database.get_user. now rewrite H.
Qed.

Lemma writes_touch_one_row_witness :
  Database.get_user false 7
    (Database.apply_write Database.RemoveUser false 8
       [(7%Z, Database.mk_row "maria" "segredo" 1 "2024-05-01" None None);
        (8%Z, Database.mk_row "joao" "chave" 1 "2024-05-02" None None)])
  = Some ("maria", "segredo").
Proof.
  rewrite (proj2 (writes_touch_one_row Database.RemoveUser false 8 7
                    [(7%Z, Database.mk_row "maria" "segredo" 1 "2024-05-01" None None);
                     (8%Z, Database.mk_row "joao" "chave" 1 "2024-05-02" None None)]
                    ltac:(lia)) false).
  reflexivity.
Defined.

(** X16. [remove_user] returns true exactly when the table held a row
    for the id, be it active or deactivated; afterwards [get_user] finds
    nothing for the id, and removing again returns false. *)
Theorem remove_user_reports (telegram_id : Z) (t : Database.table) :
  let result := Database.remove_user false telegram_id t in
  (fst result = true <-> Database.lookup telegram_id t <> None) /\
  Database.lookup telegram_id (snd result) = None /\
  Database.get_user false telegram_id (snd result) = None /\
  fst (Database.remove_user false telegram_id (snd result)) = false.
Proof.
  simpl. split; [apply DatabaseFacts.rowcount_lookup|].
  assert (Hgone : Database.lookup telegram_id (Database.delete telegram_id t) = None)
    by apply DatabaseFacts.lookup_delete_same.
  split; [exact Hgone|]. split.
  - unfold Database.get_user. now rewrite Hgone.
  - apply not_true_is_false. intros Hcount.
    apply DatabaseFacts.rowcount_lookup in Hcount. congruence.
Qed.

(** X17. A deactivated user is hidden, not removed: [get_user] finds
    nothing for it, yet [remove_user] reports a row as it did before.
    [update_user_status] never changes what [get_user] returns, for any
    id, and changes nothing at all when the table has no row for the
    id. *)
Theorem deactivate_and_status (now status : string) (telegram_id : Z)
    (t : Database.table) :
  Database.get_user false telegram_id (Database.deactivate_user false telegram_id t) = None /\
  fst (Database.remove_user false telegram_id
         (Database.deactivate_user false telegram_id t)) =
    fst (Database.remove_user false telegram_id t) /\
  (forall fault fault' id,
     Database.get_user fault' id
       (Database.update_user_status now fault telegram_id status t) =
     Database.get_user fault' id t) /\
  (Database.lookup telegram_id t = None ->
   Database.update_user_status now false telegram_id status t = t).
Proof.
  split; [|split; [|split]].
  - unfold Database.get_user, Database.deactivate_user.
    rewrite DatabaseFacts.lookup_update, Z.eqb_refl.
    now destruct (Database.lookup telegram_id t).
  - unfold Database.remove_user, Database.deactivate_user. simpl.
    destruct (0 <? Database.rowcount telegram_id t) eqn:Hc.
    + apply DatabaseFacts.rowcount_lookup. apply DatabaseFacts.rowcount_lookup in Hc.
      rewrite DatabaseFacts.lookup_update, Z.eqb_refl.
      now destruct (Database.lookup telegram_id t).
    + apply not_true_is_false. intros Hc'.
      apply DatabaseFacts.rowcount_lookup in Hc'.
      rewrite DatabaseFacts.lookup_update, Z.eqb_refl in Hc'.
      assert (Hnone : Database.lookup telegram_id t = None).
      { destruct (Database.lookup telegram_id t) eqn:Hl; [|reflexivity].
        assert (Ht : (0 <? Database.rowcount telegram_id t) = true)
          by (apply DatabaseFacts.rowcount_lookup; congruence).
        congruence. }
      rewrite Hnone in Hc'. now apply Hc'.
  - intros fault fault' id. unfold Database.get_user, Database.update_user_status.
    destruct fault; [reflexivity|]. rewrite DatabaseFacts.lookup_update.
    destruct (Z.eqb id telegram_id); [|reflexivity].
    now destruct (Database.lookup id t).
  - intros Hnone. unfold Database.update_user_status, Database.update.
    induction t as [|[k r] t IH]; [reflexivity|]. simpl in *.
    destruct (Z.eqb k telegram_id); [discriminate|]. now rewrite IH.
Qed.

Lemma deactivate_and_status_witness :
  Database.update_user_status "2024-05-03" false 9 "results_ready"
    [(7%Z, Database.mk_row "maria" "segredo" 1 "2024-05-01" None None)]
  = [(7%Z, Database.mk_row "maria" "segredo" 1 "2024-05-01" None None)].
Proof.
  apply (proj2 (proj2 (proj2 (deactivate_and_status "2024-05-03" "results_ready" 9
            [(7%Z, Database.mk_row "maria" "segredo" 1 "2024-05-01" None None)])))).
  reflexivity.
Defined.

(** X18. The primary key is kept: starting from the empty table of a new
    database, every write, with or without a fault, leaves at most one
    row for each telegram id. *)
Theorem writes_keep_primary_key (op : Database.write) (fault : bool) (telegram_id : Z)
    (t : Database.table) :
  Database.one_row_per_id Database.init_database /\
  (Database.one_row_per_id t ->
   Database.one_row_per_id (Database.apply_write op fault telegram_id t) /\
   NoDup (Database.keys (Database.apply_write op fault telegram_id t))).
Proof.
  split; [constructor|]. intros Hs.
  assert (H : Database.one_row_per_id (Database.apply_write op fault telegram_id t)).
  { destruct op, fault; simpl; try exact Hs.
    - now apply DatabaseFacts.insert_one_row_per_id.
    - now apply DatabaseFacts.delete_one_row_per_id.
    - unfold Database.one_row_per_id. now rewrite DatabaseFacts.keys_update.
    - unfold Database.one_row_per_id. now rewrite DatabaseFacts.keys_update. }
  split; [exact H|]. now apply DatabaseFacts.one_row_per_id_NoDup.
Qed.

Lemma writes_keep_primary_key_witness :
  Database.keys
    (Database.apply_write (Database.AddUser "2024-05-04" "maria" "nova") false 7
       [(7%Z, Database.mk_row "maria" "segredo" 0 "2024-05-01" None (Some "login_failed"));
        (8%Z, Database.mk_row "joao" "chave" 1 "2024-05-02" None None)])
  = [7%Z; 8%Z] /\
  NoDup (Database.keys
    (Database.apply_write (Database.AddUser "2024-05-04" "maria" "nova") false 7
       [(7%Z, Database.mk_row "maria" "segredo" 0 "2024-05-01" None (Some "login_failed"));
        (8%Z, Database.mk_row "joao" "chave" 1 "2024-05-02" None None)])).
Proof.
  split; [reflexivity|].
  apply (proj2 (writes_keep_primary_key (Database.AddUser "2024-05-04" "maria" "nova")
                  false 7
                  [(7%Z, Database.mk_row "maria" "segredo" 0 "2024-05-01" None
                           (Some "login_failed"));
                   (8%Z, Database.mk_row "joao" "chave" 1 "2024-05-02" None None)])).
  repeat constructor.
Defined.

(** X19. On a table with one row for each id, the users
    [get_all_active_users] lists are exactly those [get_user] finds, with
    the same credentials, and no id is listed twice. *)
Theorem active_users_listed (t : Database.table) :
  Database.one_row_per_id t ->
  (forall telegram_id username password,
     In (telegram_id, username, password) (Database.get_all_active_users false t) <->
     Database.get_user false telegram_id t = Some (username, password)) /\
  NoDup (map (fun user => fst (fst user)) (Database.get_all_active_users false t)).
Proof.
  intros Hs. split.
  - intros id u p. unfold Database.get_all_active_users, Database.get_user.
    rewrite in_map_iff. split.
    + intros [[k row] [Heq Hin]]. simpl in Heq. inversion Heq; subst.
      apply filter_In in Hin. destruct Hin as [Hin Hactive]. simpl in Hactive.
      rewrite (DatabaseFacts.In_lookup _ _ _ Hs Hin), Hactive. reflexivity.
    + destruct (Database.lookup id t) as [row|] eqn:Hl; [|discriminate].
      destruct (Z.eqb (Database.active row) 1) eqn:Hactive; [|discriminate].
      intros Heq. inversion Heq; subst. exists (id, row). split; [reflexivity|].
      apply filter_In. split; [now apply DatabaseFacts.lookup_In|exact Hactive].
  - unfold Database.get_all_active_users. rewrite map_map. simpl.
    apply (DatabaseFacts.one_row_per_id_NoDup
             (filter (fun kr => Z.eqb (Database.active (snd kr)) 1) t)).
    now apply DatabaseFacts.filter_one_row_per_id.
Qed.

Lemma active_users_listed_witness :
  Database.get_all_active_users false
    [(7%Z, Database.mk_row "maria" "segredo" 0 "2024-05-01" None (Some "login_failed"));
     (8%Z, Database.mk_row "joao" "chave" 1 "2024-05-02" None None)]
  = [(8%Z, "joao", "chave")] /\
  NoDup (map (fun user : Z * string * string => fst (fst user))
    (Database.get_all_active_users false
       [(7%Z, Database.mk_row "maria" "segredo" 0 "2024-05-01" None (Some "login_failed"));
        (8%Z, Database.mk_row "joao" "chave" 1 "2024-05-02" None None)])).
Proof.
  split; [reflexivity|].
  apply (proj2 (active_users_listed
                  [(7%Z, Database.mk_row "maria" "segredo" 0 "2024-05-01" None
                           (Some "login_failed"));
                   (8%Z, Database.mk_row "joao" "chave" 1 "2024-05-02" None None)]
                  ltac:(repeat constructor))).
Defined.

(** * The periodic check of the bot *)

Section BotFacts.

Context {env : Environment} {around : Surroundings}.

Lemma download_pdf_document pdf_url c c' bytes filename :
  download_pdf pdf_url c = (inr (Some (bytes, filename)), c') ->
  pdf_document bytes filename.
Proof.
  intros H. split.
  - exact (proj1 (download_pdf_yields _ _ _ _ _ H)).
  - revert H. apply (try_except_satisfies (fun _ f => pdf_named f = true)).
    unfold download_attempt. apply bind_satisfies. intros r.
    apply bind_satisfies. intros _. apply handle_download_pdf_named.
Qed.

(** The end of a branch of the check: what was sent and written. *)
Ltac branch_end :=
  first
    [ exists [], []; eexists _, _; simpl; rewrite app_nil_r;
      split; [reflexivity|left; split; [reflexivity|now left]]
    | eexists [], [(Database.UpdateUserStatus _ _, _)], _, _; simpl; rewrite app_nil_r;
      split; [reflexivity|
        left; split; [reflexivity|right; eexists _, _, _; reflexivity]]
    | eexists [SendMessage _ _], [], _, _; simpl;
      split; [reflexivity|
        right; left; eexists; split; [reflexivity|now left]]
    | eexists [SendMessage _ _], [(Database.UpdateUserStatus _ _, _)], _, _; simpl;
      split; [reflexivity|
        right; left; eexists; split;
          [reflexivity|right; eexists _, _, _; reflexivity]] ].

Lemma check_user_outcome telegram_id username password (self : LabBot) :
  exists new ws portal' weather',
    check_user (telegram_id, username, password) self =
      mkLabBot portal' weather' (apply_writes telegram_id ws (db self))
        (outbox self ++ new) /\
    check_outcome telegram_id new ws.
Proof.
  unfold check_user, except_exception, check_user_body, apply_writes. cbn [fst snd].
  unfold bot_bind at 1, open_session. unfold bot_bind at 1, crawler_call at 1.
  cbn [portal weather db outbox].
  destruct (login username password _) as [[e|[|]] c1]; cbn [fst snd];
    [branch_end| |].
  - (* logged in *)
    unfold bot_bind at 1, crawler_call at 1. cbn [portal weather db outbox].
    destruct (check_results _) as [[e|[|]] c2]; cbn [fst snd]; [branch_end| |].
    + (* ready *)
      unfold bot_bind at 1, crawler_call at 1. cbn [portal weather db outbox].
      destruct (get_pdf_link _) as [[e|pdf_url] c3]; cbn [fst snd]; [branch_end|].
      unfold bot_bind at 1.
      destruct (link_found pdf_url) as [u|].
      * unfold bot_bind at 1, crawler_call at 1. cbn [portal weather db outbox].
        destruct (download_pdf u _) as [[e|[[pdf_content filename]|]] c4] eqn:Hd;
          cbn [fst snd]; [branch_end| |].
        -- unfold bot_bind at 1, send. cbn [portal weather db outbox].
           destruct (telegram_accepts _ (weather self)) as [[|] w1];
             [|branch_end].
           unfold db_remove_user, db_update_user_status.
           cbn [portal weather db outbox].
           destruct (sqlite_fault w1) as [fault w2].
           cbn [portal weather db outbox].
           destruct (sqlite_fault w2) as [fault' w3]. cbn [snd].
           exists [SendDocument telegram_id pdf_content filename],
             [(Database.RemoveUser, fault);
              (Database.UpdateUserStatus (current_timestamp w2) "results_ready", fault')].
           eexists _, _. split; [reflexivity|].
           right. right. exists pdf_content, filename, (current_timestamp w2), fault, fault'.
           split; [reflexivity|]. split; [|reflexivity].
           exact (download_pdf_document _ _ _ _ _ Hd).
        -- unfold send, db_update_user_status. cbn [portal weather db outbox].
           destruct (telegram_accepts _ (weather self)) as [[|] w1];
             cbn [portal weather db outbox]; [|branch_end].
           destruct (sqlite_fault w1) as [fault w2]. branch_end.
      * unfold send, db_update_user_status. cbn [portal weather db outbox].
        destruct (telegram_accepts _ (weather self)) as [[|] w1];
          cbn [portal weather db outbox]; [|branch_end].
        destruct (sqlite_fault w1) as [fault w2]. branch_end.
    + (* pending *)
      unfold db_update_user_status. cbn [portal weather db outbox].
      destruct (sqlite_fault (weather self)) as [fault w1]. branch_end.
  - (* login failed *)
    unfold bot_bind, db_update_user_status, send. cbn [portal weather db outbox].
    destruct (sqlite_fault (weather self)) as [fault w1].
    cbn [portal weather db outbox].
    destruct (telegram_accepts _ w1) as [[|] w2]; branch_end.
Qed.

Lemma apply_write_other op fault telegram_id other t :
  other <> telegram_id ->
  Database.lookup other (Database.apply_write op fault telegram_id t) =
  Database.lookup other t.
Proof.
  intros Hne. destruct op, fault; simpl; try reflexivity.
  - now apply DatabaseFacts.lookup_insert_other.
  - now apply DatabaseFacts.lookup_delete_other.
  - rewrite DatabaseFacts.lookup_update.
    destruct (Z.eqb_spec other telegram_id); [congruence|reflexivity].
  - rewrite DatabaseFacts.lookup_update.
    destruct (Z.eqb_spec other telegram_id); [congruence|reflexivity].
Qed.

Lemma apply_writes_other telegram_id other ws t :
  other <> telegram_id ->
  Database.lookup other (apply_writes telegram_id ws t) = Database.lookup other t.
Proof.
  intros Hne. unfold apply_writes. revert t.
  induction ws as [|[op fault] ws IH]; intros t; [reflexivity|].
  simpl. rewrite IH. now apply apply_write_other.
Qed.

(** An update of the status keeps the row and, in it, the credentials
    and the active flag. *)
Lemma lookup_update_user_status now fault telegram_id status t row' :
  Database.lookup telegram_id
    (Database.update_user_status now fault telegram_id status t) = Some row' ->
  exists row,
    Database.lookup telegram_id t = Some row /\
    Database.username row' = Database.username row /\
    Database.password row' = Database.password row /\
    Database.active row' = Database.active row.
Proof.
  unfold Database.update_user_status. destruct fault.
  - intros H. exists row'. auto.
  - rewrite DatabaseFacts.lookup_update, Z.eqb_refl.
    destruct (Database.lookup telegram_id t) as [row|]; [|discriminate].
    intros H. inversion H; subst. exists row. auto.
Qed.

Lemma lookup_update_user_status_none now fault telegram_id status t :
  Database.lookup telegram_id
    (Database.update_user_status now fault telegram_id status t) = None ->
  Database.lookup telegram_id t = None.
Proof.
  unfold Database.update_user_status. destruct fault; [auto|].
  rewrite DatabaseFacts.lookup_update, Z.eqb_refl.
  now destruct (Database.lookup telegram_id t).
Qed.

Lemma lookup_remove_user fault telegram_id t row' :
  Database.lookup telegram_id (snd (Database.remove_user fault telegram_id t)) = Some row' ->
  Database.lookup telegram_id t = Some row'.
Proof.
  unfold Database.remove_user. destruct fault; simpl; [auto|].
  now rewrite DatabaseFacts.lookup_delete_same.
Qed.

Lemma check_outcome_sound telegram_id new ws :
  check_outcome telegram_id new ws ->
  length new <= 1 /\ Forall (sound_notification [telegram_id]) new.
Proof.
  intros [[-> _]|[[text [-> _]]|[doc [fn [now [f1 [f2 [-> [Hpdf _]]]]]]]]]; simpl.
  - split; [lia|constructor].
  - split; [lia|]. constructor; [|constructor]. split; [now left|exact I].
  - split; [lia|]. constructor; [|constructor]. split; [now left|exact Hpdf].
Qed.

Lemma check_outcome_keeps telegram_id new ws t row' :
  check_outcome telegram_id new ws ->
  Database.lookup telegram_id (apply_writes telegram_id ws t) = Some row' ->
  exists row,
    Database.lookup telegram_id t = Some row /\
    Database.username row' = Database.username row /\
    Database.password row' = Database.password row /\
    Database.active row' = Database.active row.
Proof.
  assert (Hstatus : status_only ws ->
            Database.lookup telegram_id (apply_writes telegram_id ws t) = Some row' ->
            exists row,
              Database.lookup telegram_id t = Some row /\
              Database.username row' = Database.username row /\
              Database.password row' = Database.password row /\
              Database.active row' = Database.active row).
  { intros [->|[now [status [fault ->]]]]; simpl.
    - intros H. exists row'. auto.
    - apply lookup_update_user_status. }
  intros [[_ Hs]|[[text [_ Hs]]|[doc [fn [now [f1 [f2 [_ [_ ->]]]]]]]]]; auto.
  unfold apply_writes. simpl. intros H.
  destruct (lookup_update_user_status _ _ _ _ _ _ H) as [row [Hrow Hsame]].
  exists row. split; [|exact Hsame]. now apply lookup_remove_user in Hrow.
Qed.


End BotFacts.

(** X20. One check of a user sends at most one notification, addressed
    to that user; a document it sends is a PDF by its first bytes and by
    its file name. *)
Theorem check_user_notifies_once {env : Environment} {around : Surroundings}
    (telegram_id : Z) (username password : string) (self : LabBot) :
  exists new,
    outbox (check_user (telegram_id, username, password) self) = outbox self ++ new /\
    length new <= 1 /\
    Forall (sound_notification [telegram_id]) new.
Proof.
  destruct (check_user_outcome telegram_id username password self)
    as [new [ws [p1 [w1 [Hrun Hout]]]]].
  exists new. rewrite Hrun. split; [reflexivity|].
  exact (check_outcome_sound _ _ _ Hout).
Qed.

(** X21. A check takes a user off the table only after it has sent that
    user the document: if the row of the user is gone after the check, the
    check sent exactly one notification, the PDF document for that
    user. *)
Theorem check_user_removes_after_delivery {env : Environment} {around : Surroundings}
    (telegram_id : Z) (username password : string) (self : LabBot) :
  Database.lookup telegram_id (db self) <> None ->
  Database.lookup telegram_id (db (check_user (telegram_id, username, password) self)) =
    None ->
  exists document filename,
    outbox (check_user (telegram_id, username, password) self) =
      outbox self ++ [SendDocument telegram_id document filename] /\
    pdf_document document filename.
Proof.
  intros Hthere Hgone.
  destruct (check_user_outcome telegram_id username password self)
    as [new [ws [p1 [w1 [Hrun Hout]]]]].
  rewrite Hrun in *. cbn [db outbox] in *.
  assert (Hstatus : status_only ws -> False).
  { intros [->|[now [status [fault ->]]]]; unfold apply_writes in Hgone; simpl in Hgone.
    - contradiction.
    - apply lookup_update_user_status_none in Hgone. contradiction. }
  destruct Hout as [[_ Hs]|[[text [_ Hs]]|[doc [fn [now [f1 [f2 [-> [Hpdf _]]]]]]]]];
    [destruct (Hstatus Hs)|destruct (Hstatus Hs)|].
  exists doc, fn. auto.
Qed.

(** X22. A check of one user leaves the rows of all other users as they
    were, and in the row of the user, if it is still there, the user name,
    the password and the active flag: a check never deactivates a user
    and never changes credentials, whatever the outcome of the login. *)
Theorem check_user_keeps_credentials {env : Environment} {around : Surroundings}
    (telegram_id : Z) (username password : string) (self : LabBot) :
  (forall other, other <> telegram_id ->
     Database.lookup other (db (check_user (telegram_id, username, password) self)) =
     Database.lookup other (db self)) /\
  (forall row',
     Database.lookup telegram_id
       (db (check_user (telegram_id, username, password) self)) = Some row' ->
     exists row,
       Database.lookup telegram_id (db self) = Some row /\
       Database.username row' = Database.username row /\
       Database.password row' = Database.password row /\
       Database.active row' = Database.active row).
Proof.
  destruct (check_user_outcome telegram_id username password self)
    as [new [ws [p1 [w1 [Hrun Hout]]]]].
  rewrite Hrun. cbn [db]. split.
  - intros other Hne. now apply apply_writes_other.
  - intros row'. now apply check_outcome_keeps with (new := new).
Qed.


(** The round in fair weather: the user gets the document and is taken
    off the table; the deactivated user is not touched. *)
Lemma check_user_removes_after_delivery_witness :
  exists document filename,
    outbox (check_user (env := Round.round_portal) (around := Round.fair_weather)
              (7%Z, "maria", "segredo") Round.start) =
      outbox Round.start ++ [SendDocument 7 document filename] /\
    pdf_document document filename.
Proof.
  apply (check_user_removes_after_delivery (env := Round.round_portal)
           (around := Round.fair_weather) 7 "maria" "segredo" Round.start).
  - discriminate.
  - reflexivity.
Defined.

Lemma check_user_keeps_credentials_witness :
  Database.lookup 8
    (db (check_user (env := Round.round_portal) (around := Round.fair_weather)
           (7%Z, "maria", "segredo") Round.start)) = Some Round.joao.
Proof.
  rewrite (proj1 (check_user_keeps_credentials (env := Round.round_portal)
                    (around := Round.fair_weather) 7 "maria" "segredo" Round.start)
             8%Z ltac:(lia)).
  reflexivity.
Defined.


(** * The credentials a user sends (handle_message) *)

Section Credentials.

Lemma spaceless_app s c :
  spaceless s = true -> isspace c = false ->
  spaceless (String.append s (String c EmptyString)) = true.
Proof.
  intros Hs Hc. induction s as [|a s IH]; simpl in *.
  - now rewrite Hc.
  - apply andb_true_iff in Hs. destruct Hs as [Ha Hs]. now rewrite Ha, IH.
Qed.

Lemma words_go_words cur s :
  spaceless cur = true -> Forall word (words_go cur s).
Proof.
  revert cur. induction s as [|c s IH]; intros cur Hcur; simpl.
  - destruct (truthy cur) eqn:Ht; [|constructor]. repeat constructor; assumption.
  - destruct (isspace c) eqn:Hc.
    + destruct (truthy cur) eqn:Ht; [|now apply IH].
      constructor; [now split|now apply IH].
    + apply IH. now apply spaceless_app.
Qed.

Lemma split_whitespace_words s : Forall word (split_whitespace s).
Proof. now apply words_go_words. Qed.

Context {env : Environment} {around : Surroundings}.

Lemma send_keeps n (self : LabBot) :
  db (snd (send n self)) = db self /\ portal (snd (send n self)) = portal self.
Proof.
  unfold send. destruct (telegram_accepts n (weather self)) as [[|] w]; auto.
Qed.

(** How a call of the handler ends: the table and the portal are as
    they were, or a login was tried with the two words of the text, and
    the table is as it was unless the login succeeded and the row was
    written. *)
Lemma handle_message_outcome waiting chat_id telegram_id text (self : LabBot) :
  exists e waiting' final,
    handle_message waiting chat_id telegram_id text self = (e, waiting', final) /\
    ((db final = db self /\ portal final = portal self) \/
     exists username password r crawler,
       waiting = true /\
       split_whitespace (strip text) = [username; password] /\
       login username password (mkLabCrawler (new_session (portal self)) None) =
         (r, crawler) /\
       portal final = session crawler /\
       (db final = db self \/
        (r = inr true /\
         Database.get_user false telegram_id (db final) = Some (username, password)))).
Proof.
  unfold handle_message. destruct waiting.
  2:{ pose proof (send_keeps (SendMessage chat_id UseHelp) self) as Hkeep.
      destruct (send _ self) as [[e|u] s1]; eexists _, _, _;
        (split; [reflexivity|left; exact Hkeep]). }
  unfold credentials_body.
  destruct (split_whitespace (strip text)) as [|username [|password [|third rest]]].
  1,2,4:
    unfold bot_bind;
    pose proof (send_keeps (SendMessage chat_id FormatHint) self) as [Hdb Hportal];
    destruct (send (SendMessage chat_id FormatHint) self) as [[e|u] s1];
      cbn [snd] in *;
      [pose proof (send_keeps (SendMessage chat_id ProcessingError) s1) as [Hdb2 Hportal2];
       destruct (send _ s1) as [[e2|u2] s2]; cbn [snd] in *|];
      eexists _, _, _; (split; [reflexivity|left; split; congruence]).
  unfold bot_bind at 1.
  pose proof (send_keeps (SendMessage chat_id Testing) self) as [Hdb1 Hportal1].
  destruct (send (SendMessage chat_id Testing) self) as [[e|u] s1]; cbn [snd] in *.
  { pose proof (send_keeps (SendMessage chat_id ProcessingError) s1) as [Hdb2 Hportal2].
    destruct (send _ s1) as [[e2|u2] s2]; cbn [snd] in *;
      eexists _, _, _; (split; [reflexivity|left; split; congruence]). }
  unfold bot_bind at 1, open_session. unfold bot_bind at 1, crawler_call.
  cbn [portal weather db outbox]. rewrite Hportal1.
  destruct (login username password _) as [r crawler] eqn:Hlogin.
  assert (Htried : forall final,
            portal final = session crawler ->
            db final = db self \/
            (r = inr true /\
             Database.get_user false telegram_id (db final) = Some (username, password)) ->
            exists u p r0 crawler0,
              true = true /\ [username; password] = [u; p] /\
              login u p (mkLabCrawler (new_session (portal self)) None) =
                (r0, crawler0) /\
              portal final = session crawler0 /\
              (db final = db self \/
               (r0 = inr true /\
                Database.get_user false telegram_id (db final) = Some (u, p)))).
  { intros final Hp Hd. exists username, password, r, crawler. auto. }
  destruct r as [e|[|]]; cbn [fst snd].
  - pose proof (send_keeps (SendMessage chat_id ProcessingError)
                  (mkLabBot (session crawler) (weather s1) (db s1) (outbox s1)))
      as [Hdb2 Hportal2].
    destruct (send _ _) as [[e2|u2] s2]; cbn [snd db portal] in *;
      eexists _, _, _; (split; [reflexivity|right; apply Htried; [congruence|left; congruence]]).
  - unfold bot_bind at 1. unfold bot_bind at 1, db_add_user.
    cbn [portal weather db outbox].
    destruct (sqlite_fault (weather s1)) as [[|] w2]; cbn [fst snd Database.add_user].
    + pose proof (send_keeps (SendMessage chat_id SaveFailed)
                    (mkLabBot (session crawler) w2 (db s1) (outbox s1)))
        as [Hdb2 Hportal2].
      destruct (send _ _) as [[e2|u2] s2]; cbn [snd db portal bot_ret] in *.
      * pose proof (send_keeps (SendMessage chat_id ProcessingError) s2)
          as [Hdb3 Hportal3].
        destruct (send _ s2) as [[e3|u3] s3]; cbn [snd] in *;
          eexists _, _, _;
          (split; [reflexivity|right; apply Htried; [congruence|left; congruence]]).
      * eexists _, _, _.
        split; [reflexivity|right; apply Htried; [congruence|left; congruence]].
    + match goal with
      | |- context [send ?n ?s] =>
          pose proof (send_keeps n s) as [Hdb2 Hportal2];
          destruct (send n s) as [[e2|u2] s2]
      end; cbn [snd db portal bot_ret] in *.
      * pose proof (send_keeps (SendMessage chat_id ProcessingError) s2)
          as [Hdb3 Hportal3].
        destruct (send _ s2) as [[e3|u3] s3]; cbn [snd] in *;
          eexists _, _, _;
          (split; [reflexivity|right; apply Htried; [congruence|right]]);
          (split; [reflexivity|]); rewrite Hdb3, Hdb2; unfold Database.get_user;
          now rewrite DatabaseFacts.lookup_insert_same.
      * eexists _, _, _.
        split; [reflexivity|right; apply Htried; [congruence|right]].
        split; [reflexivity|]. rewrite Hdb2. unfold Database.get_user.
        now rewrite DatabaseFacts.lookup_insert_same.
  - unfold bot_bind.
    match goal with
    | |- context [send ?n ?s] =>
        pose proof (send_keeps n s) as [Hdb2 Hportal2];
        destruct (send n s) as [[e2|u2] s2]
    end; cbn [snd db portal bot_ret] in *.
    + pose proof (send_keeps (SendMessage chat_id ProcessingError) s2)
        as [Hdb3 Hportal3].
      destruct (send _ s2) as [[e3|u3] s3]; cbn [snd] in *;
        eexists _, _, _;
        (split; [reflexivity|right; apply Htried; [congruence|left; congruence]]).
    + eexists _, _, _.
      split; [reflexivity|right; apply Htried; [congruence|left; congruence]].
Qed.

End Credentials.

(** X24. Credentials reach the table only through a login that
    succeeded with them: when [handle_message] changes the table, the bot
    was waiting for credentials, the text was exactly two words, a new
    crawler logged in with the first as user name and the second as
    password, and these two are what [get_user] then returns for the
    sender. Neither of them is empty or holds whitespace. *)
Theorem credentials_saved_after_login {env : Environment} {around : Surroundings}
    (waiting : bool) (chat_id telegram_id : Z) (text : string) (self : LabBot) :
  let self' := snd (handle_message waiting chat_id telegram_id text self) in
  db self' = db self \/
  exists username password crawler,
    waiting = true /\
    split_whitespace (strip text) = [username; password] /\
    word username /\ word password /\
    login username password (mkLabCrawler (new_session (portal self)) None) =
      (inr true, crawler) /\
    Database.get_user false telegram_id (db self') = Some (username, password).
Proof.
  destruct (handle_message_outcome waiting chat_id telegram_id text self)
    as [e [waiting' [final [Hrun Hout]]]].
  rewrite Hrun. cbn [snd].
  destruct Hout as [[Hdb _]|[u [p [r [crawler [Hw [Htext [Hlogin [_ Hdb]]]]]]]]];
    [now left|].
  destruct Hdb as [Hdb|[-> Hget]]; [now left|].
  right. exists u, p, crawler.
  pose proof (split_whitespace_words (strip text)) as Hwords.
  rewrite Htext in Hwords.
  inversion Hwords as [|? ? Hu Hrest]; subst.
  inversion Hrest as [|? ? Hp _]; subst. auto 10.
Qed.

(** X25. A text that is not taken for credentials changes nothing: when
    the bot is not waiting for credentials, or the text is not exactly
    two words, the handler leaves the table as it was and makes no
    request to the portal. *)
Theorem message_without_credentials {env : Environment} {around : Surroundings}
    (waiting : bool) (chat_id telegram_id : Z) (text : string) (self : LabBot) :
  waiting = false \/ length (split_whitespace (strip text)) <> 2 ->
  db (snd (handle_message waiting chat_id telegram_id text self)) = db self /\
  portal (snd (handle_message waiting chat_id telegram_id text self)) = portal self.
Proof.
  intros Hignored.
  destruct (handle_message_outcome waiting chat_id telegram_id text self)
    as [e [waiting' [final [Hrun Hout]]]].
  rewrite Hrun. cbn [snd].
  destruct Hout as [Hsame|[u [p [r [crawler [Hw [Htext _]]]]]]]; [exact Hsame|].
  destruct Hignored as [Hnot|Hlen]; [congruence|].
  rewrite Htext in Hlen. now destruct Hlen.
Qed.


(** A single word sent while the bot waits for credentials: the table
    and the portal stay as they were. *)
Lemma message_without_credentials_witness :
  db (snd (handle_message (env := Round.round_portal) (around := Round.fair_weather)
             true 7 7 "maria" Round.start)) = db Round.start /\
  portal (snd (handle_message (env := Round.round_portal) (around := Round.fair_weather)
                 true 7 7 "maria" Round.start)) = portal Round.start.
Proof.
  apply (message_without_credentials (env := Round.round_portal)
           (around := Round.fair_weather) true 7 7 "maria" Round.start).
  right. vm_compute. discriminate.
Defined.

(** Two words sent while the bot waits, to a portal that lets the user
    in: the credentials are saved for the sender. *)
Lemma credentials_saved_example :
  Database.get_user false 9
    (db (snd (handle_message (env := Round.round_portal) (around := Round.fair_weather)
                true 9 9 "  ana   senha9 " Round.start)))
  = Some ("ana", "senha9").
Proof. reflexivity. Qed.
